(** * PowerTetris: the capacity-expansion LP and its result extraction

    A shallow embedding of the optimisation core of the PowerTetris server
    ([getAnnualFixedCost], [getMarginalCost], [buildLPModel],
    [optimizeWithHiGHS]) and of the client-side [getWeeklyFixedCost],
    followed by the code around them: the server's demand profile, week
    data and request handler, the worst-week search of the data scripts,
    and on the client the week windows, the dispatch, generation and cost
    charts, the minimum-renewables slider, the cost trajectories and the
    client-side optimizer.

    JavaScript numbers are modelled as exact rationals ([Q]); IEEE rounding,
    [NaN] and the infinities are outside the model.  The LP text that the
    server assembles with template literals is modelled by its content: a
    list of signed terms for the objective, a list of named rows for the
    constraints and a list of variables bounded below by zero. *)

From Stdlib Require Import String.
From Stdlib Require Import QArith Qabs Qpower Qminmax Qround ZArith Bool Lia Lqa.
From Stdlib Require Import List ListSet.
Import ListNotations.

Local Open Scope Q_scope.

(** ** Data model (types.ts) *)

Inductive TechType : Set :=
| SOLAR | WIND | WIND_OFFSHORE | BATTERY | NUCLEAR
| COAL | GAS_CCGT | GAS_OCGT | HYDROGEN | DIESEL.

(** The [type] field of a technology. *)
Inductive TechCategory : Set := renewable | storage | baseload | dispatchable.

(** Optional fields ([capexPerKwh?], [duration?], [fixedCapacity?]) are
    options; [isFixed?] is a boolean, absent meaning false. *)
Record TechDefinition : Set := mkTech {
  id : TechType;
  type : TechCategory;
  capex : Q;
  capexPerKwh : option Q;
  duration : option Q;
  opexFixed : Q;
  opexVar : Q;
  fuelCost : Q;
  lifetime : Z;
  wacc : Q;
  co2 : Q;
  enabled : bool;
  isFixed : bool;
  fixedCapacity : option Q
}.

(** One row of a representative week as [getWeekData] produces it.  The
    [time] stamp plays no part in the model and is left out; a weight is
    always present, so [weight || 0] is the weight. *)
Record HourlyData : Set := mkHour {
  hour : nat;
  demand : Q;
  solar : Q;
  wind : Q;
  offshore : Q;
  weight : Q;
  includeInStats : bool
}.

Definition HOURS_IN_WEEK : nat := 168.

Definition TechType_eq_dec (a b : TechType) : {a = b} + {a <> b}.
Proof. decide equality. Defined.

Definition TechType_eqb (a b : TechType) : bool :=
  if TechType_eq_dec a b then true else false.

Definition is_storage (c : TechCategory) : bool :=
  match c with storage => true | _ => false end.

Definition is_renewable (c : TechCategory) : bool :=
  match c with renewable => true | _ => false end.

(** [x || d] on an optional number: the default is taken when the field is
    absent or zero. *)
Definition orDefault (x : option Q) (d : Q) : Q :=
  match x with
  | Some v => if Qeq_bool v 0 then d else v
  | None => d
  end.

(** [a > b] on numbers. *)
Definition Qgtb (a b : Q) : bool := negb (Qle_bool a b).

(** ** CostAnnualizer *)

(** server/index.js, [getAnnualFixedCost]. *)
Definition getAnnualFixedCost (tech : TechDefinition) : Q :=
  let r := wacc tech / 100 in
  let n := lifetime tech in
  let annualizedCapex :=
    if (0 <? n)%Z then
      if Qeq_bool r 0 then capex tech / inject_Z n
      else
        let crf := (r * (1 + r) ^ n) / ((1 + r) ^ n - 1) in
        capex tech * crf
    else 0 in
  annualizedCapex + opexFixed tech.

(** src/utils/optimizer.ts, [getWeeklyFixedCost]. *)
Definition getWeeklyFixedCost (tech : TechDefinition) : Q :=
  let r := wacc tech / 100 in
  let n := lifetime tech in
  let annualizedCapex :=
    if (0 <? n)%Z then
      if Qeq_bool r 0 then capex tech / inject_Z n
      else
        let crf := (r * (1 + r) ^ n) / ((1 + r) ^ n - 1) in
        capex tech * crf
    else 0 in
  let annualFixedOpex := opexFixed tech in
  let totalAnnualFixed := annualizedCapex + annualFixedOpex in
  totalAnnualFixed / 52.

Definition getMarginalCost (tech : TechDefinition) : Q :=
  opexVar tech + fuelCost tech.

(** ** The linear program *)

(** Decision variables, named as the server names them:
    [c_ID], [e_ID], [g_ID_i], [b_ch_i], [b_dis_i], [b_soc_i], [u_i]. *)
Inductive var : Set :=
| c_ (t : TechType)
| e_ (t : TechType)
| g_ (t : TechType) (i : nat)
| b_ch_ (i : nat)
| b_dis_ (i : nat)
| b_soc_ (i : nat)
| u_ (i : nat).

Definition var_eq_dec (a b : var) : {a = b} + {a <> b}.
Proof. decide equality; try apply TechType_eq_dec; apply Nat.eq_dec. Defined.

(** A signed term of a linear expression: [+ k v] or [- k v]; a bare
    [+ v] has coefficient 1. *)
Inductive term : Set :=
| Plus (k : Q) (v : var)
| Minus (k : Q) (v : var).

Inductive relop : Set := EQ | LE.

(** Row labels. *)
Inductive rowName : Set :=
| fix_e_ (t : TechType)
| fix_c_ (t : TechType)
| cap_ (t : TechType) (i : nat)
| ch_lim_ (i : nat)
| dis_lim_ (i : nat)
| soc_cap_ (i : nat)
| soc_dyn_ (i : nat)
| soc_start_ (i : nat)
| bal_ (i : nat)
| min_res_global.

Definition rowName_eq_dec (a b : rowName) : {a = b} + {a <> b}.
Proof. decide equality; try apply TechType_eq_dec; apply Nat.eq_dec. Defined.

Record constraint : Set := mkRow {
  label : rowName;
  lhs : list term;
  rel : relop;
  rhs : Q
}.

(** The three sections of the LP text: [Minimize], [Subject To], [Bounds]
    (every listed variable is [>= 0]). *)
Record LP : Set := mkLP {
  objective : list term;
  constraints : list constraint;
  bounds : list var
}.

(** What one pass of a loop body pushes: objective terms, constraint rows,
    variables added to the set, and terms of the hour's [balanceLHS]. *)
Record Emit : Set := mkEmit {
  pushedObjective : list term;
  pushedConstraints : list constraint;
  addedVars : list var;
  pushedBalance : list term
}.

Definition noEmit : Emit := mkEmit [] [] [] [].

Definition emitApp (a b : Emit) : Emit :=
  mkEmit (pushedObjective a ++ pushedObjective b)
         (pushedConstraints a ++ pushedConstraints b)
         (addedVars a ++ addedVars b)
         (pushedBalance a ++ pushedBalance b).

Definition emitAll (l : list Emit) : Emit := fold_right emitApp noEmit l.

(** Rows paired with their index in the flattened timeline. *)
Fixpoint indexed {A : Type} (i : nat) (l : list A) : list (nat * A) :=
  match l with
  | [] => []
  | x :: r => (i, x) :: indexed (S i) r
  end.

Definition VOLL : Q := 20000000.
Definition BATTERY_EFF : Q := 0.9.
Definition BATTERY_C_RATE : Q := 1.

(** The availability factor a renewable technology reads from a row. *)
Definition profileOf (t : TechType) (hourData : HourlyData) : Q :=
  let profile := 0 in
  let profile := if TechType_eqb t SOLAR then solar hourData else profile in
  let profile := if TechType_eqb t WIND then wind hourData else profile in
  let profile := if TechType_eqb t WIND_OFFSHORE then offshore hourData else profile in
  profile.

(** ** ModelBuilder: [buildLPModel] *)

(** Body of the first [enabledTechs.forEach]: the capacity cost of one
    technology and, when it is flagged fixed, its pin.  [opexFixed] is a
    required field, so [tech.opexFixed || 0] is [opexFixed]. *)
Definition capacityBody (tech : TechDefinition) : Emit :=
  if is_storage (type tech) then
    let costPerKwh :=
      orDefault (capexPerKwh tech) (capex tech / orDefault (duration tech) 4) in
    let r := wacc tech / 100 in
    let n := lifetime tech in
    let annualizedCapexPerKwh :=
      if (0 <? n)%Z then
        if Qeq_bool r 0 then costPerKwh / inject_Z n
        else
          let crf := (r * (1 + r) ^ n) / ((1 + r) ^ n - 1) in
          costPerKwh * crf
      else 0 in
    let annualCostPerMwh :=
      (annualizedCapexPerKwh + opexFixed tech / orDefault (duration tech) 4) * 1000 in
    mkEmit [Plus annualCostPerMwh (e_ (id tech))]
           (if isFixed tech
            then [mkRow (fix_e_ (id tech)) [Plus 1 (e_ (id tech))] EQ
                        (orDefault (fixedCapacity tech) 0 * 1000)]
            else [])
           [e_ (id tech)]
           []
  else
    let cost := getAnnualFixedCost tech * 1000 in
    mkEmit [Plus cost (c_ (id tech))]
           (if isFixed tech
            then [mkRow (fix_c_ (id tech)) [Plus 1 (c_ (id tech))] EQ
                        (orDefault (fixedCapacity tech) 0 * 1000)]
            else [])
           [c_ (id tech)]
           [].

(** Body of the inner [enabledTechs.forEach] at hour [i]: generation
    variable, its weighted marginal cost, its balance term and its
    capacity link. *)
Definition generationBody (hourData : HourlyData) (i : nat) (tech : TechDefinition) : Emit :=
  if is_storage (type tech) then noEmit
  else
    let varGen := g_ (id tech) i in
    let marginalCost := getMarginalCost tech in
    mkEmit
      (if Qgtb marginalCost 0 then [Plus (marginalCost * weight hourData) varGen] else [])
      [if is_renewable (type tech) then
         let profile := profileOf (id tech) hourData in
         if Qgtb profile 0.001
         then mkRow (cap_ (id tech) i) [Plus 1 varGen; Minus profile (c_ (id tech))] LE 0
         else mkRow (cap_ (id tech) i) [Plus 1 varGen] LE 0
       else mkRow (cap_ (id tech) i) [Plus 1 varGen; Minus 1 (c_ (id tech))] LE 0]
      [varGen]
      [Plus 1 varGen].

(** The [if (battTech)] block at hour [i]. *)
Definition storageBody (hourData : HourlyData) (i : nat) (battTech : TechDefinition) : Emit :=
  let vCh := b_ch_ i in
  let vDis := b_dis_ i in
  let vSoc := b_soc_ i in
  mkEmit
    [Plus (0.1 * weight hourData) vCh]
    ([mkRow (ch_lim_ i) [Plus 1 vCh; Minus BATTERY_C_RATE (e_ (id battTech))] LE 0;
      mkRow (dis_lim_ i) [Plus 1 vDis; Minus BATTERY_C_RATE (e_ (id battTech))] LE 0;
      mkRow (soc_cap_ i) [Plus 1 vSoc; Minus 1 (e_ (id battTech))] LE 0]
     ++
     (if negb (i mod HOURS_IN_WEEK =? 0)%nat then
        let prevSoc := b_soc_ (i - 1) in
        [mkRow (soc_dyn_ i)
               [Plus 1 vSoc; Minus 1 prevSoc; Minus BATTERY_EFF vCh; Plus 1 vDis] EQ 0]
      else if (0 <? i)%nat then
        [mkRow (soc_start_ i) [Plus 1 vSoc; Minus BATTERY_EFF vCh; Plus 1 vDis] EQ 0]
      else []))
    [vCh; vDis; vSoc]
    [Plus 1 vDis; Minus 1 vCh].

(** One pass of the hour loop; the balance row closes the hour. *)
Definition hourBody (enabledTechs : list TechDefinition) (battTech : option TechDefinition)
    (i : nat) (hourData : HourlyData) : Emit :=
  let generation := emitAll (map (generationBody hourData i) enabledTechs) in
  let battery :=
    match battTech with
    | Some b => storageBody hourData i b
    | None => noEmit
    end in
  let vUnserved := u_ i in
  let unserved :=
    mkEmit [Plus (VOLL * weight hourData) vUnserved] [] [vUnserved] [Plus 1 vUnserved] in
  let pushed := emitApp generation (emitApp battery unserved) in
  mkEmit (pushedObjective pushed)
         (pushedConstraints pushed
          ++ [mkRow (bal_ i) (pushedBalance pushed) EQ (demand hourData)])
         (addedVars pushed)
         [].

(** Terms of the renewable-share row contributed by one technology. *)
Definition nonRezTermsOf (flatData : list HourlyData) (tech : TechDefinition) : list term :=
  if negb (is_renewable (type tech)) && negb (is_storage (type tech)) then
    flat_map (fun ir : nat * HourlyData =>
                let (i, row) := ir in
                if includeInStats row then [Plus (weight row) (g_ (id tech) i)] else [])
             (indexed 0 flatData)
  else [].

Definition nonRezGenTerms (enabledTechs : list TechDefinition) (flatData : list HourlyData)
  : list term := flat_map (nonRezTermsOf flatData) enabledTechs.

Definition totalAnnualDemand (flatData : list HourlyData) : Q :=
  fold_left (fun acc row => if includeInStats row then acc + demand row * weight row else acc)
            flatData 0.

(** The [if (minRenewables > 0)] block. *)
Definition minRenewablesRows (enabledTechs : list TechDefinition)
    (flatData : list HourlyData) (minRenewables : Q) : list constraint :=
  if Qgtb minRenewables 0 then
    let terms := nonRezGenTerms enabledTechs flatData in
    let maxNonRez := totalAnnualDemand flatData * (1 - minRenewables / 100) in
    match terms with
    | [] => []
    | _ :: _ => [mkRow min_res_global terms LE maxNonRez]
    end
  else [].

(** A JavaScript [Set] of variables: insertion order, no duplicates. *)
Definition addAll (vs : list var) : list var :=
  fold_left (fun s v => set_add var_eq_dec v s) vs [].

Definition enabledTechsOf (techs : list TechDefinition) : list TechDefinition :=
  filter enabled techs.

Definition findStorage (enabledTechs : list TechDefinition) : option TechDefinition :=
  find (fun t => is_storage (type t)) enabledTechs.

Record BuiltModel : Set := mkBuilt {
  lp : LP;
  vars : list var;
  flatData : list HourlyData
}.

Definition buildLPModel (techs : list TechDefinition) (dataChunks : list (list HourlyData))
    (minRenewables : Q) : BuiltModel :=
  let enabledTechs := enabledTechsOf techs in
  let flat := concat dataChunks in
  let battTech := findStorage enabledTechs in
  let capacity := emitAll (map capacityBody enabledTechs) in
  let hours :=
    emitAll (map (fun ir : nat * HourlyData => hourBody enabledTechs battTech (fst ir) (snd ir))
                 (indexed 0 flat)) in
  let pushed := emitApp capacity hours in
  let allVars := addAll (addedVars pushed) in
  mkBuilt
    (mkLP (pushedObjective pushed)
          (pushedConstraints pushed ++ minRenewablesRows enabledTechs flat minRenewables)
          allVars)
    allVars
    flat.

(** ** Meaning of a linear program *)

Definition assignment : Type := var -> Q.

Definition evalTerm (a : assignment) (t : term) : Q :=
  match t with
  | Plus k v => k * a v
  | Minus k v => - (k * a v)
  end.

Fixpoint evalTerms (a : assignment) (ts : list term) : Q :=
  match ts with
  | [] => 0
  | t :: r => evalTerm a t + evalTerms a r
  end.

Definition satisfies (a : assignment) (c : constraint) : Prop :=
  match rel c with
  | EQ => evalTerms a (lhs c) == rhs c
  | LE => evalTerms a (lhs c) <= rhs c
  end.

Definition satisfiesb (a : assignment) (c : constraint) : bool :=
  match rel c with
  | EQ => Qeq_bool (evalTerms a (lhs c)) (rhs c)
  | LE => Qle_bool (evalTerms a (lhs c)) (rhs c)
  end.

Definition feasible (p : LP) (a : assignment) : Prop :=
  (forall c, In c (constraints p) -> satisfies a c) /\
  (forall v, In v (bounds p) -> 0 <= a v).

Definition feasibleb (p : LP) (a : assignment) : bool :=
  forallb (satisfiesb a) (constraints p) && forallb (fun v => Qle_bool 0 (a v)) (bounds p).

(** ** LPSolverAdapter and ResultExtractor: [optimizeWithHiGHS] *)

(** What [highsSolver.solve] hands back: a status and, per variable name,
    a column with its primal value. *)
Record SolverResult : Type := mkSolved {
  Status : string;
  Columns : var -> option Q
}.

(** [solution[name]?.Primal || 0]. *)
Definition primal (solution : var -> option Q) (v : var) : Q :=
  match solution v with
  | Some x => x
  | None => 0
  end.

(** Objects keyed by technology id ([capacities], [mix]). *)
Definition techMap : Type := TechType -> option Q.

Definition emptyMap : techMap := fun _ => None.

Definition setKey (m : techMap) (k : TechType) (x : Q) : techMap :=
  fun j => if TechType_eqb j k then Some x else m j.

(** [m[k] || 0]. *)
Definition getOr0 (m : techMap) (k : TechType) : Q :=
  match m k with
  | Some x => x
  | None => 0
  end.

(** A row of [hourly]: the input row, the per-technology generation fields
    ([solarGen], [windGen], ... indexed here by the technology that owns
    them), the battery fields, [shortfall] and [curtailment]. *)
Record HourlyResult : Type := mkHourly {
  data : HourlyData;
  genFields : techMap;
  batteryCharge : option Q;
  batteryDischarge : option Q;
  batterySoC : option Q;
  shortfall : Q;
  curtailment : Q
}.

(** The chain of [if (t.id === ...) row.xGen = gen]; there is no field for
    the id [BATTERY]. *)
Definition setGen (t : TechType) (gen : Q) (fields : techMap) : techMap :=
  match t with
  | BATTERY => fields
  | _ => setKey fields t gen
  end.

Record SimulationResult : Type := mkSim {
  hourly : list HourlyResult;
  totalCost : Q;
  lcoe : Q;
  totalCo2 : Q;
  mix : techMap;
  capacities : techMap;
  unservedEnergy : Q;
  annualServed : Q
}.

(** A call either throws an [Error] with a message or returns. *)
Inductive outcome (A : Type) : Type :=
| Thrown (message : string)
| Returned (value : A).
Arguments Thrown {A} message.
Arguments Returned {A} value.

(** The value an enabled technology writes into [capacities]. *)
Definition extractCapacity (solution : var -> option Q) (t : TechDefinition) : Q :=
  if is_storage (type t) then primal solution (e_ (id t))
  else primal solution (c_ (id t)).

Definition capacitiesOf (solution : var -> option Q) (enabledTechs : list TechDefinition)
  : techMap :=
  fold_left (fun caps t => setKey caps (id t) (extractCapacity solution t))
            enabledTechs emptyMap.

(** What the inner [forEach] of the extraction loop threads through. *)
Record TechLoop : Type := mkTechLoop {
  rowGens : techMap;
  hourlyCurtailment : Q;
  loopMix : techMap;
  loopCo2 : Q
}.

(** The curtailment a technology adds at hour [i] (the [Curtailment Calc]
    block): the unused potential, once it exceeds the generation by more
    than 0.001. *)
Definition curtailmentAdded (capacity profile gen : Q) : Q :=
  let potential := capacity * profile in
  if Qgtb potential (gen + 0.001) then potential - gen else 0.

Definition curtailmentOf (solution : var -> option Q) (caps : techMap)
    (i : nat) (row : HourlyData) (t : TechDefinition) : Q :=
  let gen := primal solution (g_ (id t) i) in
  if is_renewable (type t) then
    let profile := profileOf (id t) row in
    let capacity := getOr0 caps (id t) in
    curtailmentAdded capacity profile gen
  else 0.

Definition dispatchBody (solution : var -> option Q) (caps : techMap)
    (i : nat) (row : HourlyData) (st : TechLoop) (t : TechDefinition) : TechLoop :=
  if is_storage (type t) then st
  else
    let gen := primal solution (g_ (id t) i) in
    let gens := setGen (id t) gen (rowGens st) in
    let curt :=
      if is_renewable (type t) then
        let profile := profileOf (id t) row in
        let capacity := getOr0 caps (id t) in
        let potential := capacity * profile in
        if Qgtb potential (gen + 0.001)
        then hourlyCurtailment st + (potential - gen)
        else hourlyCurtailment st
      else hourlyCurtailment st in
    if includeInStats row then
      let weightedGen := gen * weight row in
      mkTechLoop gens curt
                 (setKey (loopMix st) (id t) (getOr0 (loopMix st) (id t) + weightedGen))
                 (loopCo2 st + weightedGen * co2 t)
    else mkTechLoop gens curt (loopMix st) (loopCo2 st).

(** What the extraction loop over hours threads through. *)
Record HourLoop : Type := mkHourLoop {
  hourlyResults : list HourlyResult;
  accMix : techMap;
  accCo2 : Q;
  annualDemand : Q;
  annualUnserved : Q
}.

Definition extractHour (solution : var -> option Q) (enabledTechs : list TechDefinition)
    (caps : techMap) (st : HourLoop) (ir : nat * HourlyData) : HourLoop :=
  let (i, row) := ir in
  let annualDemand' :=
    if includeInStats row then annualDemand st + demand row * weight row
    else annualDemand st in
  let inner :=
    fold_left (dispatchBody solution caps i row) enabledTechs
              (mkTechLoop emptyMap 0 (accMix st) (accCo2 st)) in
  let batt := findStorage enabledTechs in
  let charge := match batt with Some _ => Some (primal solution (b_ch_ i)) | None => None end in
  let discharge := match batt with Some _ => Some (primal solution (b_dis_ i)) | None => None end in
  let soc := match batt with Some _ => Some (primal solution (b_soc_ i)) | None => None end in
  let mix' :=
    match batt with
    | Some _ =>
        if includeInStats row
        then setKey (loopMix inner) BATTERY
               (getOr0 (loopMix inner) BATTERY + primal solution (b_dis_ i) * weight row)
        else loopMix inner
    | None => loopMix inner
    end in
  let shortfall' := primal solution (u_ i) in
  let annualUnserved' :=
    if includeInStats row then annualUnserved st + shortfall' * weight row
    else annualUnserved st in
  mkHourLoop
    (hourlyResults st ++
       [mkHourly row (rowGens inner) charge discharge soc shortfall' (hourlyCurtailment inner)])
    mix' (loopCo2 inner) annualDemand' annualUnserved'.

(** Body of the fixed-cost recomputation; [capacities[t.id]] has been
    written for every enabled technology by then. *)
Definition fixedCostBody (caps : techMap) (totalFixedCost : Q) (t : TechDefinition) : Q :=
  if is_storage (type t) then
    let duration' := orDefault (duration t) 4 in
    let costPerKwh := orDefault (capexPerKwh t) (capex t / duration') in
    let r := wacc t / 100 in
    let n := lifetime t in
    let annualizedCapexPerKwh :=
      if (0 <? n)%Z then
        if Qeq_bool r 0 then costPerKwh / inject_Z n
        else
          let crf := (r * (1 + r) ^ n) / ((1 + r) ^ n - 1) in
          costPerKwh * crf
      else 0 in
    let opexPerKwh := opexFixed t / duration' in
    let totalAnnualCostPerMwh := (annualizedCapexPerKwh + opexPerKwh) * 1000 in
    totalFixedCost + totalAnnualCostPerMwh * getOr0 caps (id t)
  else
    totalFixedCost + (getAnnualFixedCost t * 1000) * getOr0 caps (id t).

(** Body of the variable-cost recomputation. *)
Definition variableCostBody (solution : var -> option Q) (enabledTechs : list TechDefinition)
    (totalVariableCost : Q) (ir : nat * HourlyData) : Q :=
  let (i, row) := ir in
  if negb (includeInStats row) then totalVariableCost
  else
    let w := weight row in
    let afterTechs :=
      fold_left (fun acc t =>
                   if is_storage (type t) then acc
                   else acc + primal solution (g_ (id t) i) * getMarginalCost t * w)
                enabledTechs totalVariableCost in
    let afterBatt :=
      match findStorage enabledTechs with
      | Some _ => afterTechs + primal solution (b_ch_ i) * 0.1 * w
      | None => afterTechs
      end in
    afterBatt + primal solution (u_ i) * 20000000 * w.

Section Optimize.

(** The solver is an external collaborator: [highsSolver.solve]. *)
Variable highsSolver : LP -> SolverResult.

Definition optimizeWithHiGHS (techs : list TechDefinition)
    (dataChunks : list (list HourlyData)) (minRenewables : Q)
  : outcome SimulationResult :=
  let built := buildLPModel techs dataChunks minRenewables in
  let result := highsSolver (lp built) in
  if negb (String.eqb (Status result) "Optimal") then
    Thrown ("Solver failed: " ++ Status result)%string
  else
    let solution := Columns result in
    let enabledTechs := enabledTechsOf techs in
    let caps := capacitiesOf solution enabledTechs in
    let hours :=
      fold_left (extractHour solution enabledTechs caps)
                (indexed 0 (flatData built))
                (mkHourLoop [] emptyMap 0 0 0) in
    let totalFixedCost := fold_left (fixedCostBody caps) enabledTechs 0 in
    let totalVariableCost :=
      fold_left (variableCostBody solution enabledTechs)
                (indexed 0 (flatData built)) 0 in
    let reportingTotalCost := totalFixedCost + totalVariableCost in
    let totalServed := Qmax 0.1 (annualDemand hours - annualUnserved hours) in
    let lcoe := reportingTotalCost / totalServed in
    Returned (mkSim (hourlyResults hours) reportingTotalCost lcoe (accCo2 hours)
                    (accMix hours) caps (annualUnserved hours) totalServed).

End Optimize.

(** ** Quantities the properties speak about *)

Definition sumQ (l : list Q) : Q := fold_right Qplus 0 l.

(** Hours of [flatData] at which a row satisfies [p], with their index. *)
Definition hoursWhere (p : HourlyData -> bool) (flat : list HourlyData)
  : list (nat * HourlyData) :=
  filter (fun ir => p (snd ir)) (indexed 0 flat).

(** Total generation of the enabled non-storage technologies at hour [i]. *)
Definition generationAt (a : assignment) (enabledTechs : list TechDefinition) (i : nat) : Q :=
  sumQ (map (fun t => a (g_ (id t) i))
            (filter (fun t => negb (is_storage (type t))) enabledTechs)).

(** Storage discharge and charge at hour [i]; zero without storage. *)
Definition dischargeAt (a : assignment) (enabledTechs : list TechDefinition) (i : nat) : Q :=
  match findStorage enabledTechs with Some _ => a (b_dis_ i) | None => 0 end.

Definition chargeAt (a : assignment) (enabledTechs : list TechDefinition) (i : nat) : Q :=
  match findStorage enabledTechs with Some _ => a (b_ch_ i) | None => 0 end.

(** The recorded availability factor of a technology at a row. *)
Definition availability (t : TechType) (row : HourlyData) : Q :=
  match t with
  | SOLAR => solar row
  | WIND => wind row
  | WIND_OFFSHORE => offshore row
  | _ => 0
  end.

(** Generation at hour [i] of the enabled technologies that are neither
    renewable nor storage. *)
Definition nonRenewableGenerationAt (a : assignment) (enabledTechs : list TechDefinition)
    (i : nat) : Q :=
  sumQ (map (fun t => a (g_ (id t) i))
            (filter (fun t => negb (is_renewable (type t)) && negb (is_storage (type t)))
                    enabledTechs)).

(** Its weighted sum over the hours flagged [includeInStats]. *)
Definition weightedNonRenewableGeneration (a : assignment)
    (enabledTechs : list TechDefinition) (flat : list HourlyData) : Q :=
  sumQ (map (fun ir : nat * HourlyData =>
               weight (snd ir) * nonRenewableGenerationAt a enabledTechs (fst ir))
            (hoursWhere includeInStats flat)).

(** Weighted demand and weighted unserved energy over the same hours. *)
Definition weightedDemand (flat : list HourlyData) : Q :=
  sumQ (map (fun ir : nat * HourlyData => demand (snd ir) * weight (snd ir))
            (hoursWhere includeInStats flat)).

Definition weightedUnserved (a : assignment) (flat : list HourlyData) : Q :=
  sumQ (map (fun ir : nat * HourlyData => a (u_ (fst ir)) * weight (snd ir))
            (hoursWhere includeInStats flat)).

(** The capacity variable of a technology and the label of its pin. *)
Definition capacityVar (t : TechDefinition) : var :=
  if is_storage (type t) then e_ (id t) else c_ (id t).

Definition pinLabel (t : TechDefinition) : rowName :=
  if is_storage (type t) then fix_e_ (id t) else fix_c_ (id t).

(** The fixed capacity the caller supplied, in GW; zero when absent. *)
Definition suppliedCapacity (t : TechDefinition) : Q :=
  match fixedCapacity t with Some v => v | None => 0 end.

(** What the extraction loop records for the hour [ir]. *)
Definition rowMatches (solution : var -> option Q) (enabledTechs : list TechDefinition)
    (caps : techMap) (ir : nat * HourlyData) (r : HourlyResult) : Prop :=
  data r = snd ir /\
  shortfall r = primal solution (u_ (fst ir)) /\
  curtailment r == sumQ (map (curtailmentOf solution caps (fst ir) (snd ir)) enabledTechs).

(** The cost the program minimises. *)
Definition objectiveValue (p : LP) (a : assignment) : Q := evalTerms a (objective p).

(** Terms [+ k v] with [k >= 0] on variables bounded below by zero. *)
Definition nonnegTermb (p : LP) (t : term) : bool :=
  match t with
  | Plus k v => Qle_bool 0 k && if in_dec var_eq_dec v (bounds p) then true else false
  | Minus _ _ => false
  end.

(** ** Sample inputs *)

(** Entries of [DEFAULT_TECHS] (constants.ts). *)
Definition defaultSolar : TechDefinition :=
  mkTech SOLAR renewable 850 None None 10 0 0 30%Z 6 0 true false (Some 0).

Definition defaultWind : TechDefinition :=
  mkTech WIND renewable 1400 None None 35 0 0 25%Z 6 0 true false None.

Definition defaultBattery : TechDefinition :=
  mkTech BATTERY storage 480 (Some 120) (Some 4) 10 1 0 20%Z 5 0 true false None.

Definition defaultNuclear : TechDefinition :=
  mkTech NUCLEAR dispatchable 8500 None None 125 2 8 40%Z 7 0 true false None.

Definition defaultGasCcgt : TechDefinition :=
  mkTech GAS_CCGT dispatchable 2000 None None 30 6 50 20%Z 10 350 true false None.

Definition sampleTechs : list TechDefinition :=
  [defaultSolar; defaultWind; defaultBattery; defaultNuclear; defaultGasCcgt].

(** A flat-demand hour (the [baseload] profile: 30000) with the given
    availability factors, weight and statistics flag. *)
Definition flatHour (i : nat) (s w : Q) (wt : Q) (stats : bool) : HourlyData :=
  mkHour i 30000 s w 0 wt stats.

(** Two short chunks, three hours in all. *)
Definition sampleChunks : list (list HourlyData) :=
  [[flatHour 0 0.5 0.2 13 true; flatHour 1 0 0.3 13 true]; [flatHour 2 0.25 0 1 false]].

(** A full representative week of 168 flat-demand hours starting at
    index [start]. *)
Definition flatWeek (start : nat) (wt : Q) (stats : bool) : list HourlyData :=
  map (fun i => flatHour i 0.5 0.2 wt stats) (seq start HOURS_IN_WEEK).


(** Two full weeks: an ordinary one standing for 13 weeks of the year and
    an extreme one kept out of the statistics. *)
Definition twoWeeks : list (list HourlyData) :=
  [flatWeek 0 13 true; flatWeek 168 1 false].


(** A solver stand-in that reports the program infeasible. *)
Definition infeasibleSolver : LP -> SolverResult :=
  fun _ => mkSolved "Infeasible" (fun _ => None).

(** Solar PV pinned at 60.000001 GW. *)
Definition pinnedSolar : TechDefinition :=
  mkTech SOLAR renewable 850 None None 10 0 0 30%Z 6 0 true true (Some 60.000001).

(** The optimum of the program for [pinnedSolar] over a flat week with a
    solar factor of 0.5: 30000 MW generated every hour, nothing unserved. *)
Definition pinnedSolarSolver : LP -> SolverResult :=
  fun _ =>
    mkSolved "Optimal"
             (fun v =>
                match v with
                | c_ SOLAR => Some 60000.001
                | g_ SOLAR _ => Some 30000
                | u_ _ => Some 0
                | _ => None
                end).

(** The only solution when nothing is enabled: all demand unserved. *)
Definition unservedSolver : LP -> SolverResult :=
  fun _ =>
    mkSolved "Optimal" (fun v => match v with u_ _ => Some 30000 | _ => None end).

(** The catalog with every technology switched off. *)
Definition allDisabled : list TechDefinition :=
  map (fun t => mkTech (id t) (type t) (capex t) (capexPerKwh t) (duration t) (opexFixed t)
                       (opexVar t) (fuelCost t) (lifetime t) (wacc t) (co2 t) false
                       (isFixed t) (fixedCapacity t))
      sampleTechs.

(** Two flat hours. *)
Definition twoHours : list (list HourlyData) :=
  [[flatHour 0 0.5 0.2 1 true; flatHour 1 0.5 0.2 1 true]].

(** ** Variables of rows and the serve-nothing point *)

Definition termVar (t : term) : var :=
  match t with
  | Plus _ v => v
  | Minus _ v => v
  end.

(** The value the pin of a fixed technology asks for on the power
    ([stor = false]) or energy ([stor = true]) capacity variable of id
    [k]; zero when no enabled technology of that kind and id is fixed. *)
Definition pinOf (enabledTechs : list TechDefinition) (stor : bool) (k : TechType) : Q :=
  match find (fun t => isFixed t && Bool.eqb (is_storage (type t)) stor
                       && TechType_eqb (id t) k) enabledTechs with
  | Some t => orDefault (fixedCapacity t) 0 * 1000
  | None => 0
  end.

(** The point that builds only what is pinned and serves nothing: every
    hour's demand is unserved, nothing is generated, charged or stored. *)
Definition unservedPoint (techs : list TechDefinition) (flat : list HourlyData) : assignment :=
  fun v =>
    match v with
    | c_ k => pinOf (enabledTechsOf techs) false k
    | e_ k => pinOf (enabledTechsOf techs) true k
    | u_ i => match nth_error flat i with Some h => demand h | None => 0 end
    | _ => 0
    end.

(** A catalog with solar PV pinned and wind, battery and gas left to the
    optimiser. *)
Definition mixedTechs : list TechDefinition :=
  [pinnedSolar; defaultWind; defaultBattery; defaultGasCcgt].

(** ** Quantities of the extraction *)

(** The loop over hours of [optimizeWithHiGHS], from its initial state. *)
Definition extractHours (solution : var -> option Q) (enabledTechs : list TechDefinition)
    (caps : techMap) (flat : list HourlyData) : HourLoop :=
  fold_left (extractHour solution enabledTechs caps) (indexed 0 flat)
            (mkHourLoop [] emptyMap 0 0 0).

(** Whether some enabled non-storage technology has id [k]. *)
Definition hasGenerator (enabledTechs : list TechDefinition) (k : TechType) : bool :=
  existsb (fun t => negb (is_storage (type t)) && TechType_eqb (id t) k) enabledTechs.

(** Generation at hour [i] of the enabled non-storage technologies of id
    [k]. *)
Definition generationOf (a : assignment) (enabledTechs : list TechDefinition)
    (k : TechType) (i : nat) : Q :=
  sumQ (map (fun t => a (g_ (id t) i))
            (filter (fun t => negb (is_storage (type t)) && TechType_eqb (id t) k)
                    enabledTechs)).

(** Weighted energy booked under key [k] of [mix]: the generation of id
    [k] and, under [BATTERY], the storage discharge, over the hours flagged
    [includeInStats]. *)
Definition weightedMix (a : assignment) (enabledTechs : list TechDefinition)
    (flat : list HourlyData) (k : TechType) : Q :=
  sumQ (map (fun ir : nat * HourlyData =>
               (generationOf a enabledTechs k (fst ir)
                + if TechType_eqb k BATTERY then dischargeAt a enabledTechs (fst ir) else 0)
               * weight (snd ir))
            (hoursWhere includeInStats flat)).

(** Weighted emissions over the hours flagged [includeInStats]. *)
Definition weightedEmissions (a : assignment) (enabledTechs : list TechDefinition)
    (flat : list HourlyData) : Q :=
  sumQ (map (fun ir : nat * HourlyData =>
               sumQ (map (fun t => a (g_ (id t) (fst ir)) * weight (snd ir) * co2 t)
                         (filter (fun t => negb (is_storage (type t))) enabledTechs)))
            (hoursWhere includeInStats flat)).

(** The fields the extraction loop fills in for the hour [ir], besides
    those of [rowMatches]. *)
Definition rowDetails (solution : var -> option Q) (enabledTechs : list TechDefinition)
    (ir : nat * HourlyData) (r : HourlyResult) : Prop :=
  (forall k,
      genFields r k =
      if hasGenerator enabledTechs k && negb (TechType_eqb k BATTERY)
      then Some (primal solution (g_ k (fst ir))) else None) /\
  batteryCharge r =
  match findStorage enabledTechs with
  | Some _ => Some (primal solution (b_ch_ (fst ir))) | None => None end /\
  batteryDischarge r =
  match findStorage enabledTechs with
  | Some _ => Some (primal solution (b_dis_ (fst ir))) | None => None end /\
  batterySoC r =
  match findStorage enabledTechs with
  | Some _ => Some (primal solution (b_soc_ (fst ir))) | None => None end.

(** ** Demand profile and week data (server/index.js) *)

(** What [new Date(time)] answers to [getUTCHours()] and [getUTCMonth()];
    unparsable timestamps are outside the model. *)
Record UtcDate : Set := mkDate {
  getUTCHours : Z;
  getUTCMonth : Z
}.

(** [Math.round]: the nearest integer, halves upwards. *)
Definition MathRound (x : Q) : Q := inject_Z (Qfloor (x + 1 / 2)).

(** [generateDemand(hour, time, demandProfile)]. *)
Definition generateDemand (hour : Z) (time : UtcDate) (demandProfile : string) : Q :=
  let baseDemand := 30000 in
  if String.eqb demandProfile "baseload" then baseDemand
  else
    let hourOfDay := Z.rem (getUTCHours time + 1) 24 in
    let month := getUTCMonth time in
    let seasonFactor := 1 in
    let seasonFactor :=
      if ((month <? 2) || (10 <? month))%Z then 1.1 else seasonFactor in
    let seasonFactor :=
      if ((5 <? month) && (month <? 8))%Z then 1.15 else seasonFactor in
    let dailyFactor := 0.8 in
    let dailyFactor :=
      if ((7 <=? hourOfDay) && (hourOfDay <? 23))%Z then 1 else dailyFactor in
    let dailyFactor :=
      if ((20 <=? hourOfDay) && (hourOfDay <? 22))%Z then 1.1 else dailyFactor in
    let dailyFactor :=
      if ((13 <=? hourOfDay) && (hourOfDay <? 16))%Z then 1.05 else dailyFactor in
    MathRound (baseDemand * seasonFactor * dailyFactor).

(** A row of a yearly factor file: [{ time, factor }]. *)
Record FactorRow : Set := mkFactor {
  time : UtcDate;
  factor : Q
}.

(** A row of the stored extreme week; [offshore] may be absent. *)
Module ExtremeRow.
Record t : Set := mk {
  hour : Z;
  time : UtcDate;
  solar : Q;
  wind : Q;
  offshore : option Q
}.
End ExtremeRow.

(** One entry of [DATASETS]. *)
Module Dataset.
Record t : Set := mk {
  solar : list FactorRow;
  wind : list FactorRow;
  offshore : list FactorRow;
  extreme : list ExtremeRow.t
}.
End Dataset.

(** [DATASETS]: the three regions the server holds. *)
Record Datasets : Set := mkDatasets {
  es : Dataset.t;
  gb : Dataset.t;
  fr : Dataset.t
}.

(** [DATASETS[region] || DATASETS['es']]. *)
Definition datasetOf (DATASETS : Datasets) (region : string) : Dataset.t :=
  if String.eqb region "es" then es DATASETS
  else if String.eqb region "gb" then gb DATASETS
  else if String.eqb region "fr" then fr DATASETS
  else es DATASETS.

(** An entry of the representative-weeks configuration. *)
Module WeekConf.
Record t : Set := mk {
  startHour : Z;
  weight : Q;
  isExtreme : bool;
  includeInStats : bool
}.
End WeekConf.

(** [array[i]] for an integer index: undefined off the array. *)
Definition nthZ {A : Type} (l : list A) (i : Z) : option A :=
  if (i <? 0)%Z then None else nth_error l (Z.to_nat i).

(** The [for] loop of [getWeekData] from index [i], with at most [fuel]
    passes left (168 at the start, which is the bound
    [i < startHour + HOURS_IN_WEEK]); reading [.time] of a missing row
    throws. *)
Fixpoint chunkLoop (dataset : Dataset.t) (demandProfile : string)
    (weight : Q) (includeInStats : bool) (fuel : nat) (i : Z)
  : outcome (list HourlyData) :=
  match fuel with
  | O => Returned []
  | S fuel' =>
      if (i <? Z.of_nat (length (Dataset.solar dataset)))%Z then
        match nthZ (Dataset.solar dataset) i with
        | None => Thrown "Cannot read properties of undefined (reading 'time')"
        | Some s =>
            let row :=
              mkHour (Z.to_nat i)
                     (generateDemand i (time s) demandProfile)
                     (factor s)
                     (match nthZ (Dataset.wind dataset) i with
                      | Some w => factor w | None => 0 end)
                     (match nthZ (Dataset.offshore dataset) i with
                      | Some o => factor o | None => 0 end)
                     weight includeInStats in
            match chunkLoop dataset demandProfile weight includeInStats fuel' (i + 1) with
            | Thrown m => Thrown m
            | Returned chunk => Returned (row :: chunk)
            end
        end
      else Returned []
  end.

(** [getWeekData(weekConf, demandProfile, region)]. *)
Definition getWeekData (DATASETS : Datasets) (weekConf : WeekConf.t)
    (demandProfile : string) (region : string) : outcome (list HourlyData) :=
  let dataset := datasetOf DATASETS region in
  if WeekConf.isExtreme weekConf then
    Returned
      (map (fun h =>
              mkHour (Z.to_nat (ExtremeRow.hour h))
                     (generateDemand (ExtremeRow.hour h) (ExtremeRow.time h) demandProfile)
                     (ExtremeRow.solar h)
                     (ExtremeRow.wind h)
                     (orDefault (ExtremeRow.offshore h) 0)
                     (WeekConf.weight weekConf)
                     (WeekConf.includeInStats weekConf))
           (Dataset.extreme dataset))
  else
    match Dataset.solar dataset with
    | [] => Returned []
    | _ :: _ =>
        chunkLoop dataset demandProfile (WeekConf.weight weekConf)
                  (WeekConf.includeInStats weekConf) HOURS_IN_WEEK
                  (WeekConf.startHour weekConf)
    end.

(** ** The request handler [POST /api/optimize] *)

(** The parsed request body; every field may be absent. *)
Module Request.
Record t : Type := mk {
  techs : option (list TechDefinition);
  demandProfile : option string;
  region : option string;
  minRenewables : option Q
}.
End Request.

Inductive ResponseBody : Type :=
| ErrorJson (error : string)
| ResultJson (result : SimulationResult).

Record Response : Type := mkResponse {
  status : nat;
  body : ResponseBody
}.

(** A destructuring default: taken when the field is absent. *)
Definition withDefault {A : Type} (x : option A) (d : A) : A :=
  match x with Some v => v | None => d end.

(** [weeks.map(w => getWeekData(w, demandProfile, region))]; the first
    throw ends the mapping. *)
Fixpoint mapWeeks (DATASETS : Datasets) (demandProfile region : string)
    (weeks : list WeekConf.t) : outcome (list (list HourlyData)) :=
  match weeks with
  | [] => Returned []
  | w :: rest =>
      match getWeekData DATASETS w demandProfile region with
      | Thrown m => Thrown m
      | Returned chunk =>
          match mapWeeks DATASETS demandProfile region rest with
          | Thrown m => Thrown m
          | Returned chunks => Returned (chunk :: chunks)
          end
      end
  end.

(** The handler: [WEEK_CONFIGS] maps a region to its weeks, [highsSolver]
    is absent until the solver is initialised.  Everything thrown inside
    the [try] is answered with status 500 and the error's message. *)
Definition postOptimize (WEEK_CONFIGS : string -> option (list WeekConf.t))
    (DATASETS : Datasets) (highsSolver : option (LP -> SolverResult))
    (req : Request.t) : Response :=
  let demandProfile := withDefault (Request.demandProfile req) "spain"%string in
  let region := withDefault (Request.region req) "es"%string in
  let minRenewables := withDefault (Request.minRenewables req) 0 in
  match Request.techs req with
  | None => mkResponse 400 (ErrorJson "Missing techs")
  | Some techs =>
      match highsSolver with
      | None => mkResponse 503 (ErrorJson "Solver not ready")
      | Some solver =>
          let weeks :=
            match WEEK_CONFIGS region with
            | Some w => Some w
            | None => WEEK_CONFIGS "es"%string
            end in
          match weeks with
          | None =>
              mkResponse 500
                (ErrorJson "Cannot read properties of undefined (reading 'map')")
          | Some weeks =>
              match mapWeeks DATASETS demandProfile region weeks with
              | Thrown m => mkResponse 500 (ErrorJson m)
              | Returned dataChunks =>
                  match optimizeWithHiGHS solver techs dataChunks minRenewables with
                  | Thrown m => mkResponse 500 (ErrorJson m)
                  | Returned result => mkResponse 200 (ResultJson result)
                  end
              end
          end
      end
  end.

(** ** Sample data *)

(** Midnight UTC on a January day and 19:00 UTC on a July day. *)
Definition januaryNight : UtcDate := mkDate 0 0.
Definition julyEvening : UtcDate := mkDate 19 6.

(** A year file of 200 hours with a constant factor. *)
Definition constantYear (f : Q) : list FactorRow :=
  map (fun _ => mkFactor julyEvening f) (seq 0 200).

Definition sampleDataset : Dataset.t :=
  Dataset.mk (constantYear 0.5) (constantYear 0.2) []
             [ExtremeRow.mk 0 januaryNight 0 0.1 None;
              ExtremeRow.mk 1 januaryNight 0 0.05 (Some 0.3)].

Definition sampleDatasets : Datasets :=
  mkDatasets sampleDataset sampleDataset sampleDataset.


(** ** The worst-week search of the data-preparation scripts *)

(** A row of a raw profile file: its timestamp and its [NATIONAL] factor
    (read as [NATIONAL || 0]). *)
Module Raw.
Record row : Set := mk {
  time : UtcDate;
  NATIONAL : Q
}.
End Raw.














(** ** The client's week windows *)

(** [Array.prototype.slice(start, end)] with integer arguments: a
    negative argument counts from the end of the array, both are clamped
    to the array, and nothing is returned when the end is not after the
    start. *)
Definition jsSlice {A : Type} (l : list A) (start end_ : Z) : list A :=
  let len := Z.of_nat (length l) in
  let k := if (start <? 0)%Z then Z.max (len + start) 0 else Z.min start len in
  let final := if (end_ <? 0)%Z then Z.max (len + end_) 0 else Z.min end_ len in
  firstn (Z.to_nat (final - k)) (skipn (Z.to_nat k) l).

(** src/utils/dataLoader.ts. *)
Module DataLoader.
Definition getWeekData (fullData : list HourlyData) (startHour : Z) : list HourlyData :=
  jsSlice fullData startHour (startHour + 168).
End DataLoader.

(** [RepresentativeWeek] of src/types.ts. *)
Module RepresentativeWeek.
Record t : Set := mk {
  startHour : Z;
  label : string;
  weight : option Q
}.
End RepresentativeWeek.

(** [Array.prototype.findIndex], [None] standing for -1. *)
Fixpoint findIndex {A : Type} (p : A -> bool) (l : list A) : option nat :=
  match l with
  | [] => None
  | x :: rest => if p x then Some 0%nat else option_map S (findIndex p rest)
  end.

(** src/components/Charts.tsx: a point of the weekly dispatch chart;
    [fullDate], a display label, is left out. *)
Module DispatchPoint.
Record t : Set := mk {
  name : nat;
  demand : Q;
  Solar : Q;
  Wind : Q;
  OffshoreWind : Q;
  Nuclear : Q;
  Coal : Q;
  GasCCGT : Q;
  GasOCGT : Q;
  Hydrogen : Q;
  Diesel : Q;
  BatteryDischarge : Q;
  BatteryCharge : Q;
  Shortfall : Q;
  Curtailment : Q
}.
End DispatchPoint.

Definition currentChunkIndex (weeks : list RepresentativeWeek.t) (weekIndex : Z) : nat :=
  match findIndex (fun w => (RepresentativeWeek.startHour w =? weekIndex)%Z) weeks with
  | Some idx => idx
  | None => 0%nat
  end.

(** The [chunk] of [dispatchData]. *)
Definition dispatchChunk (result : SimulationResult) (currentChunkIndex : nat)
  : list HourlyResult :=
  let start := (Z.of_nat currentChunkIndex * 168)%Z in
  let end_ := (start + 168)%Z in
  jsSlice (hourly result) start end_.

Definition dispatchPoint (ih : nat * HourlyResult) : DispatchPoint.t :=
  let (i, h) := ih in
  DispatchPoint.mk i
    (demand (data h))
    (getOr0 (genFields h) SOLAR)
    (getOr0 (genFields h) WIND)
    (getOr0 (genFields h) WIND_OFFSHORE)
    (getOr0 (genFields h) NUCLEAR)
    (getOr0 (genFields h) COAL)
    (getOr0 (genFields h) GAS_CCGT)
    (getOr0 (genFields h) GAS_OCGT)
    (getOr0 (genFields h) HYDROGEN)
    (getOr0 (genFields h) DIESEL)
    (orDefault (batteryDischarge h) 0)
    (-1 * orDefault (batteryCharge h) 0)
    (shortfall h)
    (curtailment h).

Definition dispatchData (result : SimulationResult) (currentChunkIndex : nat)
  : list DispatchPoint.t :=
  map dispatchPoint (indexed 0 (dispatchChunk result currentChunkIndex)).

(** The series of stack 1 below [Curtailment], in the order the chart
    stacks them. *)
Definition stackedSupply (p : DispatchPoint.t) : Q :=
  DispatchPoint.Solar p + DispatchPoint.Wind p + DispatchPoint.OffshoreWind p
  + DispatchPoint.Nuclear p + DispatchPoint.BatteryDischarge p + DispatchPoint.GasCCGT p
  + DispatchPoint.Coal p + DispatchPoint.GasOCGT p + DispatchPoint.Diesel p
  + DispatchPoint.Hydrogen p + DispatchPoint.Shortfall p.

(** ** The minimum-renewables slider (src/components/Sidebar.tsx) *)

Definition steps : list Q :=
  [0; 10; 20; 30; 40; 50; 60; 70; 80; 85; 90; 95; 97; 99; 99.9].

(** [Math.abs(a) < Math.abs(b)]. *)
Definition absLess (a b : Q) : bool := Qgtb (Qabs b) (Qabs a).

(** The [reduce] over [steps]: [prev] is replaced by [i] when the step at
    [i] is strictly nearer to [minRenewables] than the step at [prev]. *)
Definition nearestFrom (steps : list Q) (minRenewables : Q) (rest : list (nat * Q))
    (prev : nat) : nat :=
  fold_left (fun prev (ic : nat * Q) =>
               let (i, curr) := ic in
               if absLess (curr - minRenewables) (nth prev steps 0 - minRenewables)
               then i else prev)
            rest prev.

Definition currentIndexIn (steps : list Q) (minRenewables : Q) : nat :=
  match findIndex (fun s => Qeq_bool s minRenewables) steps with
  | Some idx => idx
  | None => nearestFrom steps minRenewables (indexed 0 steps) 0
  end.

Definition currentIndex (minRenewables : Q) : nat := currentIndexIn steps minRenewables.
(** What the [reduce] has established once the steps before [n] are
    behind it. *)
Definition nearestSoFar (steps : list Q) (x : Q) (n prev : nat) : Prop :=
  (prev < length steps)%nat /\
  forall j, (j < n)%nat ->
            Qabs (nth prev steps 0 - x) <= Qabs (nth j steps 0 - x) /\
            ((j < prev)%nat -> Qabs (nth prev steps 0 - x) < Qabs (nth j steps 0 - x)).

(** ** Cost trajectories (src/constants.ts, src/App.tsx) *)

Module GenerationCost.
Record t : Set := mk {
  capex : Q;
  opexFixed : Q
}.
End GenerationCost.

Module StorageCost.
Record t : Set := mk {
  capexPerKwh : Q;
  opexFixed : Q
}.
End StorageCost.

Module Projection.
Record t : Set := mk {
  solar : GenerationCost.t;
  wind : GenerationCost.t;
  battery : StorageCost.t
}.
End Projection.

(** [BNEF_PROJECTIONS[year]]; [None] for a year without an entry. *)
Definition BNEF_PROJECTIONS (year : Z) : option Projection.t :=
  if (year =? 2025)%Z then
    Some (Projection.mk (GenerationCost.mk 850 10) (GenerationCost.mk 1400 35)
                        (StorageCost.mk 120 10))
  else if (year =? 2030)%Z then
    Some (Projection.mk (GenerationCost.mk 650 9) (GenerationCost.mk 1150 32)
                        (StorageCost.mk 90 8))
  else if (year =? 2035)%Z then
    Some (Projection.mk (GenerationCost.mk 550 8) (GenerationCost.mk 1000 29)
                        (StorageCost.mk 70 6))
  else if (year =? 2040)%Z then
    Some (Projection.mk (GenerationCost.mk 500 7) (GenerationCost.mk 900 26)
                        (StorageCost.mk 55 5))
  else if (year =? 2045)%Z then
    Some (Projection.mk (GenerationCost.mk 450 6) (GenerationCost.mk 820 24)
                        (StorageCost.mk 45 4))
  else if (year =? 2050)%Z then
    Some (Projection.mk (GenerationCost.mk 400 6) (GenerationCost.mk 780 22)
                        (StorageCost.mk 35 3))
  else None.

Definition BNEF_YEARS : list Z := [2025; 2030; 2035; 2040; 2045; 2050]%Z.

(** [Record<TechType, TechDefinition>]: an entry under every key. *)
Definition Techs : Type := TechType -> TechDefinition.

(** [{ ...techs, [k]: t }]. *)
Definition setTech (techs : Techs) (k : TechType) (t : TechDefinition) : Techs :=
  fun j => if TechType_eqb j k then t else techs j.

(** The entries of [DEFAULT_TECHS] not listed among the sample inputs. *)
Definition defaultWindOffshore : TechDefinition :=
  mkTech WIND_OFFSHORE renewable 3200 None None 80 3 0 25%Z 7 0 false false None.

Definition defaultCoal : TechDefinition :=
  mkTech COAL dispatchable 3500 None None 40 5 25 30%Z 10 950 true false None.

Definition defaultGasOcgt : TechDefinition :=
  mkTech GAS_OCGT dispatchable 800 None None 20 10 68.3 20%Z 10 500 true false None.

Definition defaultHydrogen : TechDefinition :=
  mkTech HYDROGEN dispatchable 1000 None None 25 8 200 20%Z 8 0 true false None.

Definition defaultDiesel : TechDefinition :=
  mkTech DIESEL dispatchable 350 None None 10 15 150 20%Z 10 700 true false None.

Definition DEFAULT_TECHS : Techs :=
  fun k =>
    match k with
    | SOLAR => defaultSolar
    | WIND => defaultWind
    | WIND_OFFSHORE => defaultWindOffshore
    | BATTERY => defaultBattery
    | NUCLEAR => defaultNuclear
    | COAL => defaultCoal
    | GAS_CCGT => defaultGasCcgt
    | GAS_OCGT => defaultGasOcgt
    | HYDROGEN => defaultHydrogen
    | DIESEL => defaultDiesel
    end.

(** The updater the BNEF effect hands to [setTechs]. *)
Definition applyProjection (projection : Projection.t) (prev : Techs) : Techs :=
  let batteryDuration := orDefault (duration (prev BATTERY)) 4 in
  let s := prev SOLAR in
  let w := prev WIND in
  let b := prev BATTERY in
  setTech
    (setTech
       (setTech prev SOLAR
          (mkTech (id s) (type s) (GenerationCost.capex (Projection.solar projection))
                  (capexPerKwh s) (duration s)
                  (GenerationCost.opexFixed (Projection.solar projection))
                  (opexVar s) (fuelCost s) (lifetime s) (wacc s) (co2 s) (enabled s)
                  (isFixed s) (fixedCapacity s)))
       WIND
       (mkTech (id w) (type w) (GenerationCost.capex (Projection.wind projection))
               (capexPerKwh w) (duration w)
               (GenerationCost.opexFixed (Projection.wind projection))
               (opexVar w) (fuelCost w) (lifetime w) (wacc w) (co2 w) (enabled w)
               (isFixed w) (fixedCapacity w)))
    BATTERY
    (mkTech (id b) (type b)
            (StorageCost.capexPerKwh (Projection.battery projection) * batteryDuration)
            (Some (StorageCost.capexPerKwh (Projection.battery projection)))
            (duration b)
            (StorageCost.opexFixed (Projection.battery projection))
            (opexVar b) (fuelCost b) (lifetime b) (wacc b) (co2 b) (enabled b)
            (isFixed b) (fixedCapacity b)).

(** The state of [App] the cost trajectory touches. *)
Record AppState : Type := mkApp {
  techs : Techs;
  manualTechs : option Techs;
  followBnef : bool;
  bnefYear : Z
}.

(** The BNEF effect. *)
Definition bnefEffect (st : AppState) : AppState :=
  if negb (followBnef st) then st
  else
    match BNEF_PROJECTIONS (bnefYear st) with
    | None => st
    | Some projection =>
        mkApp (applyProjection projection (techs st)) (manualTechs st) (followBnef st)
              (bnefYear st)
    end.

Definition handleToggleBnef (enabled : bool) (st : AppState) : AppState :=
  if enabled then mkApp (techs st) (Some (techs st)) true (bnefYear st)
  else
    match manualTechs st with
    | Some manual => mkApp manual None false (bnefYear st)
    | None => mkApp (techs st) (manualTechs st) false (bnefYear st)
    end.

(** A field of a technology with the value the sidebar sets it to. *)
Inductive FieldValue : Set :=
| capexIs (val : Q)
| capexPerKwhIs (val : Q)
| opexFixedIs (val : Q)
| opexVarIs (val : Q)
| fuelCostIs (val : Q)
| lifetimeIs (val : Z)
| waccIs (val : Q)
| enabledIs (val : bool)
| isFixedIs (val : bool)
| fixedCapacityIs (val : Q).

(** [{ ...tech, [field]: val }]. *)
Definition setField (t : TechDefinition) (fv : FieldValue) : TechDefinition :=
  match fv with
  | capexIs v =>
      mkTech (id t) (type t) v (capexPerKwh t) (duration t) (opexFixed t) (opexVar t)
             (fuelCost t) (lifetime t) (wacc t) (co2 t) (enabled t) (isFixed t)
             (fixedCapacity t)
  | capexPerKwhIs v =>
      mkTech (id t) (type t) (capex t) (Some v) (duration t) (opexFixed t) (opexVar t)
             (fuelCost t) (lifetime t) (wacc t) (co2 t) (enabled t) (isFixed t)
             (fixedCapacity t)
  | opexFixedIs v =>
      mkTech (id t) (type t) (capex t) (capexPerKwh t) (duration t) v (opexVar t)
             (fuelCost t) (lifetime t) (wacc t) (co2 t) (enabled t) (isFixed t)
             (fixedCapacity t)
  | opexVarIs v =>
      mkTech (id t) (type t) (capex t) (capexPerKwh t) (duration t) (opexFixed t) v
             (fuelCost t) (lifetime t) (wacc t) (co2 t) (enabled t) (isFixed t)
             (fixedCapacity t)
  | fuelCostIs v =>
      mkTech (id t) (type t) (capex t) (capexPerKwh t) (duration t) (opexFixed t) (opexVar t)
             v (lifetime t) (wacc t) (co2 t) (enabled t) (isFixed t) (fixedCapacity t)
  | lifetimeIs v =>
      mkTech (id t) (type t) (capex t) (capexPerKwh t) (duration t) (opexFixed t) (opexVar t)
             (fuelCost t) v (wacc t) (co2 t) (enabled t) (isFixed t) (fixedCapacity t)
  | waccIs v =>
      mkTech (id t) (type t) (capex t) (capexPerKwh t) (duration t) (opexFixed t) (opexVar t)
             (fuelCost t) (lifetime t) v (co2 t) (enabled t) (isFixed t) (fixedCapacity t)
  | enabledIs v =>
      mkTech (id t) (type t) (capex t) (capexPerKwh t) (duration t) (opexFixed t) (opexVar t)
             (fuelCost t) (lifetime t) (wacc t) (co2 t) v (isFixed t) (fixedCapacity t)
  | isFixedIs v =>
      mkTech (id t) (type t) (capex t) (capexPerKwh t) (duration t) (opexFixed t) (opexVar t)
             (fuelCost t) (lifetime t) (wacc t) (co2 t) (enabled t) v (fixedCapacity t)
  | fixedCapacityIs v =>
      mkTech (id t) (type t) (capex t) (capexPerKwh t) (duration t) (opexFixed t) (opexVar t)
             (fuelCost t) (lifetime t) (wacc t) (co2 t) (enabled t) (isFixed t) (Some v)
  end.

Definition handleTechChange (k : TechType) (fv : FieldValue) (st : AppState) : AppState :=
  mkApp (setTech (techs st) k (setField (techs st k) fv)) (manualTechs st) (followBnef st)
        (bnefYear st).

Definition setBnefYear (year : Z) (st : AppState) : AppState :=
  mkApp (techs st) (manualTechs st) (followBnef st) year.

(** What the user does in the sidebar. *)
Inductive Event : Set :=
| ToggleBnef (enabled : bool)
| SetBnefYear (year : Z)
| TechChange (k : TechType) (fv : FieldValue).

Definition handle (ev : Event) (st : AppState) : AppState :=
  match ev with
  | ToggleBnef enabled => handleToggleBnef enabled st
  | SetBnefYear year => setBnefYear year st
  | TechChange k fv => handleTechChange k fv st
  end.

(** An event, the render it causes and the BNEF effect, which runs when
    one of its dependencies [followBnef] and [bnefYear] has changed. *)
Definition step (st : AppState) (ev : Event) : AppState :=
  let st' := handle ev st in
  if Bool.eqb (followBnef st') (followBnef st) && (bnefYear st' =? bnefYear st)%Z
  then st' else bnefEffect st'.

Definition isToggle (ev : Event) : bool :=
  match ev with
  | ToggleBnef _ => true
  | _ => false
  end.

(** The cost per kWh the server prices an enabled storage technology at. *)
Definition storageCostBasis (t : TechDefinition) : Q :=
  orDefault (capexPerKwh t) (capex t / orDefault (duration t) 4).

(** ** Cost charts (src/components/Charts.tsx) *)

Definition getAnnualFixedCostStrp (tech : TechDefinition) : Q :=
  let r := wacc tech / 100 in
  let n := lifetime tech in
  let annualizedCapex :=
    if (0 <? n)%Z then
      if Qeq_bool r 0 then capex tech / inject_Z n
      else
        let crf := (r * (1 + r) ^ n) / ((1 + r) ^ n - 1) in
        capex tech * crf
    else 0 in
  annualizedCapex + opexFixed tech.

Definition getStorageAnnualFixedCost (tech : TechDefinition) (energyMWh : Q) : Q :=
  let duration' := orDefault (duration tech) 4 in
  let capexPerKwh' := orDefault (capexPerKwh tech) (capex tech / duration') in
  let r := wacc tech / 100 in
  let n := lifetime tech in
  let annualizedCapexPerKwh :=
    if (0 <? n)%Z then
      if Qeq_bool r 0 then capexPerKwh' / inject_Z n
      else
        let crf := (r * (1 + r) ^ n) / ((1 + r) ^ n - 1) in
        capexPerKwh' * crf
    else 0 in
  let opexPerKwh := opexFixed tech / duration' in
  let totalAnnualCostPerMwh := (annualizedCapexPerKwh + opexPerKwh) * 1000 in
  totalAnnualCostPerMwh * energyMWh.

(** [annualFixed] and [annualVariable] of the waterfall and of the
    per-technology cost chart. *)
Definition annualFixed (result : SimulationResult) (t : TechDefinition) : Q :=
  let capacityVal := getOr0 (capacities result) (id t) in
  if is_storage (type t) then getStorageAnnualFixedCost t capacityVal
  else (getAnnualFixedCostStrp t * 1000) * capacityVal.

Definition annualVariable (result : SimulationResult) (t : TechDefinition) : Q :=
  let genMWh := getOr0 (mix result) (id t) in
  if is_storage (type t) then (genMWh / 0.9) * 0.1
  else genMWh * (opexVar t + fuelCost t).

(** Weighted storage charge over the hours flagged [includeInStats]. *)
Definition weightedCharge (a : assignment) (enabledTechs : list TechDefinition)
    (flat : list HourlyData) : Q :=
  sumQ (map (fun ir : nat * HourlyData => chargeAt a enabledTechs (fst ir) * weight (snd ir))
            (hoursWhere includeInStats flat)).


(** ** The client-side optimizer (src/utils/optimizer.ts) *)

(** JavaScript objects used as maps: property lookup and assignment, which
    replaces the value of a property the object has and appends a new
    property otherwise. *)
Section ObjectAsMap.
Context {K V : Type} (K_eq_dec : forall a b : K, {a = b} + {a <> b}).

Fixpoint lookup (o : list (K * V)) (k : K) : option V :=
  match o with
  | [] => None
  | (k', v) :: rest => if K_eq_dec k' k then Some v else lookup rest k
  end.

Fixpoint assign (o : list (K * V)) (k : K) (v : V) : list (K * V) :=
  match o with
  | [] => [(k, v)]
  | (k', v') :: rest =>
      if K_eq_dec k' k then (k', v) :: rest else (k', v') :: assign rest k v
  end.

End ObjectAsMap.

Module Optimizer.

(** Constraint names: [bal_i], [soc_dyn_i], [soc_max_i], [cap_ID_i],
    [ch_lim_i], [dis_lim_i]. *)
Inductive cname : Set :=
| bal (i : nat)
| soc_dyn (i : nat)
| soc_max (i : nat)
| cap (t : TechType) (i : nat)
| ch_lim (i : nat)
| dis_lim (i : nat).

Definition cname_eq_dec (a b : cname) : {a = b} + {a <> b}.
Proof. decide equality; try apply Nat.eq_dec; apply TechType_eq_dec. Defined.

(** Property names of a variable object: [cost] or a constraint name. *)
Inductive key : Set :=
| cost
| on (c : cname).

Definition key_eq_dec (a b : key) : {a = b} + {a <> b}.
Proof. decide equality. apply cname_eq_dec. Defined.

(** [{ equal: q }] and [{ max: q }]. *)
Inductive bound : Set :=
| equal (q : Q)
| max (q : Q).

(** The model handed to javascript-lp-solver ([optimize] and [opType]
    are constant: minimise [cost]). *)
Record Model : Set := mkModel {
  constraints : list (cname * bound);
  variables : list (var * list (key * Q))
}.

(** [model.constraints[c] = b]. *)
Definition setConstraint (m : Model) (c : cname) (b : bound) : Model :=
  mkModel (assign cname_eq_dec (constraints m) c b) (variables m).

(** [model.variables[v] = { ... }]. *)
Definition setVariable (m : Model) (v : var) (props : list (key * Q)) : Model :=
  mkModel (constraints m) (assign var_eq_dec (variables m) v props).

(** [model.variables[v][k] = x]: a [TypeError] when the model has no
    variable [v]. *)
Definition setCoefficient (m : Model) (v : var) (k : key) (x : Q) : outcome Model :=
  match lookup var_eq_dec (variables m) v with
  | None => Thrown "Cannot set properties of undefined"
  | Some props =>
      Returned (mkModel (constraints m)
                        (assign var_eq_dec (variables m) v (assign key_eq_dec props k x)))
  end.

Definition andThen {A B : Type} (x : outcome A) (f : A -> outcome B) : outcome B :=
  match x with
  | Thrown message => Thrown message
  | Returned a => f a
  end.

Definition VOLL : Q := 10000.
Definition BATTERY_DURATION : Q := 4.
Definition BATTERY_EFF : Q := 0.9.

Definition getMarginalCost (tech : TechDefinition) : Q :=
  opexVar tech + fuelCost tech.

(** Step 2: the capacity variable of one enabled technology. *)
Definition capacityStep (WEEKS_COUNT : nat) (m : Model) (tech : TechDefinition) : Model :=
  let v_cap := c_ (id tech) in
  setVariable m v_cap
              [(cost, getWeeklyFixedCost tech * 1000 * inject_Z (Z.of_nat WEEKS_COUNT))].

(** Step 3, the [forEach] over generation technologies at hour [i]. *)
Definition generationStep (hourData : HourlyData) (i : nat) (acc : outcome Model)
    (tech : TechDefinition) : outcome Model :=
  andThen acc (fun m =>
    if is_storage (type tech) then Returned m
    else
      let v_gen := g_ (id tech) i in
      let c_cap_limit := cap (id tech) i in
      let m := setVariable m v_gen
                 [(cost, getMarginalCost tech); (on (bal i), 1); (on c_cap_limit, 1)] in
      let m := setConstraint m c_cap_limit (max 0) in
      let v_cap := c_ (id tech) in
      if is_renewable (type tech) then
        let profile := if TechType_eqb (id tech) SOLAR then solar hourData
                       else wind hourData in
        setCoefficient m v_cap (on c_cap_limit) (-1 * orDefault (Some profile) 0)
      else
        setCoefficient m v_cap (on c_cap_limit) (-1)).

(** Step 3, the storage block at hour [i]. *)
Definition storageStep (TOTAL_HOURS i : nat) (battTech : TechDefinition) (m : Model)
  : outcome Model :=
  let v_ch := b_ch_ i in
  let v_dis := b_dis_ i in
  let v_soc := b_soc_ i in
  let v_cap_batt := c_ (id battTech) in
  let m := setVariable m v_ch
             [(cost, 0.1); (on (bal i), -1); (on (soc_dyn i), -1 * BATTERY_EFF)] in
  let m := setVariable m v_dis [(cost, 0); (on (bal i), 1); (on (soc_dyn i), 1)] in
  let m := setVariable m v_soc [(cost, 0); (on (soc_dyn i), 1); (on (soc_max i), 1)] in
  let isWeekStart := (i mod HOURS_IN_WEEK =? 0)%nat in
  andThen
    (if negb isWeekStart then
       if (Z.of_nat i <? Z.of_nat TOTAL_HOURS - 1)%Z
          && negb ((i + 1) mod HOURS_IN_WEEK =? 0)%nat
       then setCoefficient m v_soc (on (soc_dyn (i + 1))) (-1)
       else Returned m
     else Returned m)
    (fun m =>
  andThen
    (if negb ((i + 1) mod HOURS_IN_WEEK =? 0)%nat then
       setCoefficient m v_soc (on (soc_dyn (i + 1))) (-1)
     else
       let startOfWeekIndex := (i - (HOURS_IN_WEEK - 1))%nat in
       setCoefficient m v_soc (on (soc_dyn startOfWeekIndex)) (-1))
    (fun m =>
  let m := setConstraint m (ch_lim i) (max 0) in
  let m := setConstraint m (dis_lim i) (max 0) in
  andThen (setCoefficient m v_ch (on (ch_lim i)) 1) (fun m =>
  andThen (setCoefficient m v_cap_batt (on (ch_lim i)) (-1)) (fun m =>
  andThen (setCoefficient m v_dis (on (dis_lim i)) 1) (fun m =>
  andThen (setCoefficient m v_cap_batt (on (dis_lim i)) (-1)) (fun m =>
  setCoefficient m v_cap_batt (on (soc_max i)) (-1 * BATTERY_DURATION))))))).

(** Step 3, one pass of the loop over hours. *)
Definition hourStep (enabledTechs : list TechDefinition) (TOTAL_HOURS : nat)
    (acc : outcome Model) (ih : nat * HourlyData) : outcome Model :=
  andThen acc (fun m =>
    let (i, hourData) := ih in
    let m := setConstraint m (bal i) (equal (demand hourData)) in
    let hasStorage := existsb (fun t => is_storage (type t)) enabledTechs in
    let m := if hasStorage
             then setConstraint (setConstraint m (soc_dyn i) (equal 0)) (soc_max i) (max 0)
             else m in
    andThen (fold_left (generationStep hourData i) enabledTechs (Returned m)) (fun m =>
    andThen (match findStorage enabledTechs with
             | Some battTech => storageStep TOTAL_HOURS i battTech m
             | None => Returned m
             end) (fun m =>
    let v_unserved := u_ i in
    Returned (setVariable m v_unserved [(cost, VOLL); (on (bal i), 1)])))).

(** Steps 1 to 3. *)
Definition buildModel (enabledTechs : list TechDefinition)
    (dataChunks : list (list HourlyData)) : outcome Model :=
  let WEEKS_COUNT := length dataChunks in
  let flattenedData := concat dataChunks in
  let TOTAL_HOURS := length flattenedData in
  let model := mkModel [] [] in
  let model := fold_left (capacityStep WEEKS_COUNT) enabledTechs model in
  fold_left (hourStep enabledTechs TOTAL_HOURS) (indexed 0 flattenedData) (Returned model).

(** What [Solve] returns: the value of a variable under its name (absent
    when zero) and the objective under [result]. *)
Record Solution : Type := mkSolution {
  values : var -> option Q;
  result : option Q
}.

(** [solution[name] || 0]. *)
Definition valueOf (solution : Solution) (v : var) : Q :=
  match values solution v with
  | Some x => if Qeq_bool x 0 then 0 else x
  | None => 0
  end.

(** A row of [hourly]: the input row and the fields the loop adds. *)
Record Row : Type := mkRow {
  data : HourlyData;
  genFields : techMap;
  curtailment : option Q;
  batteryCharge : option Q;
  batteryDischarge : option Q;
  batterySoC : option Q;
  shortfall : Q
}.

Record Result : Type := mkResult {
  hourly : list Row;
  totalCost : Q;
  lcoe : Q;
  totalCo2 : Q;
  mix : techMap;
  capacities : techMap;
  unservedEnergy : Q
}.

(** [Object.values(TechType)]. *)
Definition allTechTypes : list TechType :=
  [SOLAR; WIND; WIND_OFFSHORE; BATTERY; NUCLEAR; COAL; GAS_CCGT; GAS_OCGT; HYDROGEN; DIESEL].

(** An object with the value 0 under every technology id. *)
Definition zeroMap : techMap := fun _ => Some 0.

(** The result of the guard against empty data. *)
Definition emptyResult : Result := mkResult [] 0 0 0 zeroMap zeroMap 0.

(** The result of the [catch] block. *)
Definition failedResult : Result := mkResult [] 0 0 0 emptyMap emptyMap 0.

(** [capacities] after both loops: the solved capacity of every enabled
    technology, 0 under every id left without a (non-zero) value. *)
Definition capacitiesOf (solution : Solution) (enabledTechs : list TechDefinition) : techMap :=
  let capacities :=
    fold_left (fun caps t => setKey caps (id t) (valueOf solution (c_ (id t))))
              enabledTechs emptyMap in
  fold_left (fun caps k =>
               match caps k with
               | Some x => if Qeq_bool x 0 then setKey caps k 0 else caps
               | None => setKey caps k 0
               end)
            allTechTypes capacities.

(** The chain of [if (t.id === ...) row.xGen = gen]: no field for the ids
    [WIND_OFFSHORE] and [BATTERY]. *)
Definition setGen (t : TechType) (gen : Q) (fields : techMap) : techMap :=
  match t with
  | WIND_OFFSHORE | BATTERY => fields
  | _ => setKey fields t gen
  end.

(** What the inner [forEach] of the extraction loop threads through. *)
Record TechLoop : Type := mkTechLoop {
  rowGens : techMap;
  rowCurtailment : option Q;
  loopMix : techMap;
  loopCo2 : Q
}.

(** [Math.max(0, x)]. *)
Definition max0 (x : Q) : Q := Qmax 0 x.

Definition dispatchStep (solution : Solution) (capacities : techMap) (i : nat)
    (row : HourlyData) (st : TechLoop) (t : TechDefinition) : TechLoop :=
  if is_storage (type t) then st
  else
    let gen := valueOf solution (g_ (id t) i) in
    let gens := setGen (id t) gen (rowGens st) in
    let mix := setKey (loopMix st) (id t) (getOr0 (loopMix st) (id t) + gen) in
    let totalCo2 := loopCo2 st + gen * co2 t in
    let curt :=
      if is_renewable (type t) then
        let profile := if TechType_eqb (id t) SOLAR then solar row else wind row in
        let potential := getOr0 capacities (id t) * profile in
        Some (orDefault (rowCurtailment st) 0 + max0 (potential - gen))
      else rowCurtailment st in
    mkTechLoop gens curt mix totalCo2.

(** What the extraction loop over hours threads through. *)
Record HourLoop : Type := mkHourLoop {
  hourlyResults : list Row;
  accMix : techMap;
  accCo2 : Q;
  totalDemand : Q
}.

Definition extractStep (solution : Solution) (enabledTechs : list TechDefinition)
    (capacities : techMap) (st : HourLoop) (ir : nat * HourlyData) : HourLoop :=
  let (i, row) := ir in
  let totalDemand' := totalDemand st + demand row in
  let inner :=
    fold_left (dispatchStep solution capacities i row) enabledTechs
              (mkTechLoop emptyMap None (accMix st) (accCo2 st)) in
  let batt := findStorage enabledTechs in
  let charge := match batt with Some _ => Some (valueOf solution (b_ch_ i)) | None => None end in
  let discharge :=
    match batt with Some _ => Some (valueOf solution (b_dis_ i)) | None => None end in
  let soc := match batt with Some _ => Some (valueOf solution (b_soc_ i)) | None => None end in
  let mix' :=
    match batt with
    | Some _ =>
        setKey (loopMix inner) BATTERY
               (getOr0 (loopMix inner) BATTERY + valueOf solution (b_dis_ i))
    | None => loopMix inner
    end in
  mkHourLoop
    (hourlyResults st ++
       [mkRow row (rowGens inner) (rowCurtailment inner) charge discharge soc
              (valueOf solution (u_ i))])
    mix' (loopCo2 inner) totalDemand'.

(** Step 5, from a solution. *)
Definition extractResults (solution : Solution) (enabledTechs : list TechDefinition)
    (flattenedData : list HourlyData) : Result :=
  let capacities := capacitiesOf solution enabledTechs in
  let loop :=
    fold_left (extractStep solution enabledTechs capacities) (indexed 0 flattenedData)
              (mkHourLoop [] zeroMap 0 0) in
  let totalCost := orDefault (result solution) 0 in
  let unservedEnergy :=
    fold_left (fun a b => a + shortfall b) (hourlyResults loop) 0 in
  let totalServed := Qmax 0.1 (totalDemand loop - unservedEnergy) in
  let lcoe := totalCost / totalServed in
  mkResult (hourlyResults loop) totalCost lcoe (accCo2 loop) (accMix loop) capacities
           unservedEnergy.

Section Solve.

(** [solverInstance.Solve]; it may throw. *)
Variable Solve : Model -> outcome Solution.

(** [techs] stands for [Object.values(techs)]. *)
Definition optimizeCapacityExpansion (techs : list TechDefinition)
    (dataChunks : list (list HourlyData)) : outcome Result :=
  if (length dataChunks =? 0)%nat then Returned emptyResult
  else
    let enabledTechs := filter enabled techs in
    let flattenedData := concat dataChunks in
    andThen (buildModel enabledTechs dataChunks) (fun model =>
      match Solve model with
      | Returned solution => Returned (extractResults solution enabledTechs flattenedData)
      | Thrown _ => Returned failedResult
      end).

End Solve.

(** The entry of a variable object under a property name, 0 when the
    variable or the property is missing. *)
Definition coefficient (m : Model) (v : var) (k : key) : Q :=
  match lookup var_eq_dec (variables m) v with
  | Some props =>
      match lookup key_eq_dec props k with
      | Some x => x
      | None => 0
      end
  | None => 0
  end.

End Optimizer.

(** ** Views of the client-side model and result *)

(** The property list of a variable of the model. *)
Definition propsOf (m : Optimizer.Model) (v : var) : option (list (Optimizer.key * Q)) :=
  lookup var_eq_dec (Optimizer.variables m) v.

(** Every variable the first model has, the second has too. *)
Definition keepsVariables (m m' : Optimizer.Model) : Prop :=
  forall v, propsOf m v <> None -> propsOf m' v <> None.

(** Whether some enabled non-storage technology is renewable. *)
Definition hasRenewable (enabledTechs : list TechDefinition) : bool :=
  existsb (fun t => negb (is_storage (type t)) && is_renewable (type t)) enabledTechs.

(** What the client's extraction loop records for the hour [ir]. *)
Definition clientRow (solution : Optimizer.Solution) (enabledTechs : list TechDefinition)
    (ir : nat * HourlyData) (r : Optimizer.Row) : Prop :=
  Optimizer.data r = snd ir /\
  Optimizer.shortfall r = Optimizer.valueOf solution (u_ (fst ir)) /\
  match Optimizer.curtailment r with
  | Some c => 0 <= c /\ hasRenewable enabledTechs = true
  | None => hasRenewable enabledTechs = false
  end.

(** A solver stand-in for the client: everything unserved at 30000 MW. *)
Definition clientUnservedSolve : Optimizer.Model -> outcome Optimizer.Solution :=
  fun _ =>
    Returned (Optimizer.mkSolution (fun v => match v with u_ _ => Some 30000 | _ => None end)
                                   (Some 900000000)).

(** The hour whose state-of-charge row the state of charge of hour [j]
    enters with coefficient -1: the next hour, or from the last hour of a
    week the first hour of that week. *)
Definition socSuccessor (j : nat) : nat :=
  if ((j + 1) mod HOURS_IN_WEEK =? 0)%nat then (j - (HOURS_IN_WEEK - 1))%nat else (j + 1)%nat.

(** The coefficients of the row [soc_dyn_c] once the hours before [n] have
    been added to the model. *)
Definition socCoefficients (n : nat) (v : var) (c : nat) : Q :=
  match v with
  | b_soc_ j =>
      if (j <? n)%nat then
        if (j =? c)%nat then 1 else if (socSuccessor j =? c)%nat then -1 else 0
      else 0
  | b_dis_ j => if ((j <? n) && (j =? c))%nat then 1 else 0
  | b_ch_ j => if ((j <? n) && (j =? c))%nat then -1 * Optimizer.BATTERY_EFF else 0
  | _ => 0
  end.

Definition socRowsUpTo (n : nat) (m : Optimizer.Model) : Prop :=
  (forall v c, Optimizer.coefficient m v (Optimizer.on (Optimizer.soc_dyn c))
               = socCoefficients n v c) /\
  (forall c, (c < n)%nat ->
             lookup Optimizer.cname_eq_dec (Optimizer.constraints m) (Optimizer.soc_dyn c)
             = Some (Optimizer.equal 0)).

(** The view of a model the state-of-charge rows depend on. *)
Definition sameSocRows (m m' : Optimizer.Model) : Prop :=
  (forall v c, Optimizer.coefficient m' v (Optimizer.on (Optimizer.soc_dyn c))
               = Optimizer.coefficient m v (Optimizer.on (Optimizer.soc_dyn c))) /\
  (forall c, lookup Optimizer.cname_eq_dec (Optimizer.constraints m') (Optimizer.soc_dyn c)
             = lookup Optimizer.cname_eq_dec (Optimizer.constraints m) (Optimizer.soc_dyn c)).

(** ** Lists, emitted items and indices *)

Lemma emitAll_constraints (l : list Emit) :
  pushedConstraints (emitAll l) = concat (map pushedConstraints l).
Proof. induction l as [|e l IH]; simpl; [reflexivity|now rewrite IH]. Qed.

Lemma emitAll_objective (l : list Emit) :
  pushedObjective (emitAll l) = concat (map pushedObjective l).
Proof. induction l as [|e l IH]; simpl; [reflexivity|now rewrite IH]. Qed.

Lemma emitAll_vars (l : list Emit) :
  addedVars (emitAll l) = concat (map addedVars l).
Proof. induction l as [|e l IH]; simpl; [reflexivity|now rewrite IH]. Qed.

Lemma emitAll_balance (l : list Emit) :
  pushedBalance (emitAll l) = concat (map pushedBalance l).
Proof. induction l as [|e l IH]; simpl; [reflexivity|now rewrite IH]. Qed.

Lemma in_emitted {A B : Type} (proj : Emit -> list B) (f : A -> Emit) (l : list A) (y : B) :
  In y (concat (map proj (map f l))) <-> exists x, In x l /\ In y (proj (f x)).
Proof. rewrite map_map, <- flat_map_concat_map. apply in_flat_map. Qed.

Lemma indexed_in {A : Type} (l : list A) (k i : nat) (x : A) :
  In (i, x) (indexed k l) <-> (k <= i)%nat /\ nth_error l (i - k) = Some x.
Proof.
  revert k. induction l as [|y l IH]; intros k; simpl.
  - split; [tauto|]. intros [_ H]. destruct (i - k)%nat; discriminate.
  - rewrite IH. split.
    + intros [H | [Hle H]].
      * inversion H; subst. rewrite Nat.sub_diag. split; [lia|reflexivity].
      * split; [lia|]. replace (i - k)%nat with (S (i - S k)) by lia. exact H.
    + intros [Hle H]. destruct (Nat.eq_dec i k) as [->|Hne].
      * rewrite Nat.sub_diag in H. simpl in H. left. congruence.
      * right. split; [lia|].
        replace (i - k)%nat with (S (i - S k)) in H by lia. exact H.
Qed.

Lemma indexed_in0 {A : Type} (l : list A) (i : nat) (x : A) :
  In (i, x) (indexed 0 l) <-> nth_error l i = Some x.
Proof. rewrite indexed_in, Nat.sub_0_r. split; [tauto|]. split; [lia|assumption]. Qed.

Lemma addAll_from_in (vs s : list var) (v : var) :
  In v (fold_left (fun s v => set_add var_eq_dec v s) vs s) <-> In v s \/ In v vs.
Proof.
  revert s. induction vs as [|w vs IH]; intros s; simpl.
  - tauto.
  - rewrite IH. split.
    + intros [H | H]; [|tauto].
      apply set_add_elim in H. destruct H as [-> | H]; tauto.
    + intros [H | [-> | H]].
      * left. now apply set_add_intro1.
      * left. now apply set_add_intro2.
      * now right.
Qed.

Lemma addAll_in (vs : list var) (v : var) : In v (addAll vs) <-> In v vs.
Proof. unfold addAll. rewrite addAll_from_in. simpl. tauto. Qed.

(** ** Shape of the built program *)

Lemma built_flatData techs dataChunks minRenewables :
  flatData (buildLPModel techs dataChunks minRenewables) = concat dataChunks.
Proof. reflexivity. Qed.

Lemma built_constraints techs dataChunks minRenewables (c : constraint) :
  In c (constraints (lp (buildLPModel techs dataChunks minRenewables))) <->
  (exists t, In t (enabledTechsOf techs) /\ In c (pushedConstraints (capacityBody t))) \/
  (exists i hourData,
      nth_error (concat dataChunks) i = Some hourData /\
      In c (pushedConstraints
              (hourBody (enabledTechsOf techs) (findStorage (enabledTechsOf techs))
                        i hourData))) \/
  In c (minRenewablesRows (enabledTechsOf techs) (concat dataChunks) minRenewables).
Proof.
  unfold buildLPModel. cbn [lp constraints emitApp pushedConstraints].
  rewrite !in_app_iff, !emitAll_constraints, !in_emitted.
  split.
  - intros [[[t [Ht Hc]] | [[i h] [Hi Hc]]] | H].
    + left. eauto.
    + right; left. exists i, h. apply indexed_in0 in Hi. auto.
    + right; right. exact H.
  - intros [[t [Ht Hc]] | [[i [h [Hi Hc]]] | H]].
    + left; left. eauto.
    + left; right. exists (i, h). split; [now apply indexed_in0|exact Hc].
    + right. exact H.
Qed.

Lemma built_bounds techs dataChunks minRenewables (v : var) :
  In v (bounds (lp (buildLPModel techs dataChunks minRenewables))) <->
  (exists t, In t (enabledTechsOf techs) /\ In v (addedVars (capacityBody t))) \/
  (exists i hourData,
      nth_error (concat dataChunks) i = Some hourData /\
      In v (addedVars
              (hourBody (enabledTechsOf techs) (findStorage (enabledTechsOf techs))
                        i hourData))).
Proof.
  unfold buildLPModel. cbn [lp bounds emitApp addedVars].
  rewrite addAll_in, !in_app_iff, !emitAll_vars, !in_emitted.
  split.
  - intros [[t [Ht Hc]] | [[i h] [Hi Hc]]].
    + left. eauto.
    + right. exists i, h. apply indexed_in0 in Hi. auto.
  - intros [[t [Ht Hc]] | [i [h [Hi Hc]]]].
    + left. eauto.
    + right. exists (i, h). split; [now apply indexed_in0|exact Hc].
Qed.

Lemma built_vars techs dataChunks minRenewables :
  vars (buildLPModel techs dataChunks minRenewables) =
  bounds (lp (buildLPModel techs dataChunks minRenewables)).
Proof. reflexivity. Qed.

(** ** Evaluation of linear expressions *)

Lemma evalTerms_app (a : assignment) (l1 l2 : list term) :
  evalTerms a (l1 ++ l2) == evalTerms a l1 + evalTerms a l2.
Proof. induction l1 as [|t l1 IH]; simpl; [ring|rewrite IH; ring]. Qed.

Lemma balance_terms_generation (a : assignment) (hourData : HourlyData) (i : nat)
    (enabledTechs : list TechDefinition) :
  evalTerms a (pushedBalance (emitAll (map (generationBody hourData i) enabledTechs)))
  == generationAt a enabledTechs i.
Proof.
  unfold generationAt.
  induction enabledTechs as [|t l IH]; simpl; [reflexivity|].
  rewrite evalTerms_app, IH. unfold generationBody.
  destruct (is_storage (type t)); simpl; ring.
Qed.

Lemma balance_terms_storage (a : assignment) (hourData : HourlyData) (i : nat)
    (enabledTechs : list TechDefinition) :
  evalTerms a (pushedBalance
                 (match findStorage enabledTechs with
                  | Some b => storageBody hourData i b
                  | None => noEmit
                  end))
  == dischargeAt a enabledTechs i - chargeAt a enabledTechs i.
Proof.
  unfold dischargeAt, chargeAt.
  destruct (findStorage enabledTechs); simpl; ring.
Qed.

Lemma hourBody_balance_row enabledTechs battTech i hourData :
  In (mkRow (bal_ i)
            (pushedBalance
               (emitApp (emitAll (map (generationBody hourData i) enabledTechs))
                  (emitApp (match battTech with
                            | Some b => storageBody hourData i b
                            | None => noEmit
                            end)
                           (mkEmit [Plus (VOLL * weight hourData) (u_ i)] [] [u_ i]
                                   [Plus 1 (u_ i)]))))
            EQ (demand hourData))
     (pushedConstraints (hourBody enabledTechs battTech i hourData)).
Proof.
  unfold hourBody. cbn [pushedConstraints]. apply in_or_app. right. left. reflexivity.
Qed.

Lemma hour_balance techs dataChunks minRenewables i hourData :
  nth_error (concat dataChunks) i = Some hourData ->
  exists row,
    In row (constraints (lp (buildLPModel techs dataChunks minRenewables))) /\
    label row = bal_ i /\ rel row = EQ /\ rhs row = demand hourData /\
    (forall a,
        evalTerms a (lhs row) ==
        generationAt a (enabledTechsOf techs) i
        + dischargeAt a (enabledTechsOf techs) i
        - chargeAt a (enabledTechsOf techs) i
        + a (u_ i)).
Proof.
  intros Hi.
  pose proof (hourBody_balance_row (enabledTechsOf techs)
                (findStorage (enabledTechsOf techs)) i hourData) as Hrow.
  set (row := mkRow (bal_ i) _ EQ (demand hourData)) in Hrow.
  exists row. split; [|repeat split].
  - apply built_constraints. right; left. exists i, hourData. split; assumption.
  - intro a. subst row. cbn [lhs emitApp pushedBalance].
    rewrite !evalTerms_app, balance_terms_generation, balance_terms_storage.
    simpl. ring.
Qed.



(** ** Rows of one hour *)

Lemma feasibleb_sound (p : LP) (a : assignment) : feasibleb p a = true -> feasible p a.
Proof.
  unfold feasibleb, feasible. rewrite andb_true_iff, !forallb_forall.
  intros [Hc Hb]. split.
  - intros c Hin. specialize (Hc c Hin). unfold satisfiesb, satisfies in *.
    destruct (rel c); [now apply Qeq_bool_iff|now apply Qle_bool_iff].
  - intros v Hin. now apply Qle_bool_iff, Hb.
Qed.

Lemma Qgtb_true (a b : Q) : Qgtb a b = true <-> b < a.
Proof.
  unfold Qgtb. rewrite negb_true_iff. split.
  - intro H. apply Qnot_le_lt. intro Hle. apply Qle_bool_iff in Hle. congruence.
  - intro H. destruct (Qle_bool a b) eqn:E; [|reflexivity].
    apply Qle_bool_iff in E. exfalso. exact (Qlt_not_le _ _ H E).
Qed.

Lemma Qgtb_false (a b : Q) : Qgtb a b = false <-> a <= b.
Proof.
  unfold Qgtb. rewrite negb_false_iff. apply Qle_bool_iff.
Qed.

Lemma profileOf_availability (t : TechType) (row : HourlyData) :
  profileOf t row = availability t row.
Proof. destruct t; reflexivity. Qed.

Lemma hourBody_generation_row enabledTechs battTech i hourData t c :
  In t enabledTechs ->
  In c (pushedConstraints (generationBody hourData i t)) ->
  In c (pushedConstraints (hourBody enabledTechs battTech i hourData)).
Proof.
  intros Ht Hc. unfold hourBody. cbn [pushedConstraints emitApp].
  rewrite emitAll_constraints. apply in_or_app. left. apply in_or_app. left.
  apply in_emitted. eauto.
Qed.

Lemma hourBody_generation_var enabledTechs battTech i hourData t v :
  In t enabledTechs ->
  In v (addedVars (generationBody hourData i t)) ->
  In v (addedVars (hourBody enabledTechs battTech i hourData)).
Proof.
  intros Ht Hv. unfold hourBody. cbn [addedVars emitApp].
  rewrite emitAll_vars. apply in_or_app. left. apply in_emitted. eauto.
Qed.

Lemma hourBody_storage_row enabledTechs b i hourData c :
  In c (pushedConstraints (storageBody hourData i b)) ->
  In c (pushedConstraints (hourBody enabledTechs (Some b) i hourData)).
Proof.
  intros Hc. unfold hourBody. cbn [pushedConstraints emitApp].
  apply in_or_app. left. apply in_or_app. right. apply in_or_app. left. exact Hc.
Qed.

Lemma generation_var_bounded techs dataChunks minRenewables i hourData t a :
  nth_error (concat dataChunks) i = Some hourData ->
  In t (enabledTechsOf techs) ->
  is_storage (type t) = false ->
  feasible (lp (buildLPModel techs dataChunks minRenewables)) a ->
  0 <= a (g_ (id t) i).
Proof.
  intros Hi Ht Hs [_ Hb]. apply Hb, built_bounds. right. exists i, hourData.
  split; [assumption|]. apply hourBody_generation_var with (t := t); [assumption|].
  unfold generationBody. rewrite Hs. simpl. auto.
Qed.

(** C3. Every enabled renewable technology has, at every hour, the row
    [g - availability c <= 0] when the hour's recorded factor exceeds
    0.001 and the row [g <= 0], which with the bound [g >= 0] forces the
    generation to zero, otherwise; every enabled baseload or dispatchable
    technology has the row [g - c <= 0]. *)
Theorem capacity_link_rows techs dataChunks minRenewables i hourData t :
  nth_error (concat dataChunks) i = Some hourData ->
  In t (enabledTechsOf techs) ->
  (type t = renewable ->
   (0.001 < availability (id t) hourData ->
    In (mkRow (cap_ (id t) i)
              [Plus 1 (g_ (id t) i); Minus (availability (id t) hourData) (c_ (id t))]
              LE 0)
       (constraints (lp (buildLPModel techs dataChunks minRenewables))) /\
    forall a, feasible (lp (buildLPModel techs dataChunks minRenewables)) a ->
              a (g_ (id t) i) - availability (id t) hourData * a (c_ (id t)) <= 0) /\
   (availability (id t) hourData <= 0.001 ->
    In (mkRow (cap_ (id t) i) [Plus 1 (g_ (id t) i)] LE 0)
       (constraints (lp (buildLPModel techs dataChunks minRenewables))) /\
    forall a, feasible (lp (buildLPModel techs dataChunks minRenewables)) a ->
              a (g_ (id t) i) == 0)) /\
  (type t = dispatchable \/ type t = baseload ->
   In (mkRow (cap_ (id t) i) [Plus 1 (g_ (id t) i); Minus 1 (c_ (id t))] LE 0)
      (constraints (lp (buildLPModel techs dataChunks minRenewables))) /\
   forall a, feasible (lp (buildLPModel techs dataChunks minRenewables)) a ->
             a (g_ (id t) i) - a (c_ (id t)) <= 0).
Proof.
  intros Hi Ht.
  assert (Hrow : forall c, In c (pushedConstraints (generationBody hourData i t)) ->
                 In c (constraints (lp (buildLPModel techs dataChunks minRenewables)))).
  { intros c Hc. apply built_constraints. right; left. exists i, hourData.
    split; [assumption|]. now apply hourBody_generation_row with (t := t). }
  split; [intros Hty; split; intros Hav | intros Hty].
  - assert (Hin : In (mkRow (cap_ (id t) i)
                        [Plus 1 (g_ (id t) i);
                         Minus (availability (id t) hourData) (c_ (id t))] LE 0)
                     (constraints (lp (buildLPModel techs dataChunks minRenewables)))).
    { apply Hrow. unfold generationBody. rewrite Hty. cbn [is_storage is_renewable].
      rewrite profileOf_availability.
      apply Qgtb_true in Hav. rewrite Hav. left. reflexivity. }
    split; [exact Hin|]. intros a [Hsat _]. specialize (Hsat _ Hin).
    unfold satisfies in Hsat. simpl in Hsat. lra.
  - assert (Hin : In (mkRow (cap_ (id t) i) [Plus 1 (g_ (id t) i)] LE 0)
                     (constraints (lp (buildLPModel techs dataChunks minRenewables)))).
    { apply Hrow. unfold generationBody. rewrite Hty. cbn [is_storage is_renewable].
      rewrite profileOf_availability.
      apply Qgtb_false in Hav. rewrite Hav. left. reflexivity. }
    split; [exact Hin|]. intros a Hf.
    assert (Hge : 0 <= a (g_ (id t) i)).
    { apply generation_var_bounded with (techs := techs) (dataChunks := dataChunks)
        (minRenewables := minRenewables) (hourData := hourData); try assumption.
      now rewrite Hty. }
    destruct Hf as [Hsat _]. specialize (Hsat _ Hin).
    unfold satisfies in Hsat. simpl in Hsat. lra.
  - assert (Hin : In (mkRow (cap_ (id t) i) [Plus 1 (g_ (id t) i); Minus 1 (c_ (id t))] LE 0)
                     (constraints (lp (buildLPModel techs dataChunks minRenewables)))).
    { apply Hrow. unfold generationBody.
      destruct Hty as [Hty | Hty]; rewrite Hty; left; reflexivity. }
    split; [exact Hin|]. intros a [Hsat _]. specialize (Hsat _ Hin).
    unfold satisfies in Hsat. simpl in Hsat. lra.
Qed.

Lemma capacity_link_rows_witness :
  In (mkRow (cap_ SOLAR 0) [Plus 1 (g_ SOLAR 0); Minus 0.5 (c_ SOLAR)] LE 0)
     (constraints (lp (buildLPModel sampleTechs sampleChunks 0))) /\
  In (mkRow (cap_ SOLAR 1) [Plus 1 (g_ SOLAR 1)] LE 0)
     (constraints (lp (buildLPModel sampleTechs sampleChunks 0))) /\
  In (mkRow (cap_ NUCLEAR 2) [Plus 1 (g_ NUCLEAR 2); Minus 1 (c_ NUCLEAR)] LE 0)
     (constraints (lp (buildLPModel sampleTechs sampleChunks 0))).
Proof.
  split; [|split].
  - refine (proj1 (proj1 (proj1
      (capacity_link_rows sampleTechs sampleChunks 0 0 (flatHour 0 0.5 0.2 13 true)
         defaultSolar _ _) _) _)).
    + reflexivity.
    + simpl. auto.
    + reflexivity.
    + reflexivity.
  - refine (proj1 (proj2 (proj1
      (capacity_link_rows sampleTechs sampleChunks 0 1 (flatHour 1 0 0.3 13 true)
         defaultSolar _ _) _) _)).
    + reflexivity.
    + simpl. auto.
    + reflexivity.
    + discriminate.
  - refine (proj1 (proj2
      (capacity_link_rows sampleTechs sampleChunks 0 2 (flatHour 2 0.25 0 1 false)
         defaultNuclear _ _) _)).
    + reflexivity.
    + simpl. auto 6.
    + left. reflexivity.
Defined.

(** ** State-of-charge rows *)

Lemma generationBody_labels hourData i t c :
  In c (pushedConstraints (generationBody hourData i t)) -> label c = cap_ (id t) i.
Proof.
  unfold generationBody. destruct (is_storage (type t)); simpl; [tauto|].
  intros [<- | []].
  destruct (is_renewable (type t)); [|reflexivity].
  destruct (Qgtb _ _); reflexivity.
Qed.


Lemma minRenewablesRows_labels enabledTechs flat x c :
  In c (minRenewablesRows enabledTechs flat x) -> label c = min_res_global.
Proof.
  unfold minRenewablesRows. destruct (Qgtb x 0); [|intros []].
  destruct (nonRezGenTerms enabledTechs flat); simpl; [tauto|].
  intros [<- | []]. reflexivity.
Qed.








(** ** Sums *)

Lemma sumQ_app (l1 l2 : list Q) : sumQ (l1 ++ l2) == sumQ l1 + sumQ l2.
Proof. induction l1 as [|x l IH]; simpl; [ring|rewrite IH; ring]. Qed.

Lemma sumQ_map_ext {A : Type} (f g : A -> Q) (l : list A) :
  (forall x, In x l -> f x == g x) -> sumQ (map f l) == sumQ (map g l).
Proof.
  induction l as [|x l IH]; intros H; simpl; [reflexivity|].
  rewrite (H x (or_introl eq_refl)), IH; [reflexivity|].
  intros y Hy. apply H. now right.
Qed.

Lemma sumQ_map_plus {A : Type} (f g : A -> Q) (l : list A) :
  sumQ (map (fun x => f x + g x) l) == sumQ (map f l) + sumQ (map g l).
Proof. induction l as [|x l IH]; simpl; [ring|rewrite IH; ring]. Qed.

Lemma sumQ_map_scale {A : Type} (k : A -> Q) (l : list A) :
  sumQ (map (fun x => k x * 0) l) == 0.
Proof. induction l as [|x l IH]; simpl; [reflexivity|rewrite IH; ring]. Qed.

Lemma sumQ_map_nonneg {A : Type} (f : A -> Q) (l : list A) :
  (forall x, In x l -> 0 <= f x) -> 0 <= sumQ (map f l).
Proof.
  induction l as [|x l IH]; intros H; simpl; [apply Qle_refl|].
  assert (0 <= f x) by (apply H; now left).
  assert (0 <= sumQ (map f l)) by (apply IH; intros y Hy; apply H; now right).
  lra.
Qed.

Lemma indexed_snd {A : Type} (l : list A) (k : nat) : map snd (indexed k l) = l.
Proof. revert k. induction l as [|x l IH]; intros k; simpl; [reflexivity|now rewrite IH]. Qed.

Lemma hoursWhere_rows (p : HourlyData -> bool) (flat : list HourlyData) (ir : nat * HourlyData) :
  In ir (hoursWhere p flat) -> In (snd ir) flat /\ p (snd ir) = true.
Proof.
  unfold hoursWhere. rewrite filter_In. intros [Hin Hp]. split; [|exact Hp].
  rewrite <- (indexed_snd flat 0). now apply in_map.
Qed.

(** ** The renewable-share row *)

Lemma nonRezTermsOf_eval (a : assignment) (flat : list HourlyData) (t : TechDefinition) :
  evalTerms a (nonRezTermsOf flat t) ==
  if negb (is_renewable (type t)) && negb (is_storage (type t))
  then sumQ (map (fun ir : nat * HourlyData => weight (snd ir) * a (g_ (id t) (fst ir)))
                 (hoursWhere includeInStats flat))
  else 0.
Proof.
  unfold nonRezTermsOf, hoursWhere.
  destruct (negb (is_renewable (type t)) && negb (is_storage (type t))); [|reflexivity].
  induction (indexed 0 flat) as [|[i row] l IH]; simpl; [reflexivity|].
  rewrite evalTerms_app, IH.
  destruct (includeInStats row); simpl; ring.
Qed.

Lemma nonRezGenTerms_eval (a : assignment) (enabledTechs : list TechDefinition)
    (flat : list HourlyData) :
  evalTerms a (nonRezGenTerms enabledTechs flat) ==
  weightedNonRenewableGeneration a enabledTechs flat.
Proof.
  unfold nonRezGenTerms, weightedNonRenewableGeneration, nonRenewableGenerationAt.
  induction enabledTechs as [|t l IH]; simpl.
  - symmetry. apply sumQ_map_scale.
  - rewrite evalTerms_app, IH, nonRezTermsOf_eval.
    destruct (negb (is_renewable (type t)) && negb (is_storage (type t))); simpl.
    + rewrite <- sumQ_map_plus. apply sumQ_map_ext. intros ir _. ring.
    + ring.
Qed.

Lemma totalAnnualDemand_from (flat : list HourlyData) (acc : Q) (k : nat) :
  fold_left (fun acc row => if includeInStats row then acc + demand row * weight row else acc)
            flat acc ==
  acc + sumQ (map (fun ir : nat * HourlyData => demand (snd ir) * weight (snd ir))
                  (filter (fun ir => includeInStats (snd ir)) (indexed k flat))).
Proof.
  revert acc k. induction flat as [|row l IH]; intros acc k; simpl; [ring|].
  rewrite (IH _ (S k)). destruct (includeInStats row); simpl; ring.
Qed.

Lemma totalAnnualDemand_weighted (flat : list HourlyData) :
  totalAnnualDemand flat == weightedDemand flat.
Proof.
  unfold totalAnnualDemand, weightedDemand, hoursWhere.
  rewrite (totalAnnualDemand_from flat 0 0). ring.
Qed.


Lemma weightedDemand_nonneg (flat : list HourlyData) :
  Forall (fun row => 0 <= demand row /\ 0 <= weight row) flat ->
  0 <= weightedDemand flat.
Proof.
  intros Hall. unfold weightedDemand. apply sumQ_map_nonneg.
  intros ir Hir. apply hoursWhere_rows in Hir. destruct Hir as [Hin _].
  rewrite Forall_forall in Hall. destruct (Hall _ Hin) as [Hd Hw].
  now apply Qmult_le_0_compat.
Qed.








(** ** Cost annualisation *)






(** ** Solver status *)

Lemma status_test (s : string) :
  negb (String.eqb s "Optimal") = true <-> s <> "Optimal"%string.
Proof.
  rewrite negb_true_iff. split.
  - intros H E. apply String.eqb_eq in E. congruence.
  - intros H. apply String.eqb_neq. exact H.
Qed.

(** C8. When the solver's status is anything but [Optimal], the call
    throws an error whose message carries that status, and returns no
    result. *)
Theorem non_optimal_status_throws solver techs dataChunks minRenewables :
  Status (solver (lp (buildLPModel techs dataChunks minRenewables))) <> "Optimal"%string ->
  optimizeWithHiGHS solver techs dataChunks minRenewables =
  Thrown ("Solver failed: "
          ++ Status (solver (lp (buildLPModel techs dataChunks minRenewables))))%string /\
  forall r, optimizeWithHiGHS solver techs dataChunks minRenewables <> Returned r.
Proof.
  intros H. apply status_test in H.
  unfold optimizeWithHiGHS. rewrite H. split; [reflexivity|discriminate].
Qed.

Lemma non_optimal_status_throws_witness :
  optimizeWithHiGHS infeasibleSolver sampleTechs sampleChunks 0 =
  Thrown "Solver failed: Infeasible" /\
  forall r, optimizeWithHiGHS infeasibleSolver sampleTechs sampleChunks 0 <> Returned r.
Proof.
  apply (non_optimal_status_throws infeasibleSolver sampleTechs sampleChunks 0).
  discriminate.
Defined.

Lemma optimal_status_returns solver techs dataChunks minRenewables :
  Status (solver (lp (buildLPModel techs dataChunks minRenewables))) = "Optimal"%string ->
  exists r, optimizeWithHiGHS solver techs dataChunks minRenewables = Returned r.
Proof.
  intros H. unfold optimizeWithHiGHS. rewrite H. simpl. eexists. reflexivity.
Qed.

(** ** The extraction loops *)

Lemma TechType_eqb_refl (k : TechType) : TechType_eqb k k = true.
Proof. unfold TechType_eqb. destruct (TechType_eq_dec k k); congruence. Qed.

Lemma TechType_eqb_neq (j k : TechType) : j <> k -> TechType_eqb j k = false.
Proof. intros H. unfold TechType_eqb. destruct (TechType_eq_dec j k); congruence. Qed.

Lemma capacities_fold_other solution (l : list TechDefinition) (m : techMap) (k : TechType) :
  ~ In k (map id l) ->
  fold_left (fun caps t => setKey caps (id t) (extractCapacity solution t)) l m k = m k.
Proof.
  revert m. induction l as [|t l IH]; intros m Hk; simpl; [reflexivity|].
  rewrite IH by (intro H; apply Hk; now right).
  unfold setKey. rewrite TechType_eqb_neq; [reflexivity|].
  intros E. apply Hk. left. now symmetry.
Qed.

Lemma capacities_fold_in solution (l : list TechDefinition) (m : techMap) (t : TechDefinition) :
  In t l -> NoDup (map id l) ->
  fold_left (fun caps t => setKey caps (id t) (extractCapacity solution t)) l m (id t)
  = Some (extractCapacity solution t).
Proof.
  revert m. induction l as [|t' l IH]; intros m Hin Hnd; [destruct Hin|].
  simpl in Hnd. inversion Hnd as [|? ? Hnot Hnd']; subst.
  destruct Hin as [-> | Hin]; simpl.
  - rewrite capacities_fold_other by assumption.
    unfold setKey. now rewrite TechType_eqb_refl.
  - now apply IH.
Qed.

Lemma dispatchBody_curtailment solution caps i row st t :
  hourlyCurtailment (dispatchBody solution caps i row st t) ==
  hourlyCurtailment st + curtailmentOf solution caps i row t.
Proof.
  unfold dispatchBody, curtailmentOf, curtailmentAdded.
  destruct (type t); cbn [is_storage is_renewable];
    try (destruct (includeInStats row); cbn [hourlyCurtailment]; ring).
  destruct (Qgtb _ _); destruct (includeInStats row); cbn [hourlyCurtailment]; ring.
Qed.

Lemma dispatch_curtailment solution caps i row (l : list TechDefinition) (st : TechLoop) :
  hourlyCurtailment (fold_left (dispatchBody solution caps i row) l st) ==
  hourlyCurtailment st + sumQ (map (curtailmentOf solution caps i row) l).
Proof.
  revert st. induction l as [|t l IH]; intros st; simpl; [ring|].
  rewrite IH, dispatchBody_curtailment. ring.
Qed.

Lemma extract_rows solution enabledTechs caps (L : list (nat * HourlyData)) :
  forall st, exists ext,
      hourlyResults (fold_left (extractHour solution enabledTechs caps) L st)
      = hourlyResults st ++ ext /\
      Forall2 (rowMatches solution enabledTechs caps) L ext.
Proof.
  induction L as [|[i row] L IH]; intros st; cbn [fold_left].
  - exists []. rewrite app_nil_r. split; [reflexivity|constructor].
  - destruct (IH (extractHour solution enabledTechs caps st (i, row))) as [ext [He Hf]].
    rewrite He. cbn [extractHour hourlyResults]. rewrite <- app_assoc.
    eexists. split; [reflexivity|]. constructor; [|exact Hf].
    unfold rowMatches. cbn [data shortfall curtailment fst snd].
    split; [reflexivity|]. split; [reflexivity|].
    rewrite dispatch_curtailment. cbn [hourlyCurtailment]. ring.
Qed.

Lemma extract_annualDemand solution enabledTechs caps (L : list (nat * HourlyData)) :
  forall st,
    annualDemand (fold_left (extractHour solution enabledTechs caps) L st) ==
    annualDemand st
    + sumQ (map (fun ir : nat * HourlyData => demand (snd ir) * weight (snd ir))
                (filter (fun ir => includeInStats (snd ir)) L)).
Proof.
  induction L as [|[i row] L IH]; intros st; cbn [fold_left]; [simpl; ring|].
  rewrite IH. cbn [extractHour annualDemand filter snd].
  destruct (includeInStats row); simpl; ring.
Qed.

Lemma extract_annualUnserved solution enabledTechs caps (L : list (nat * HourlyData)) :
  forall st,
    annualUnserved (fold_left (extractHour solution enabledTechs caps) L st) ==
    annualUnserved st
    + sumQ (map (fun ir : nat * HourlyData => primal solution (u_ (fst ir)) * weight (snd ir))
                (filter (fun ir => includeInStats (snd ir)) L)).
Proof.
  induction L as [|[i row] L IH]; intros st; cbn [fold_left]; [simpl; ring|].
  rewrite IH. cbn [extractHour annualUnserved filter snd].
  destruct (includeInStats row); simpl; ring.
Qed.

Lemma Forall2_nth_error_r {A B : Type} (R : A -> B -> Prop) (l1 : list A) (l2 : list B)
    (n : nat) (y : B) :
  Forall2 R l1 l2 -> nth_error l2 n = Some y ->
  exists x, nth_error l1 n = Some x /\ R x y.
Proof.
  intros H. revert n. induction H as [|a b l1 l2 Hab _ IH]; intros n Hn.
  - destruct n; discriminate.
  - destruct n as [|n]; simpl in *.
    + inversion Hn; subst. eauto.
    + now apply IH.
Qed.

Lemma indexed_nth {A : Type} (l : list A) (k n j : nat) (x : A) :
  nth_error (indexed k l) n = Some (j, x) -> j = (k + n)%nat /\ nth_error l n = Some x.
Proof.
  revert k n. induction l as [|y l IH]; intros k n H.
  - destruct n; discriminate.
  - destruct n as [|n]; simpl in H.
    + inversion H; subst. split; [lia|reflexivity].
    + apply IH in H. destruct H as [-> H]. split; [lia|exact H].
Qed.

Lemma indexed_length {A : Type} (l : list A) (k : nat) : length (indexed k l) = length l.
Proof. revert k. induction l as [|x l IH]; intros k; simpl; [reflexivity|now rewrite IH]. Qed.

(** What a returned result is made of. *)
Lemma optimize_returned solver techs dataChunks minRenewables res :
  optimizeWithHiGHS solver techs dataChunks minRenewables = Returned res ->
  Status (solver (lp (buildLPModel techs dataChunks minRenewables))) = "Optimal"%string /\
  capacities res =
  capacitiesOf (Columns (solver (lp (buildLPModel techs dataChunks minRenewables))))
               (enabledTechsOf techs) /\
  Forall2 (rowMatches (Columns (solver (lp (buildLPModel techs dataChunks minRenewables))))
                      (enabledTechsOf techs) (capacities res))
          (indexed 0 (concat dataChunks)) (hourly res) /\
  annualServed res ==
  Qmax 0.1 (weightedDemand (concat dataChunks)
            - weightedUnserved
                (primal (Columns (solver (lp (buildLPModel techs dataChunks minRenewables)))))
                (concat dataChunks)) /\
  lcoe res = totalCost res / annualServed res /\
  totalCost res =
  fold_left (fixedCostBody (capacities res)) (enabledTechsOf techs) 0
  + fold_left (variableCostBody
                 (Columns (solver (lp (buildLPModel techs dataChunks minRenewables))))
                 (enabledTechsOf techs))
              (indexed 0 (concat dataChunks)) 0.
Proof.
  unfold optimizeWithHiGHS. cbv zeta.
  change (flatData (buildLPModel techs dataChunks minRenewables)) with (concat dataChunks).
  set (sol := Columns (solver (lp (buildLPModel techs dataChunks minRenewables)))).
  set (caps := capacitiesOf sol (enabledTechsOf techs)).
  destruct (negb (String.eqb _ "Optimal")) eqn:Est; [discriminate|].
  intros H. injection H as Hres. subst res.
  cbn [capacities hourly annualServed lcoe totalCost].
  split.
  { apply negb_false_iff in Est. now apply String.eqb_eq in Est. }
  split; [reflexivity|].
  split.
  { destruct (extract_rows sol (enabledTechsOf techs) caps (indexed 0 (concat dataChunks))
                (mkHourLoop [] emptyMap 0 0 0)) as [ext [He Hf]].
    rewrite He. exact Hf. }
  split.
  { apply Q.max_compat; [reflexivity|].
    rewrite extract_annualDemand, extract_annualUnserved.
    unfold weightedDemand, weightedUnserved, hoursWhere. simpl. ring. }
  split; reflexivity.
Qed.

(** ** Fixed capacities *)

Lemma orDefault_zero (x : option Q) :
  orDefault x 0 == match x with Some v => v | None => 0 end.
Proof.
  destruct x as [v|]; simpl; [|reflexivity].
  destruct (Qeq_bool v 0) eqn:E; [|reflexivity].
  apply Qeq_bool_iff in E. now rewrite E.
Qed.

Lemma pin_row_present techs dataChunks minRenewables t :
  In t (enabledTechsOf techs) -> isFixed t = true ->
  In (mkRow (pinLabel t) [Plus 1 (capacityVar t)] EQ (orDefault (fixedCapacity t) 0 * 1000))
     (constraints (lp (buildLPModel techs dataChunks minRenewables))).
Proof.
  intros Ht Hfix. apply built_constraints. left. exists t. split; [assumption|].
  unfold capacityBody, pinLabel, capacityVar.
  destruct (is_storage (type t)); cbn [pushedConstraints]; rewrite Hfix; left; reflexivity.
Qed.

(** C5. An enabled technology flagged fixed has the equality row
    [capacity = fixedCapacity * 1000] on its capacity variable; every
    feasible point gives that variable the supplied value times 1000; and
    the capacity the extraction reports under its id, in a catalog keyed
    by id, is that value, whatever the other inputs are. *)
Theorem fixed_capacity_pinned techs dataChunks minRenewables t :
  In t (enabledTechsOf techs) ->
  isFixed t = true ->
  In (mkRow (pinLabel t) [Plus 1 (capacityVar t)] EQ (orDefault (fixedCapacity t) 0 * 1000))
     (constraints (lp (buildLPModel techs dataChunks minRenewables))) /\
  (forall a,
      feasible (lp (buildLPModel techs dataChunks minRenewables)) a ->
      a (capacityVar t) == suppliedCapacity t * 1000) /\
  (forall solver res,
      optimizeWithHiGHS solver techs dataChunks minRenewables = Returned res ->
      feasible (lp (buildLPModel techs dataChunks minRenewables))
               (primal (Columns (solver (lp (buildLPModel techs dataChunks minRenewables))))) ->
      NoDup (map id (enabledTechsOf techs)) ->
      exists v, capacities res (id t) = Some v /\ v == suppliedCapacity t * 1000).
Proof.
  intros Ht Hfix.
  pose proof (pin_row_present techs dataChunks minRenewables t Ht Hfix) as Hin.
  assert (Hpin : forall a,
             feasible (lp (buildLPModel techs dataChunks minRenewables)) a ->
             a (capacityVar t) == suppliedCapacity t * 1000).
  { intros a [Hsat _]. specialize (Hsat _ Hin).
    unfold satisfies in Hsat. cbn [rel lhs rhs evalTerms evalTerm] in Hsat.
    rewrite orDefault_zero in Hsat. unfold suppliedCapacity. lra. }
  split; [exact Hin|]. split; [exact Hpin|].
  intros solver res Hres Hfeas Hnd.
  apply optimize_returned in Hres. destruct Hres as [_ [Hcaps _]].
  rewrite Hcaps. unfold capacitiesOf.
  rewrite capacities_fold_in by assumption.
  eexists. split; [reflexivity|].
  specialize (Hpin _ Hfeas). unfold capacityVar in Hpin. unfold extractCapacity.
  destruct (is_storage (type t)); exact Hpin.
Qed.

Lemma fixed_capacity_pinned_witness :
  In (mkRow (fix_c_ SOLAR) [Plus 1 (c_ SOLAR)] EQ (60.000001 * 1000))
     (constraints (lp (buildLPModel [pinnedSolar] [flatWeek 0 1 true] 0))) /\
  exists res v,
    optimizeWithHiGHS pinnedSolarSolver [pinnedSolar] [flatWeek 0 1 true] 0 = Returned res /\
    capacities res SOLAR = Some v /\ v == 60.000001 * 1000.
Proof.
  assert (Hin : In pinnedSolar (enabledTechsOf [pinnedSolar])) by (left; reflexivity).
  destruct (fixed_capacity_pinned [pinnedSolar] [flatWeek 0 1 true] 0 pinnedSolar Hin eq_refl)
    as [Hrow [_ Hcap]].
  split; [exact Hrow|].
  destruct (optimal_status_returns pinnedSolarSolver [pinnedSolar] [flatWeek 0 1 true] 0
              eq_refl) as [res Hres].
  destruct (Hcap pinnedSolarSolver res Hres) as [v [Hv Heq]].
  - apply feasibleb_sound. vm_compute. reflexivity.
  - repeat constructor. simpl. tauto.
  - exists res, v. auto.
Defined.

(** ** Curtailment *)

Lemma curtailmentAdded_bounds (capacity profile gen : Q) :
  0 <= curtailmentAdded capacity profile gen /\
  curtailmentAdded capacity profile gen <= Qmax 0 (capacity * profile - gen) /\
  (0.001 < capacity * profile - gen ->
   curtailmentAdded capacity profile gen == Qmax 0 (capacity * profile - gen)) /\
  (capacity * profile - gen <= 0 ->
   curtailmentAdded capacity profile gen == Qmax 0 (capacity * profile - gen)) /\
  (capacity * profile - gen <= 0.001 -> curtailmentAdded capacity profile gen == 0).
Proof.
  unfold curtailmentAdded. cbv zeta.
  destruct (Qgtb (capacity * profile) (gen + 0.001)) eqn:E.
  - apply Qgtb_true in E.
    assert (Hm : Qmax 0 (capacity * profile - gen) == capacity * profile - gen)
      by (apply Q.max_r; lra).
    rewrite Hm. repeat split; intros; lra.
  - apply Qgtb_false in E.
    pose proof (Q.le_max_l 0 (capacity * profile - gen)) as Hl.
    repeat split; intros; try lra.
    symmetry. apply Q.max_l. assumption.
Qed.

Lemma curtailment_sum_renewables solution caps i row (l : list TechDefinition) :
  sumQ (map (curtailmentOf solution caps i row) l) ==
  sumQ (map (fun t => curtailmentAdded (getOr0 caps (id t)) (availability (id t) row)
                                       (primal solution (g_ (id t) i)))
            (filter (fun t => is_renewable (type t)) l)).
Proof.
  induction l as [|t l IH]; simpl; [reflexivity|].
  rewrite IH. unfold curtailmentOf.
  destruct (is_renewable (type t)); simpl; [|ring].
  rewrite profileOf_availability. reflexivity.
Qed.

(** C7 (as amended). The curtailment reported for hour [i] is the sum,
    over the enabled renewable technologies only, of the unused potential
    [capacity * availability - generation] of each, counted when it
    exceeds 0.001 and taken as zero otherwise; each contribution lies
    between 0 and [max(0, capacity * availability - generation)] and
    equals that maximum outside the band from 0 to 0.001; the total is
    never negative and is computed from the solved capacities and
    generation, not read from a variable of the program. *)
Theorem curtailment_reported solver techs dataChunks minRenewables res i r :
  optimizeWithHiGHS solver techs dataChunks minRenewables = Returned res ->
  nth_error (hourly res) i = Some r ->
  nth_error (concat dataChunks) i = Some (data r) /\
  curtailment r ==
  sumQ (map (fun t =>
               curtailmentAdded
                 (getOr0 (capacities res) (id t))
                 (availability (id t) (data r))
                 (primal (Columns (solver (lp (buildLPModel techs dataChunks minRenewables))))
                         (g_ (id t) i)))
            (filter (fun t => is_renewable (type t)) (enabledTechsOf techs))) /\
  0 <= curtailment r /\
  (forall capacity profile gen,
      0 <= curtailmentAdded capacity profile gen /\
      curtailmentAdded capacity profile gen <= Qmax 0 (capacity * profile - gen) /\
      (0.001 < capacity * profile - gen ->
       curtailmentAdded capacity profile gen == Qmax 0 (capacity * profile - gen)) /\
      (capacity * profile - gen <= 0 ->
       curtailmentAdded capacity profile gen == Qmax 0 (capacity * profile - gen)) /\
      (capacity * profile - gen <= 0.001 -> curtailmentAdded capacity profile gen == 0)).
Proof.
  intros Hres Hr. apply optimize_returned in Hres.
  destruct Hres as [_ [_ [Hrows _]]].
  destruct (Forall2_nth_error_r _ _ _ _ _ Hrows Hr) as [[j row] [Hj [Hdata [_ Hcurt]]]].
  apply indexed_nth in Hj. destruct Hj as [Hji Hrow]. simpl in Hji. subst j.
  cbn [fst snd] in *. subst row.
  assert (Hsum := curtailment_sum_renewables
                    (Columns (solver (lp (buildLPModel techs dataChunks minRenewables))))
                    (capacities res) i (data r) (enabledTechsOf techs)).
  rewrite Hsum in Hcurt.
  split; [exact Hrow|]. split; [exact Hcurt|]. split.
  - rewrite Hcurt. apply sumQ_map_nonneg. intros t _. apply curtailmentAdded_bounds.
  - apply curtailmentAdded_bounds.
Qed.

Lemma curtailment_reported_witness :
  exists res r,
    optimizeWithHiGHS pinnedSolarSolver [pinnedSolar] twoHours 0 = Returned res /\
    nth_error (hourly res) 1 = Some r /\
    nth_error (concat twoHours) 1 = Some (data r) /\
    0 <= curtailment r.
Proof.
  refine (ex_intro _ ?[res] _). refine (ex_intro _ ?[r] _).
  assert (E : optimizeWithHiGHS pinnedSolarSolver [pinnedSolar] twoHours 0 = Returned ?res)
    by reflexivity.
  match type of E with
  | _ = Returned ?x => assert (Er : nth_error (hourly x) 1 = Some ?r) by reflexivity
  end.
  pose proof (curtailment_reported pinnedSolarSolver [pinnedSolar] twoHours 0 _ 1 _ E Er)
    as [Hrow [_ [Hpos _]]].
  split; [exact E|]. split; [exact Er|]. split; [exact Hrow|exact Hpos].
Defined.

Lemma nonneg_terms_value (p : LP) (a : assignment) (ts : list term) :
  (forall v, In v (bounds p) -> 0 <= a v) ->
  forallb (nonnegTermb p) ts = true ->
  0 <= evalTerms a ts.
Proof.
  intros Hb. induction ts as [|t ts IH]; simpl; intros H; [apply Qle_refl|].
  apply andb_true_iff in H. destruct H as [Ht Hts]. specialize (IH Hts).
  destruct t as [k v|k v]; simpl in Ht; [|discriminate].
  apply andb_true_iff in Ht. destruct Ht as [Hk Hv].
  apply Qle_bool_iff in Hk.
  destruct (in_dec var_eq_dec v (bounds p)) as [Hin|]; [|discriminate].
  assert (0 <= k * a v) by (apply Qmult_le_0_compat; [assumption|now apply Hb]).
  simpl. lra.
Qed.

(** The point [pinnedSolarSolver] returns is an optimum of the program it
    is asked to solve over a flat week. *)
Lemma pinnedSolar_point_optimal :
  feasible (lp (buildLPModel [pinnedSolar] [flatWeek 0 1 true] 0))
           (primal (Columns (pinnedSolarSolver
                               (lp (buildLPModel [pinnedSolar] [flatWeek 0 1 true] 0))))) /\
  forall a,
    feasible (lp (buildLPModel [pinnedSolar] [flatWeek 0 1 true] 0)) a ->
    objectiveValue (lp (buildLPModel [pinnedSolar] [flatWeek 0 1 true] 0))
                   (primal (Columns (pinnedSolarSolver
                                       (lp (buildLPModel [pinnedSolar] [flatWeek 0 1 true] 0)))))
    <= objectiveValue (lp (buildLPModel [pinnedSolar] [flatWeek 0 1 true] 0)) a.
Proof.
  split; [apply feasibleb_sound; vm_compute; reflexivity|].
  intros a Hf.
  assert (Hin : In pinnedSolar (enabledTechsOf [pinnedSolar])) by (left; reflexivity).
  pose proof (pin_row_present [pinnedSolar] [flatWeek 0 1 true] 0 pinnedSolar Hin eq_refl)
    as Hrow.
  destruct Hf as [Hsat Hb]. specialize (Hsat _ Hrow).
  unfold satisfies in Hsat. cbn in Hsat.
  unfold objectiveValue.
  remember (primal _) as p eqn:Ep.
  assert (Hsplit : exists k rest,
             objective (lp (buildLPModel [pinnedSolar] [flatWeek 0 1 true] 0))
             = Plus k (c_ SOLAR) :: rest /\
             forallb (nonnegTermb (lp (buildLPModel [pinnedSolar] [flatWeek 0 1 true] 0))) rest
             = true /\
             evalTerms p (Plus k (c_ SOLAR) :: rest) == k * (60.000001 * 1000)).
  { eexists. eexists. split; [reflexivity|]. split; [vm_compute; reflexivity|].
    subst p. vm_compute. reflexivity. }
  destruct Hsplit as [k [rest [Hobj [Hnn Hp]]]].
  rewrite Hobj, Hp.
  pose proof (nonneg_terms_value _ a rest Hb Hnn) as Hrest.
  cbn [evalTerms evalTerm].
  assert (Hc : a (c_ SOLAR) == 60.000001 * 1000) by lra.
  rewrite Hc. lra.
Qed.

(** C7 as stated fails inside the 0.001 band: with solar PV pinned at
    60.000001 GW, a solar factor of 0.5 and a flat demand of 30000 MW, the
    optimum generates 30000 MW against a potential of 30000.0005 MW; the
    reported curtailment is 0 while [max(0, potential - generation)] is
    0.0005. *)
Lemma curtailment_counterexample :
  exists res r,
    optimizeWithHiGHS pinnedSolarSolver [pinnedSolar] [flatWeek 0 1 true] 0 = Returned res /\
    nth_error (hourly res) 0 = Some r /\
    curtailment r == 0 /\
    Qmax 0 (getOr0 (capacities res) SOLAR * availability SOLAR (data r)
            - primal (Columns (pinnedSolarSolver
                                 (lp (buildLPModel [pinnedSolar] [flatWeek 0 1 true] 0))))
                     (g_ SOLAR 0))
    == 0.0005 /\
    ~ curtailment r ==
      Qmax 0 (getOr0 (capacities res) SOLAR * availability SOLAR (data r)
              - primal (Columns (pinnedSolarSolver
                                   (lp (buildLPModel [pinnedSolar] [flatWeek 0 1 true] 0))))
                       (g_ SOLAR 0)).
Proof.
  refine (ex_intro _ ?[res] _). refine (ex_intro _ ?[r] _).
  split; [reflexivity|]. split; [reflexivity|].
  split; [vm_compute; reflexivity|]. split; [vm_compute; reflexivity|].
  vm_compute. discriminate.
Qed.

(** ** Levelized cost *)






(** ** Declared variables *)

Lemma capacityBody_vars t v :
  In v (addedVars (capacityBody t)) <-> v = capacityVar t.
Proof.
  unfold capacityBody, capacityVar.
  destruct (is_storage (type t)); cbn [addedVars]; simpl; intuition congruence.
Qed.

Lemma generationBody_vars hourData i t v :
  In v (addedVars (generationBody hourData i t)) <->
  is_storage (type t) = false /\ v = g_ (id t) i.
Proof.
  unfold generationBody.
  destruct (is_storage (type t)); cbn [addedVars noEmit]; simpl; intuition congruence.
Qed.

Lemma hourBody_vars enabledTechs battTech i hourData v :
  In v (addedVars (hourBody enabledTechs battTech i hourData)) <->
  (exists t, In t enabledTechs /\ is_storage (type t) = false /\ v = g_ (id t) i) \/
  (battTech <> None /\ (v = b_ch_ i \/ v = b_dis_ i \/ v = b_soc_ i)) \/
  v = u_ i.
Proof.
  unfold hourBody. cbn [addedVars emitApp].
  rewrite !in_app_iff, emitAll_vars, in_emitted.
  split.
  - intros [[t [Ht Hv]] | [Hv | [<- | []]]].
    + left. exists t. apply generationBody_vars in Hv. tauto.
    + right; left. destruct battTech as [b|]; [|destruct Hv].
      split; [discriminate|]. simpl in Hv. intuition.
    + right; right. reflexivity.
  - intros [[t [Ht [Hs Hv]]] | [[Hb Hv] | ->]].
    + left. exists t. split; [assumption|]. apply generationBody_vars. tauto.
    + right; left. destruct battTech as [b|]; [|congruence].
      simpl. intuition.
    + right; right. left. reflexivity.
Qed.

Lemma nth_error_lt {A : Type} (l : list A) (i : nat) :
  (i < length l)%nat <-> exists x, nth_error l i = Some x.
Proof.
  rewrite <- nth_error_Some. destruct (nth_error l i) as [x|].
  - split; [eauto|discriminate].
  - split; [congruence|intros [x Hx]; discriminate].
Qed.

(** X1. The variables listed under [Bounds] are exactly: the power
    capacity of each enabled non-storage technology, the energy capacity of
    each enabled storage technology, one generation variable per enabled
    non-storage technology and hour, charge, discharge and state of charge
    per hour when some storage technology is enabled, and one unserved
    variable per hour. *)
Theorem declared_variables techs dataChunks minRenewables v :
  In v (bounds (lp (buildLPModel techs dataChunks minRenewables))) <->
  match v with
  | c_ k => exists t, In t (enabledTechsOf techs) /\ is_storage (type t) = false /\ id t = k
  | e_ k => exists t, In t (enabledTechsOf techs) /\ is_storage (type t) = true /\ id t = k
  | g_ k i =>
      (exists t, In t (enabledTechsOf techs) /\ is_storage (type t) = false /\ id t = k) /\
      (i < length (concat dataChunks))%nat
  | b_ch_ i | b_dis_ i | b_soc_ i =>
      findStorage (enabledTechsOf techs) <> None /\ (i < length (concat dataChunks))%nat
  | u_ i => (i < length (concat dataChunks))%nat
  end.
Proof.
  rewrite built_bounds. split.
  - intros [[t [Ht Hv]] | [i [h [Hi Hv]]]].
    + apply capacityBody_vars in Hv. subst v. unfold capacityVar.
      destruct (is_storage (type t)) eqn:Es; exists t; auto.
    + assert (Hlt : (i < length (concat dataChunks))%nat) by (apply nth_error_lt; eauto).
      apply hourBody_vars in Hv.
      destruct Hv as [[t [Ht [Hs ->]]] | [[Hb [-> | [-> | ->]]] | ->]]; eauto.
  - intros H. destruct v as [k|k|k i|i|i|i|i].
    + destruct H as [t [Ht [Hs <-]]]. left. exists t. split; [assumption|].
      apply capacityBody_vars. unfold capacityVar. now rewrite Hs.
    + destruct H as [t [Ht [Hs <-]]]. left. exists t. split; [assumption|].
      apply capacityBody_vars. unfold capacityVar. now rewrite Hs.
    + destruct H as [[t [Ht [Hs <-]]] Hlt]. apply nth_error_lt in Hlt.
      destruct Hlt as [h Hh]. right. exists i, h. split; [assumption|].
      apply hourBody_vars. left. eauto.
    + destruct H as [Hb Hlt]. apply nth_error_lt in Hlt. destruct Hlt as [h Hh].
      right. exists i, h. split; [assumption|]. apply hourBody_vars. right; left. auto.
    + destruct H as [Hb Hlt]. apply nth_error_lt in Hlt. destruct Hlt as [h Hh].
      right. exists i, h. split; [assumption|]. apply hourBody_vars. right; left. auto.
    + destruct H as [Hb Hlt]. apply nth_error_lt in Hlt. destruct Hlt as [h Hh].
      right. exists i, h. split; [assumption|]. apply hourBody_vars. right; left. auto.
    + apply nth_error_lt in H. destruct H as [h Hh].
      right. exists i, h. split; [assumption|]. apply hourBody_vars. right; right.
      reflexivity.
Qed.

Lemma findStorage_some enabledTechs b :
  findStorage enabledTechs = Some b -> In b enabledTechs /\ is_storage (type b) = true.
Proof. unfold findStorage. apply find_some. Qed.

Lemma findStorage_none enabledTechs :
  findStorage enabledTechs = None <->
  forall t, In t enabledTechs -> is_storage (type t) = false.
Proof.
  unfold findStorage. split.
  - intros H t Ht. exact (find_none _ _ H t Ht).
  - intros H. destruct (find _ enabledTechs) as [b|] eqn:E; [|reflexivity].
    apply find_some in E. destruct E as [Hin Hs]. rewrite (H b Hin) in Hs. discriminate.
Qed.

Lemma declared_capacity techs dataChunks minRenewables t :
  In t (enabledTechsOf techs) ->
  In (capacityVar t) (bounds (lp (buildLPModel techs dataChunks minRenewables))).
Proof.
  intros Ht. apply built_bounds. left. exists t. split; [assumption|].
  now apply capacityBody_vars.
Qed.

Lemma declared_at_hour techs dataChunks minRenewables i hourData v :
  nth_error (concat dataChunks) i = Some hourData ->
  In v (addedVars (hourBody (enabledTechsOf techs) (findStorage (enabledTechsOf techs))
                            i hourData)) ->
  In v (bounds (lp (buildLPModel techs dataChunks minRenewables))).
Proof. intros Hi Hv. apply built_bounds. right. eauto. Qed.

Lemma declared_generation techs dataChunks minRenewables i hourData t :
  nth_error (concat dataChunks) i = Some hourData ->
  In t (enabledTechsOf techs) -> is_storage (type t) = false ->
  In (g_ (id t) i) (bounds (lp (buildLPModel techs dataChunks minRenewables))).
Proof.
  intros Hi Ht Hs. apply (declared_at_hour _ _ _ i hourData); [assumption|].
  apply hourBody_vars. left. eauto.
Qed.

Lemma declared_storage techs dataChunks minRenewables i hourData v :
  nth_error (concat dataChunks) i = Some hourData ->
  findStorage (enabledTechsOf techs) <> None ->
  v = b_ch_ i \/ v = b_dis_ i \/ v = b_soc_ i ->
  In v (bounds (lp (buildLPModel techs dataChunks minRenewables))).
Proof.
  intros Hi Hb Hv. apply (declared_at_hour _ _ _ i hourData); [assumption|].
  apply hourBody_vars. right; left. auto.
Qed.

Lemma declared_unserved techs dataChunks minRenewables i hourData :
  nth_error (concat dataChunks) i = Some hourData ->
  In (u_ i) (bounds (lp (buildLPModel techs dataChunks minRenewables))).
Proof.
  intros Hi. apply (declared_at_hour _ _ _ i hourData); [assumption|].
  apply hourBody_vars. right; right. reflexivity.
Qed.

Lemma nth_error_pred {A : Type} (l : list A) (i : nat) (x : A) :
  nth_error l i = Some x -> exists y, nth_error l (i - 1) = Some y.
Proof.
  intros H. apply nth_error_lt.
  assert ((i < length l)%nat) by (apply nth_error_lt; eauto). lia.
Qed.

(** Every term pushed at hour [i] is on a declared variable. *)
Lemma hourBody_terms_declared techs dataChunks minRenewables i hourData :
  nth_error (concat dataChunks) i = Some hourData ->
  (forall tm,
      In tm (pushedObjective (hourBody (enabledTechsOf techs)
                                       (findStorage (enabledTechsOf techs)) i hourData)) ->
      In (termVar tm) (bounds (lp (buildLPModel techs dataChunks minRenewables)))) /\
  (forall c tm,
      In c (pushedConstraints (hourBody (enabledTechsOf techs)
                                        (findStorage (enabledTechsOf techs)) i hourData)) ->
      In tm (lhs c) ->
      In (termVar tm) (bounds (lp (buildLPModel techs dataChunks minRenewables)))).
Proof.
  intros Hi.
  assert (Hg : forall t, In t (enabledTechsOf techs) -> is_storage (type t) = false ->
                         In (g_ (id t) i)
                            (bounds (lp (buildLPModel techs dataChunks minRenewables))))
    by (intros; now apply declared_generation with (hourData := hourData)).
  assert (Hc : forall t, In t (enabledTechsOf techs) -> is_storage (type t) = false ->
                         In (c_ (id t))
                            (bounds (lp (buildLPModel techs dataChunks minRenewables)))).
  { intros t Ht Hs.
    pose proof (declared_capacity techs dataChunks minRenewables t Ht) as H.
    unfold capacityVar in H. now rewrite Hs in H. }
  assert (Hu : In (u_ i) (bounds (lp (buildLPModel techs dataChunks minRenewables))))
    by (now apply declared_unserved with (hourData := hourData)).
  assert (Hb : forall b, findStorage (enabledTechsOf techs) = Some b ->
                 In (b_ch_ i) (bounds (lp (buildLPModel techs dataChunks minRenewables))) /\
                 In (b_dis_ i) (bounds (lp (buildLPModel techs dataChunks minRenewables))) /\
                 In (b_soc_ i) (bounds (lp (buildLPModel techs dataChunks minRenewables))) /\
                 In (b_soc_ (i - 1))
                    (bounds (lp (buildLPModel techs dataChunks minRenewables))) /\
                 In (e_ (id b)) (bounds (lp (buildLPModel techs dataChunks minRenewables)))).
  { intros b Eb.
    assert (Hne : findStorage (enabledTechsOf techs) <> None) by congruence.
    destruct (nth_error_pred _ _ _ Hi) as [h' Hi'].
    repeat split;
      try (apply (declared_storage _ _ _ i hourData); auto; fail).
    - apply (declared_storage _ _ _ (i - 1) h'); auto.
    - apply findStorage_some in Eb. destruct Eb as [Hin Hs].
      pose proof (declared_capacity techs dataChunks minRenewables b Hin) as H.
      unfold capacityVar in H. now rewrite Hs in H. }
  unfold hourBody. cbn [pushedObjective pushedConstraints emitApp pushedBalance].
  split.
  - intros tm. rewrite !in_app_iff, emitAll_objective, in_emitted.
    intros [[t [Ht Htm]] | [Htm | [<- | []]]].
    + unfold generationBody in Htm. destruct (is_storage (type t)) eqn:Es; [destruct Htm|].
      cbn [pushedObjective] in Htm. destruct (Qgtb _ _); [|destruct Htm].
      destruct Htm as [<- | []]. simpl. auto.
    + destruct (findStorage (enabledTechsOf techs)) as [b|] eqn:Eb; [|destruct Htm].
      destruct (Hb b eq_refl) as [Hch _]. destruct Htm as [<- | []]. exact Hch.
    + exact Hu.
  - intros c tm. rewrite !in_app_iff, emitAll_constraints, in_emitted.
    intros [[[t [Ht Hrow]] | [Hrow | []]] | [<- | []]] Htm.
    + unfold generationBody in Hrow.
      destruct (is_storage (type t)) eqn:Es; [destruct Hrow|].
      cbn [pushedConstraints] in Hrow. destruct Hrow as [<- | []].
      destruct (is_renewable (type t)); [destruct (Qgtb _ _)|];
        simpl in Htm; intuition (subst; simpl; auto).
    + destruct (findStorage (enabledTechsOf techs)) as [b|] eqn:Eb; [|destruct Hrow].
      destruct (Hb b eq_refl) as [Hch [Hdis [Hsoc [Hprev He]]]].
      unfold storageBody in Hrow. cbn [pushedConstraints] in Hrow.
      apply in_app_or in Hrow. destruct Hrow as [Hrow | Hrow].
      * simpl in Hrow. destruct Hrow as [<- | [<- | [<- | []]]];
          simpl in Htm; intuition (subst; simpl; auto).
      * destruct (negb _).
        -- destruct Hrow as [<- | []]. simpl in Htm. intuition (subst; simpl; auto).
        -- destruct (0 <? i)%nat; [|destruct Hrow].
           destruct Hrow as [<- | []]. simpl in Htm. intuition (subst; simpl; auto).
    + cbn [lhs] in Htm. rewrite !in_app_iff, emitAll_balance, in_emitted in Htm.
      destruct Htm as [[t [Ht Htm]] | [Htm | [<- | []]]].
      * unfold generationBody in Htm.
        destruct (is_storage (type t)) eqn:Es; [destruct Htm|].
        destruct Htm as [<- | []]. simpl. auto.
      * destruct (findStorage (enabledTechsOf techs)) as [b|] eqn:Eb; [|destruct Htm].
        destruct (Hb b eq_refl) as [Hch [Hdis _]].
        simpl in Htm. intuition (subst; simpl; auto).
      * exact Hu.
Qed.

Lemma nonRezGenTerms_declared techs dataChunks minRenewables tm :
  In tm (nonRezGenTerms (enabledTechsOf techs) (concat dataChunks)) ->
  In (termVar tm) (bounds (lp (buildLPModel techs dataChunks minRenewables))).
Proof.
  unfold nonRezGenTerms. rewrite in_flat_map. intros [t [Ht Htm]].
  unfold nonRezTermsOf in Htm.
  destruct (negb (is_renewable (type t)) && negb (is_storage (type t))) eqn:E;
    [|destruct Htm].
  apply andb_true_iff in E. destruct E as [_ Es]. apply negb_true_iff in Es.
  apply in_flat_map in Htm. destruct Htm as [[i row] [Hi Htm]].
  apply indexed_in0 in Hi.
  destruct (includeInStats row); [|destruct Htm].
  destruct Htm as [<- | []]. simpl.
  now apply declared_generation with (hourData := row).
Qed.

(** X2. Every variable that occurs in the objective or in a row of the
    program is listed under [Bounds]: no row refers to an undeclared
    variable, and every variable of the program is kept non-negative. *)
Theorem referenced_variables_declared techs dataChunks minRenewables :
  (forall tm,
      In tm (objective (lp (buildLPModel techs dataChunks minRenewables))) ->
      In (termVar tm) (bounds (lp (buildLPModel techs dataChunks minRenewables)))) /\
  (forall c tm,
      In c (constraints (lp (buildLPModel techs dataChunks minRenewables))) ->
      In tm (lhs c) ->
      In (termVar tm) (bounds (lp (buildLPModel techs dataChunks minRenewables)))).
Proof.
  split.
  - intros tm Htm. unfold buildLPModel in Htm.
    cbn [lp objective emitApp pushedObjective] in Htm.
    rewrite in_app_iff, !emitAll_objective, !in_emitted in Htm.
    destruct Htm as [[t [Ht Htm]] | [[i h] [Hi Htm]]].
    + assert (termVar tm = capacityVar t) as ->.
      { unfold capacityBody, capacityVar in *.
        destruct (is_storage (type t)); cbn [pushedObjective] in Htm;
          destruct Htm as [<- | []]; reflexivity. }
      now apply declared_capacity.
    + apply indexed_in0 in Hi.
      exact (proj1 (hourBody_terms_declared techs dataChunks minRenewables i h Hi) tm Htm).
  - intros c tm Hc Htm. apply built_constraints in Hc.
    destruct Hc as [[t [Ht Hc]] | [[i [h [Hi Hc]]] | Hc]].
    + assert (termVar tm = capacityVar t) as ->.
      { unfold capacityBody, capacityVar in *.
        destruct (is_storage (type t)); cbn [pushedConstraints] in Hc;
          destruct (isFixed t); try destruct Hc as [<- | []]; try destruct Hc;
          destruct Htm as [<- | []]; reflexivity. }
      now apply declared_capacity.
    + exact (proj2 (hourBody_terms_declared techs dataChunks minRenewables i h Hi) c tm Hc Htm).
    + unfold minRenewablesRows in Hc. destruct (Qgtb minRenewables 0); [|destruct Hc].
      destruct (nonRezGenTerms (enabledTechsOf techs) (concat dataChunks)) eqn:E;
        [destruct Hc|].
      destruct Hc as [<- | []]. cbn [lhs] in Htm. rewrite <- E in Htm.
      now apply nonRezGenTerms_declared.
Qed.

(** ** Storage limits *)

(** X3. With a storage technology enabled, every hour has the rows
    [ch_lim], [dis_lim] and [soc_cap] against the energy capacity of the
    first enabled storage technology, so in every feasible point charge,
    discharge and state of charge lie between zero and that capacity. *)
Theorem storage_limits techs dataChunks minRenewables b i hourData :
  findStorage (enabledTechsOf techs) = Some b ->
  nth_error (concat dataChunks) i = Some hourData ->
  In (mkRow (ch_lim_ i) [Plus 1 (b_ch_ i); Minus 1 (e_ (id b))] LE 0)
     (constraints (lp (buildLPModel techs dataChunks minRenewables))) /\
  In (mkRow (dis_lim_ i) [Plus 1 (b_dis_ i); Minus 1 (e_ (id b))] LE 0)
     (constraints (lp (buildLPModel techs dataChunks minRenewables))) /\
  In (mkRow (soc_cap_ i) [Plus 1 (b_soc_ i); Minus 1 (e_ (id b))] LE 0)
     (constraints (lp (buildLPModel techs dataChunks minRenewables))) /\
  forall a,
    feasible (lp (buildLPModel techs dataChunks minRenewables)) a ->
    0 <= a (b_ch_ i) <= a (e_ (id b)) /\
    0 <= a (b_dis_ i) <= a (e_ (id b)) /\
    0 <= a (b_soc_ i) <= a (e_ (id b)).
Proof.
  intros Hb Hi.
  assert (Hrow : forall c, In c (pushedConstraints (storageBody hourData i b)) ->
                 In c (constraints (lp (buildLPModel techs dataChunks minRenewables)))).
  { intros c Hc. apply built_constraints. right; left. exists i, hourData.
    split; [assumption|]. rewrite Hb. now apply hourBody_storage_row. }
  assert (H1 : In (mkRow (ch_lim_ i) [Plus 1 (b_ch_ i); Minus 1 (e_ (id b))] LE 0)
                  (constraints (lp (buildLPModel techs dataChunks minRenewables))))
    by (apply Hrow; unfold storageBody; cbn [pushedConstraints]; simpl; auto).
  assert (H2 : In (mkRow (dis_lim_ i) [Plus 1 (b_dis_ i); Minus 1 (e_ (id b))] LE 0)
                  (constraints (lp (buildLPModel techs dataChunks minRenewables))))
    by (apply Hrow; unfold storageBody; cbn [pushedConstraints]; simpl; auto).
  assert (H3 : In (mkRow (soc_cap_ i) [Plus 1 (b_soc_ i); Minus 1 (e_ (id b))] LE 0)
                  (constraints (lp (buildLPModel techs dataChunks minRenewables))))
    by (apply Hrow; unfold storageBody; cbn [pushedConstraints]; simpl; auto).
  repeat split; try assumption;
    match goal with
    | Hf : feasible _ ?a |- 0 <= ?a ?v =>
        destruct Hf as [_ Hbd]; apply Hbd;
        apply (declared_storage _ _ _ i hourData); [assumption|congruence|auto]
    | Hf : feasible _ ?a |- _ =>
        destruct Hf as [Hsat _];
        pose proof (Hsat _ H1) as S1; pose proof (Hsat _ H2) as S2;
        pose proof (Hsat _ H3) as S3;
        unfold satisfies in S1, S2, S3; simpl in S1, S2, S3; lra
    end.
Qed.

Lemma storage_limits_witness :
  In (mkRow (soc_cap_ 2) [Plus 1 (b_soc_ 2); Minus 1 (e_ BATTERY)] LE 0)
     (constraints (lp (buildLPModel sampleTechs sampleChunks 0))).
Proof.
  refine (proj1 (proj2 (proj2
    (storage_limits sampleTechs sampleChunks 0 defaultBattery 2
       (flatHour 2 0.25 0 1 false) _ _)))); reflexivity.
Defined.

Lemma hourBody_labels enabledTechs battTech i hourData c :
  In c (pushedConstraints (hourBody enabledTechs battTech i hourData)) ->
  (exists t, In t enabledTechs /\ is_storage (type t) = false /\ label c = cap_ (id t) i) \/
  (battTech <> None /\
   (label c = ch_lim_ i \/ label c = dis_lim_ i \/ label c = soc_cap_ i \/
    label c = soc_dyn_ i \/ label c = soc_start_ i)) \/
  label c = bal_ i.
Proof.
  unfold hourBody. cbn [pushedConstraints emitApp].
  rewrite !in_app_iff, emitAll_constraints, in_emitted.
  intros [[[t [Ht Hc]] | [Hc | []]] | [<- | []]].
  - left. exists t. split; [assumption|].
    pose proof (generationBody_labels _ _ _ _ Hc) as Hl.
    unfold generationBody in Hc. destruct (is_storage (type t)); [destruct Hc|auto].
  - right; left. destruct battTech as [b|]; [|destruct Hc]. split; [discriminate|].
    unfold storageBody in Hc. cbn [pushedConstraints] in Hc.
    apply in_app_or in Hc. destruct Hc as [Hc | Hc].
    + simpl in Hc. destruct Hc as [<- | [<- | [<- | []]]]; simpl; auto.
    + destruct (negb _); [destruct Hc as [<- | []]; simpl; auto|].
      destruct (0 <? i)%nat; [destruct Hc as [<- | []]; simpl; auto 6|destruct Hc].
  - right; right. reflexivity.
Qed.

(** X4. When no enabled technology is a storage technology the program
    has no storage variable and no storage row: its variables are power
    capacities, generation and unserved energy, and its rows are capacity
    pins, capacity links, balances and the renewable-share row. *)
Theorem no_storage_no_storage_rows techs dataChunks minRenewables :
  (forall t, In t (enabledTechsOf techs) -> type t <> storage) ->
  (forall v, In v (bounds (lp (buildLPModel techs dataChunks minRenewables))) ->
             match v with c_ _ | g_ _ _ | u_ _ => True | _ => False end) /\
  (forall c, In c (constraints (lp (buildLPModel techs dataChunks minRenewables))) ->
             match label c with
             | fix_c_ _ | cap_ _ _ | bal_ _ | min_res_global => True
             | _ => False
             end).
Proof.
  intros Hnone.
  assert (Hs : forall t, In t (enabledTechsOf techs) -> is_storage (type t) = false).
  { intros t Ht. specialize (Hnone t Ht). destruct (type t); auto; congruence. }
  assert (Hfind : findStorage (enabledTechsOf techs) = None)
    by (now apply findStorage_none).
  split.
  - intros v Hv. apply built_bounds in Hv.
    destruct Hv as [[t [Ht Hv]] | [i [h [Hi Hv]]]].
    + apply capacityBody_vars in Hv. subst v. unfold capacityVar. now rewrite (Hs t Ht).
    + apply hourBody_vars in Hv.
      destruct Hv as [[t [_ [_ ->]]] | [[Hb _] | ->]]; auto. congruence.
  - intros c Hc. apply built_constraints in Hc.
    destruct Hc as [[t [Ht Hc]] | [[i [h [Hi Hc]]] | Hc]].
    + unfold capacityBody in Hc. rewrite (Hs t Ht) in Hc. cbn [pushedConstraints] in Hc.
      destruct (isFixed t); [|destruct Hc]. destruct Hc as [<- | []]. exact I.
    + apply hourBody_labels in Hc.
      destruct Hc as [[t [_ [_ ->]]] | [[Hb _] | ->]]; auto. congruence.
    + apply minRenewablesRows_labels in Hc. now rewrite Hc.
Qed.

Lemma no_storage_no_storage_rows_witness :
  In (c_ SOLAR) (bounds (lp (buildLPModel [defaultSolar; defaultGasCcgt] sampleChunks 50))) /\
  (forall v, In v (bounds (lp (buildLPModel [defaultSolar; defaultGasCcgt] sampleChunks 50))) ->
             match v with c_ _ | g_ _ _ | u_ _ => True | _ => False end).
Proof.
  split; [left; reflexivity|].
  refine (proj1 (no_storage_no_storage_rows [defaultSolar; defaultGasCcgt] sampleChunks 50 _)).
  intros t [<- | [<- | []]]; discriminate.
Defined.

(** ** The program is feasible *)

Lemma NoDup_id_inj (l : list TechDefinition) (t t' : TechDefinition) :
  NoDup (map id l) -> In t l -> In t' l -> id t = id t' -> t = t'.
Proof.
  induction l as [|x l IH]; intros Hnd Ht Ht' Hid; [destruct Ht|].
  simpl in Hnd. inversion Hnd as [|? ? Hnot Hnd']; subst.
  destruct Ht as [-> | Ht]; destruct Ht' as [-> | Ht']; auto.
  - exfalso. apply Hnot. rewrite Hid. now apply in_map.
  - exfalso. apply Hnot. rewrite <- Hid. now apply in_map.
Qed.

Lemma pinOf_nonneg enabledTechs stor k :
  (forall t, In t enabledTechs -> isFixed t = true -> 0 <= suppliedCapacity t) ->
  0 <= pinOf enabledTechs stor k.
Proof.
  intros H. unfold pinOf.
  destruct (find _ enabledTechs) as [t|] eqn:E; [|apply Qle_refl].
  apply find_some in E. destruct E as [Hin Hp].
  apply andb_true_iff in Hp. destruct Hp as [Hp _].
  apply andb_true_iff in Hp. destruct Hp as [Hfix _].
  specialize (H t Hin Hfix). unfold suppliedCapacity in H.
  rewrite orDefault_zero. lra.
Qed.

Lemma pinOf_fixed enabledTechs t :
  NoDup (map id enabledTechs) -> In t enabledTechs -> isFixed t = true ->
  pinOf enabledTechs (is_storage (type t)) (id t) = orDefault (fixedCapacity t) 0 * 1000.
Proof.
  intros Hnd Ht Hfix. unfold pinOf.
  destruct (find _ enabledTechs) as [t'|] eqn:E.
  - apply find_some in E. destruct E as [Hin Hp].
    apply andb_true_iff in Hp. destruct Hp as [_ Hid].
    unfold TechType_eqb in Hid. destruct (TechType_eq_dec (id t') (id t)); [|discriminate].
    now rewrite (NoDup_id_inj enabledTechs t' t Hnd Hin Ht).
  - exfalso. pose proof (find_none _ _ E t Ht) as Hp. cbv beta in Hp.
    rewrite Hfix, Bool.eqb_reflx, TechType_eqb_refl in Hp. discriminate.
Qed.

Lemma unservedPoint_generation techs flat enabledTechs i :
  generationAt (unservedPoint techs flat) enabledTechs i == 0.
Proof.
  unfold generationAt.
  induction (filter _ enabledTechs) as [|t l IH]; simpl; [reflexivity|].
  rewrite IH. ring.
Qed.

Lemma unservedPoint_nonRenewable techs flat enabledTechs :
  weightedNonRenewableGeneration (unservedPoint techs flat) enabledTechs flat == 0.
Proof.
  unfold weightedNonRenewableGeneration.
  induction (hoursWhere includeInStats flat) as [|[i h] l IH]; simpl; [reflexivity|].
  rewrite IH. unfold nonRenewableGenerationAt.
  assert (Hz : sumQ (map (fun t => unservedPoint techs flat (g_ (id t) i))
                         (filter (fun t => negb (is_renewable (type t))
                                           && negb (is_storage (type t))) enabledTechs))
               == 0).
  { induction (filter _ enabledTechs) as [|t l' IH']; simpl; [reflexivity|].
    rewrite IH'. ring. }
  rewrite Hz. ring.
Qed.

(** X5. The program always has a feasible point on sound input: when
    demands and weights are non-negative, pinned capacities are
    non-negative, the enabled technologies have distinct ids and the share
    is at most 100, the point that builds only the pinned capacities and
    leaves every hour's demand unserved satisfies every row and bound. *)
Theorem unserved_point_feasible techs dataChunks minRenewables :
  NoDup (map id (enabledTechsOf techs)) ->
  (forall t, In t (enabledTechsOf techs) -> isFixed t = true -> 0 <= suppliedCapacity t) ->
  Forall (fun row => 0 <= demand row /\ 0 <= weight row) (concat dataChunks) ->
  minRenewables <= 100 ->
  feasible (lp (buildLPModel techs dataChunks minRenewables))
           (unservedPoint techs (concat dataChunks)).
Proof.
  intros Hnd Hpin Hdata Hx.
  set (p := unservedPoint techs (concat dataChunks)).
  assert (Hcap : forall s k, 0 <= pinOf (enabledTechsOf techs) s k)
    by (intros; now apply pinOf_nonneg).
  assert (Hzero : forall v, 0 <= p v).
  { intros [k|k|k i|i|i|i|i]; unfold p; simpl; try apply Hcap; try apply Qle_refl.
    destruct (nth_error (concat dataChunks) i) as [h|] eqn:E; [|apply Qle_refl].
    rewrite Forall_forall in Hdata. apply nth_error_In in E. now apply Hdata. }
  split; [|intros v _; apply Hzero].
  intros c Hc. apply built_constraints in Hc.
  destruct Hc as [[t [Ht Hc]] | [[i [h [Hi Hc]]] | Hc]].
  - unfold capacityBody in Hc.
    pose proof (pinOf_fixed (enabledTechsOf techs) t Hnd Ht) as Hfixed.
    destruct (is_storage (type t)) eqn:Es; cbn [pushedConstraints] in Hc;
      destruct (isFixed t); try destruct Hc as [<- | []]; try destruct Hc;
      unfold satisfies; cbn [rel lhs rhs evalTerms evalTerm]; unfold p; simpl;
      rewrite (Hfixed eq_refl); ring.
  - unfold hourBody in Hc. cbn [pushedConstraints emitApp] in Hc.
    rewrite !in_app_iff, emitAll_constraints, in_emitted in Hc.
    destruct Hc as [[[t [Ht Hc]] | [Hc | []]] | [<- | []]].
    + unfold generationBody in Hc. destruct (is_storage (type t)); [destruct Hc|].
      cbn [pushedConstraints] in Hc. destruct Hc as [<- | []].
      destruct (is_renewable (type t)).
      * destruct (Qgtb (profileOf (id t) h) 0.001) eqn:Ep;
          unfold satisfies; cbn [rel lhs rhs evalTerms evalTerm]; unfold p; simpl.
        -- apply Qgtb_true in Ep.
           assert (0 <= profileOf (id t) h * pinOf (enabledTechsOf techs) false (id t))
             by (apply Qmult_le_0_compat; [lra|apply Hcap]).
           lra.
        -- lra.
      * unfold satisfies; cbn [rel lhs rhs evalTerms evalTerm]; unfold p; simpl.
        pose proof (Hcap false (id t)). lra.
    + destruct (findStorage (enabledTechsOf techs)) as [b|]; [|destruct Hc].
      unfold storageBody in Hc. cbn [pushedConstraints] in Hc.
      apply in_app_or in Hc. destruct Hc as [Hc | Hc].
      * simpl in Hc.
        destruct Hc as [<- | [<- | [<- | []]]];
          unfold satisfies; cbn [rel lhs rhs evalTerms evalTerm]; unfold p; simpl;
          pose proof (Hcap true (id b)); unfold BATTERY_C_RATE; lra.
      * destruct (negb _).
        -- destruct Hc as [<- | []].
           unfold satisfies; cbn [rel lhs rhs evalTerms evalTerm]; unfold p; simpl.
           unfold BATTERY_EFF. lra.
        -- destruct (0 <? i)%nat; [|destruct Hc]. destruct Hc as [<- | []].
           unfold satisfies; cbn [rel lhs rhs evalTerms evalTerm]; unfold p; simpl.
           unfold BATTERY_EFF. lra.
    + unfold satisfies. cbn [rel lhs rhs emitApp pushedBalance].
      rewrite !evalTerms_app, balance_terms_generation, balance_terms_storage.
      subst p. rewrite unservedPoint_generation.
      unfold dischargeAt, chargeAt.
      cbn [evalTerms evalTerm pushedBalance unservedPoint]. rewrite Hi.
      destruct (findStorage (enabledTechsOf techs)); ring.
  - unfold minRenewablesRows in Hc.
    destruct (Qgtb minRenewables 0); [|destruct Hc].
    destruct (nonRezGenTerms (enabledTechsOf techs) (concat dataChunks)) eqn:E;
      [destruct Hc|].
    destruct Hc as [<- | []]. unfold satisfies. cbn [rel lhs rhs]. rewrite <- E.
    rewrite nonRezGenTerms_eval, totalAnnualDemand_weighted.
    unfold p. rewrite unservedPoint_nonRenewable.
    apply Qmult_le_0_compat; [now apply weightedDemand_nonneg|].
    assert (Hdiv : minRenewables / 100 == minRenewables * (1 # 100))
      by (unfold Qdiv; reflexivity).
    rewrite Hdiv. lra.
Qed.

Lemma unserved_point_feasible_witness :
  feasible (lp (buildLPModel mixedTechs sampleChunks 50))
           (unservedPoint mixedTechs (concat sampleChunks)).
Proof.
  apply (unserved_point_feasible mixedTechs sampleChunks 50).
  - repeat constructor; simpl; intuition discriminate.
  - intros t [<- | [<- | [<- | [<- | []]]]]; intros; try discriminate.
  - assert (Hb : forallb (fun row => Qle_bool 0 (demand row) && Qle_bool 0 (weight row))
                         (concat sampleChunks) = true) by (vm_compute; reflexivity).
    rewrite forallb_forall in Hb. apply Forall_forall. intros row Hrow.
    specialize (Hb row Hrow). apply andb_true_iff in Hb.
    split; apply Qle_bool_iff; tauto.
  - discriminate.
Defined.

(** ** Rows of [hourly] *)

Lemma optimize_returned_loop solver techs dataChunks minRenewables res :
  optimizeWithHiGHS solver techs dataChunks minRenewables = Returned res ->
  hourly res =
  hourlyResults
    (extractHours (Columns (solver (lp (buildLPModel techs dataChunks minRenewables))))
                  (enabledTechsOf techs) (capacities res) (concat dataChunks)) /\
  totalCo2 res =
  accCo2
    (extractHours (Columns (solver (lp (buildLPModel techs dataChunks minRenewables))))
                  (enabledTechsOf techs) (capacities res) (concat dataChunks)) /\
  mix res =
  accMix
    (extractHours (Columns (solver (lp (buildLPModel techs dataChunks minRenewables))))
                  (enabledTechsOf techs) (capacities res) (concat dataChunks)) /\
  unservedEnergy res =
  annualUnserved
    (extractHours (Columns (solver (lp (buildLPModel techs dataChunks minRenewables))))
                  (enabledTechsOf techs) (capacities res) (concat dataChunks)).
Proof.
  unfold optimizeWithHiGHS. cbv zeta.
  change (flatData (buildLPModel techs dataChunks minRenewables)) with (concat dataChunks).
  destruct (negb (String.eqb _ "Optimal")) eqn:Est; [discriminate|].
  intros H. injection H as Hres. subst res.
  cbn [capacities hourly totalCo2 mix unservedEnergy]. unfold extractHours.
  repeat split; reflexivity.
Qed.

Lemma dispatchBody_gens solution caps i row st t k :
  rowGens (dispatchBody solution caps i row st t) k =
  if negb (is_storage (type t)) && TechType_eqb (id t) k && negb (TechType_eqb k BATTERY)
  then Some (primal solution (g_ k i))
  else rowGens st k.
Proof.
  unfold dispatchBody. destruct (is_storage (type t)); [reflexivity|].
  cbn [negb andb].
  assert (Hg : setGen (id t) (primal solution (g_ (id t) i)) (rowGens st) k =
               if TechType_eqb (id t) k && negb (TechType_eqb k BATTERY)
               then Some (primal solution (g_ k i)) else rowGens st k).
  { unfold TechType_eqb.
    destruct (TechType_eq_dec (id t) k) as [<-|Hne].
    - destruct (TechType_eq_dec (id t) BATTERY) as [->|Hnb]; [reflexivity|].
      cbn [andb negb].
      assert (setGen (id t) (primal solution (g_ (id t) i)) (rowGens st)
              = setKey (rowGens st) (id t) (primal solution (g_ (id t) i)))
        by (destruct (id t); try reflexivity; congruence).
      rewrite H. unfold setKey. now rewrite TechType_eqb_refl.
    - cbn [andb]. destruct (id t) eqn:Eid; try reflexivity;
        unfold setGen, setKey; rewrite TechType_eqb_neq; congruence. }
  destruct (includeInStats row); cbn [rowGens]; exact Hg.
Qed.

Lemma dispatch_gens solution caps i row (l : list TechDefinition) (st : TechLoop) k :
  rowGens (fold_left (dispatchBody solution caps i row) l st) k =
  if hasGenerator l k && negb (TechType_eqb k BATTERY)
  then Some (primal solution (g_ k i))
  else rowGens st k.
Proof.
  revert st. induction l as [|t l IH]; intros st; cbn [fold_left]; [reflexivity|].
  rewrite IH, dispatchBody_gens. unfold hasGenerator. cbn [existsb].
  fold (hasGenerator l k).
  destruct (hasGenerator l k); destruct (negb (TechType_eqb k BATTERY));
    destruct (negb (is_storage (type t)) && TechType_eqb (id t) k); reflexivity.
Qed.

Lemma extract_details solution enabledTechs caps (L : list (nat * HourlyData)) :
  forall st, exists ext,
      hourlyResults (fold_left (extractHour solution enabledTechs caps) L st)
      = hourlyResults st ++ ext /\
      Forall2 (rowDetails solution enabledTechs) L ext.
Proof.
  induction L as [|[i row] L IH]; intros st; cbn [fold_left].
  - exists []. rewrite app_nil_r. split; [reflexivity|constructor].
  - destruct (IH (extractHour solution enabledTechs caps st (i, row))) as [ext [He Hf]].
    rewrite He. cbn [extractHour hourlyResults]. rewrite <- app_assoc.
    eexists. split; [reflexivity|]. constructor; [|exact Hf].
    unfold rowDetails.
    cbn [genFields batteryCharge batteryDischarge batterySoC fst snd].
    split; [|repeat split; reflexivity].
    intro k. rewrite dispatch_gens. cbn [rowGens]. unfold emptyMap.
    destruct (hasGenerator enabledTechs k && negb (TechType_eqb k BATTERY)); reflexivity.
Qed.

Lemma hasGenerator_true enabledTechs t :
  In t enabledTechs -> is_storage (type t) = false -> hasGenerator enabledTechs (id t) = true.
Proof.
  intros Ht Hs. unfold hasGenerator. apply existsb_exists. exists t.
  split; [assumption|]. now rewrite Hs, TechType_eqb_refl.
Qed.

(** X6. A returned result has one row of [hourly] per hour of the
    timeline, in order: row [i] carries the input row, the unserved
    variable as shortfall, the generation variable of every enabled
    non-storage technology under that technology's field (no field exists
    for an id without such a technology, nor for the id [BATTERY]), and the
    charge, discharge and state-of-charge variables exactly when a storage
    technology is enabled. *)
Theorem hourly_rows_aligned solver techs dataChunks minRenewables res :
  optimizeWithHiGHS solver techs dataChunks minRenewables = Returned res ->
  length (hourly res) = length (concat dataChunks) /\
  forall i r,
    nth_error (hourly res) i = Some r ->
    nth_error (concat dataChunks) i = Some (data r) /\
    shortfall r =
    primal (Columns (solver (lp (buildLPModel techs dataChunks minRenewables)))) (u_ i) /\
    (forall t, In t (enabledTechsOf techs) -> is_storage (type t) = false ->
               id t <> BATTERY ->
               genFields r (id t) =
               Some (primal (Columns (solver (lp (buildLPModel techs dataChunks
                                                               minRenewables))))
                            (g_ (id t) i))) /\
    (forall k, hasGenerator (enabledTechsOf techs) k = false -> genFields r k = None) /\
    genFields r BATTERY = None /\
    (findStorage (enabledTechsOf techs) = None ->
     batteryCharge r = None /\ batteryDischarge r = None /\ batterySoC r = None) /\
    (findStorage (enabledTechsOf techs) <> None ->
     batteryCharge r =
     Some (primal (Columns (solver (lp (buildLPModel techs dataChunks minRenewables))))
                  (b_ch_ i)) /\
     batteryDischarge r =
     Some (primal (Columns (solver (lp (buildLPModel techs dataChunks minRenewables))))
                  (b_dis_ i)) /\
     batterySoC r =
     Some (primal (Columns (solver (lp (buildLPModel techs dataChunks minRenewables))))
                  (b_soc_ i))).
Proof.
  intros Hres. pose proof (optimize_returned_loop _ _ _ _ _ Hres) as [Hh _].
  apply optimize_returned in Hres. destruct Hres as [_ [_ [Hrows _]]].
  set (sol := Columns (solver (lp (buildLPModel techs dataChunks minRenewables)))) in *.
  split.
  { apply Forall2_length in Hrows. rewrite indexed_length in Hrows. now symmetry. }
  intros i r Hr.
  destruct (Forall2_nth_error_r _ _ _ _ _ Hrows Hr) as [[j row] [Hj [Hdata [Hshort _]]]].
  destruct (extract_details sol (enabledTechsOf techs) (capacities res)
              (indexed 0 (concat dataChunks)) (mkHourLoop [] emptyMap 0 0 0))
    as [ext [He Hdet]].
  unfold extractHours in Hh. rewrite He in Hh. cbn [hourlyResults app] in Hh.
  rewrite Hh in Hr.
  destruct (Forall2_nth_error_r _ _ _ _ _ Hdet Hr) as [[j' row'] [Hj' [Hg [Hc [Hd Hs]]]]].
  rewrite Hj in Hj'. injection Hj' as <- <-.
  apply indexed_nth in Hj. destruct Hj as [Hji Hrow]. simpl in Hji. subst j.
  cbn [fst snd] in *. subst row.
  split; [exact Hrow|]. split; [exact Hshort|]. split; [|split; [|split; [|split]]].
  - intros t Ht Hst Hnb. rewrite Hg, (hasGenerator_true _ _ Ht Hst).
    now rewrite (TechType_eqb_neq _ _ Hnb).
  - intros k Hk. now rewrite Hg, Hk.
  - rewrite Hg, TechType_eqb_refl. now rewrite andb_false_r.
  - intros Hn. rewrite Hn in Hc, Hd, Hs. auto.
  - intros Hn. destruct (findStorage (enabledTechsOf techs)); [auto|congruence].
Qed.

Lemma hourly_rows_aligned_witness :
  exists res,
    optimizeWithHiGHS pinnedSolarSolver [pinnedSolar] twoHours 0 = Returned res /\
    length (hourly res) = 2%nat.
Proof.
  destruct (optimal_status_returns pinnedSolarSolver [pinnedSolar] twoHours 0 eq_refl)
    as [res Hres].
  exists res. split; [exact Hres|].
  exact (proj1 (hourly_rows_aligned pinnedSolarSolver [pinnedSolar] twoHours 0 res Hres)).
Defined.

(** ** Emissions, mix and unserved energy *)

Lemma dispatchBody_co2 solution caps i row st t :
  loopCo2 (dispatchBody solution caps i row st t) ==
  loopCo2 st
  + if includeInStats row && negb (is_storage (type t))
    then primal solution (g_ (id t) i) * weight row * co2 t else 0.
Proof.
  unfold dispatchBody.
  destruct (is_storage (type t)); [rewrite andb_false_r; ring|].
  destruct (includeInStats row); cbn [loopCo2 andb negb]; ring.
Qed.

Lemma dispatch_co2 solution caps i row (l : list TechDefinition) (st : TechLoop) :
  loopCo2 (fold_left (dispatchBody solution caps i row) l st) ==
  loopCo2 st
  + if includeInStats row
    then sumQ (map (fun t => primal solution (g_ (id t) i) * weight row * co2 t)
                   (filter (fun t => negb (is_storage (type t))) l))
    else 0.
Proof.
  revert st. induction l as [|t l IH]; intros st; cbn [fold_left].
  - destruct (includeInStats row); simpl; ring.
  - rewrite IH, dispatchBody_co2. cbn [filter].
    destruct (includeInStats row); destruct (negb (is_storage (type t))); simpl; ring.
Qed.

Lemma getOr0_setKey m k x j :
  getOr0 (setKey m k x) j = if TechType_eqb j k then x else getOr0 m j.
Proof. unfold getOr0, setKey. destruct (TechType_eqb j k); reflexivity. Qed.

Lemma dispatchBody_mix solution caps i row st t k :
  getOr0 (loopMix (dispatchBody solution caps i row st t)) k ==
  getOr0 (loopMix st) k
  + if includeInStats row && (negb (is_storage (type t)) && TechType_eqb (id t) k)
    then primal solution (g_ (id t) i) * weight row else 0.
Proof.
  unfold dispatchBody.
  destruct (is_storage (type t)); [rewrite andb_false_r; ring|].
  destruct (includeInStats row); cbn [loopMix andb negb]; [|ring].
  rewrite getOr0_setKey. unfold TechType_eqb.
  destruct (TechType_eq_dec k (id t)) as [->|Hne].
  - destruct (TechType_eq_dec (id t) (id t)); [ring|congruence].
  - destruct (TechType_eq_dec (id t) k); [congruence|ring].
Qed.

Lemma dispatch_mix solution caps i row (l : list TechDefinition) (st : TechLoop) k :
  getOr0 (loopMix (fold_left (dispatchBody solution caps i row) l st)) k ==
  getOr0 (loopMix st) k
  + if includeInStats row
    then generationOf (primal solution) l k i * weight row
    else 0.
Proof.
  unfold generationOf.
  revert st. induction l as [|t l IH]; intros st; cbn [fold_left].
  - destruct (includeInStats row); simpl; ring.
  - rewrite IH, dispatchBody_mix. cbn [filter].
    destruct (includeInStats row); cbn [andb]; [|ring].
    destruct (negb (is_storage (type t)) && TechType_eqb (id t) k) eqn:E; simpl; [|ring].
    apply andb_true_iff in E. destruct E as [_ E].
    unfold TechType_eqb in E. destruct (TechType_eq_dec (id t) k) as [->|]; [|discriminate].
    ring.
Qed.

Lemma extractHour_co2 solution enabledTechs caps st i row :
  accCo2 (extractHour solution enabledTechs caps st (i, row)) ==
  accCo2 st
  + if includeInStats row
    then sumQ (map (fun t => primal solution (g_ (id t) i) * weight row * co2 t)
                   (filter (fun t => negb (is_storage (type t))) enabledTechs))
    else 0.
Proof. cbn [extractHour accCo2]. rewrite dispatch_co2. cbn [loopCo2]. reflexivity. Qed.

Lemma extractHour_mix solution enabledTechs caps st i row k :
  getOr0 (accMix (extractHour solution enabledTechs caps st (i, row))) k ==
  getOr0 (accMix st) k
  + if includeInStats row
    then (generationOf (primal solution) enabledTechs k i
          + if TechType_eqb k BATTERY
            then dischargeAt (primal solution) enabledTechs i else 0) * weight row
    else 0.
Proof.
  cbn [extractHour accMix]. unfold dischargeAt.
  pose proof (dispatch_mix solution caps i row enabledTechs
                (mkTechLoop emptyMap 0 (accMix st) (accCo2 st))) as Hm.
  cbn [loopMix] in Hm.
  destruct (findStorage enabledTechs) as [b|].
  - destruct (includeInStats row) eqn:Es.
    + rewrite getOr0_setKey. unfold TechType_eqb.
      destruct (TechType_eq_dec k BATTERY) as [->|Hne].
      * rewrite (Hm BATTERY). ring.
      * rewrite (Hm k). ring.
    + rewrite (Hm k). ring.
  - rewrite (Hm k). destruct (includeInStats row); [|ring].
    destruct (TechType_eqb k BATTERY); ring.
Qed.

Lemma extract_co2 solution enabledTechs caps (L : list (nat * HourlyData)) :
  forall st,
    accCo2 (fold_left (extractHour solution enabledTechs caps) L st) ==
    accCo2 st
    + sumQ (map (fun ir : nat * HourlyData =>
                   sumQ (map (fun t => primal solution (g_ (id t) (fst ir))
                                       * weight (snd ir) * co2 t)
                             (filter (fun t => negb (is_storage (type t))) enabledTechs)))
                (filter (fun ir => includeInStats (snd ir)) L)).
Proof.
  induction L as [|[i row] L IH]; intros st; cbn [fold_left]; [simpl; ring|].
  rewrite IH, extractHour_co2. cbn [filter snd].
  destruct (includeInStats row); simpl; ring.
Qed.

Lemma extract_mix solution enabledTechs caps (L : list (nat * HourlyData)) k :
  forall st,
    getOr0 (accMix (fold_left (extractHour solution enabledTechs caps) L st)) k ==
    getOr0 (accMix st) k
    + sumQ (map (fun ir : nat * HourlyData =>
                   (generationOf (primal solution) enabledTechs k (fst ir)
                    + if TechType_eqb k BATTERY
                      then dischargeAt (primal solution) enabledTechs (fst ir) else 0)
                   * weight (snd ir))
                (filter (fun ir => includeInStats (snd ir)) L)).
Proof.
  induction L as [|[i row] L IH]; intros st; cbn [fold_left]; [simpl; ring|].
  rewrite IH, extractHour_mix. cbn [filter snd].
  destruct (includeInStats row); simpl; ring.
Qed.

(** X7. The reported emissions are the weighted sum, over the hours
    flagged [includeInStats] only, of generation times the emission factor
    of every enabled non-storage technology. *)
Theorem total_co2_weighted solver techs dataChunks minRenewables res :
  optimizeWithHiGHS solver techs dataChunks minRenewables = Returned res ->
  totalCo2 res ==
  weightedEmissions
    (primal (Columns (solver (lp (buildLPModel techs dataChunks minRenewables)))))
    (enabledTechsOf techs) (concat dataChunks).
Proof.
  intros Hres. apply optimize_returned_loop in Hres.
  destruct Hres as [_ [Hco2 _]]. rewrite Hco2. unfold extractHours.
  rewrite extract_co2. cbn [accCo2]. unfold weightedEmissions, hoursWhere. ring.
Qed.

Lemma total_co2_weighted_witness :
  exists res,
    optimizeWithHiGHS pinnedSolarSolver [pinnedSolar] twoHours 0 = Returned res /\
    totalCo2 res == 0.
Proof.
  destruct (optimal_status_returns pinnedSolarSolver [pinnedSolar] twoHours 0 eq_refl)
    as [res Hres].
  exists res. split; [exact Hres|].
  rewrite (total_co2_weighted pinnedSolarSolver [pinnedSolar] twoHours 0 res Hres).
  reflexivity.
Defined.

Lemma filter_none {A : Type} (f : A -> bool) (l : list A) :
  (forall x, In x l -> f x = false) -> filter f l = [].
Proof.
  induction l as [|x l IH]; intros H; simpl; [reflexivity|].
  rewrite (H x (or_introl eq_refl)). apply IH. intros y Hy. apply H. now right.
Qed.

Lemma generationOf_single (a : assignment) enabledTechs t i :
  NoDup (map id enabledTechs) -> In t enabledTechs -> is_storage (type t) = false ->
  generationOf a enabledTechs (id t) i == a (g_ (id t) i).
Proof.
  intros Hnd Ht Hs. unfold generationOf.
  induction enabledTechs as [|x l IH]; [destruct Ht|].
  simpl in Hnd. inversion Hnd as [|? ? Hnot Hnd']; subst. cbn [filter].
  destruct Ht as [-> | Ht].
  - rewrite Hs, TechType_eqb_refl. cbn [negb andb map sumQ fold_right].
    assert (Hnil : filter (fun t0 => negb (is_storage (type t0)) && TechType_eqb (id t0) (id t))
                          l = []).
    { apply filter_none. intros y Hy.
      rewrite TechType_eqb_neq; [now rewrite andb_false_r|].
      intros E. apply Hnot. rewrite <- E. now apply in_map. }
    rewrite Hnil. simpl. ring.
  - rewrite (TechType_eqb_neq (id x) (id t)).
    + rewrite andb_false_r. now apply IH.
    + intros E. apply Hnot. rewrite E. now apply in_map.
Qed.

(** X8. The value booked under a key of [mix] (read with the default
    zero) is the weighted energy, over the hours flagged [includeInStats],
    generated by the enabled non-storage technologies of that id, plus the
    storage discharge under the key [BATTERY]; with distinct ids it is, for
    an enabled non-storage technology other than [BATTERY], that
    technology's weighted generation. *)
Theorem mix_weighted solver techs dataChunks minRenewables res :
  optimizeWithHiGHS solver techs dataChunks minRenewables = Returned res ->
  (forall k,
      getOr0 (mix res) k ==
      weightedMix
        (primal (Columns (solver (lp (buildLPModel techs dataChunks minRenewables)))))
        (enabledTechsOf techs) (concat dataChunks) k) /\
  (NoDup (map id (enabledTechsOf techs)) ->
   forall t, In t (enabledTechsOf techs) -> is_storage (type t) = false ->
             id t <> BATTERY ->
             getOr0 (mix res) (id t) ==
             sumQ (map (fun ir : nat * HourlyData =>
                          primal (Columns (solver (lp (buildLPModel techs dataChunks
                                                                    minRenewables))))
                                 (g_ (id t) (fst ir)) * weight (snd ir))
                       (hoursWhere includeInStats (concat dataChunks)))).
Proof.
  intros Hres. apply optimize_returned_loop in Hres.
  destruct Hres as [_ [_ [Hmix _]]].
  assert (Hall : forall k,
             getOr0 (mix res) k ==
             weightedMix
               (primal (Columns (solver (lp (buildLPModel techs dataChunks minRenewables)))))
               (enabledTechsOf techs) (concat dataChunks) k).
  { intro k. rewrite Hmix. unfold extractHours. rewrite extract_mix.
    cbn [accMix]. unfold weightedMix, hoursWhere, getOr0, emptyMap. ring. }
  split; [exact Hall|].
  intros Hnd t Ht Hs Hnb. rewrite Hall. unfold weightedMix.
  apply sumQ_map_ext. intros ir _.
  rewrite (TechType_eqb_neq _ _ Hnb), generationOf_single by assumption. ring.
Qed.

Lemma mix_weighted_witness :
  exists res,
    optimizeWithHiGHS pinnedSolarSolver [pinnedSolar] twoHours 0 = Returned res /\
    getOr0 (mix res) SOLAR == 60000.
Proof.
  destruct (optimal_status_returns pinnedSolarSolver [pinnedSolar] twoHours 0 eq_refl)
    as [res Hres].
  exists res. split; [exact Hres|].
  rewrite (proj1 (mix_weighted pinnedSolarSolver [pinnedSolar] twoHours 0 res Hres) SOLAR).
  reflexivity.
Defined.

(** X9. The reported unserved energy is the weighted sum of the unserved
    variables over the hours flagged [includeInStats]; when the solution is
    feasible every row's shortfall is non-negative, and with non-negative
    weights so is the reported unserved energy. *)
Theorem unserved_energy_weighted solver techs dataChunks minRenewables res :
  optimizeWithHiGHS solver techs dataChunks minRenewables = Returned res ->
  unservedEnergy res ==
  weightedUnserved
    (primal (Columns (solver (lp (buildLPModel techs dataChunks minRenewables)))))
    (concat dataChunks) /\
  (feasible (lp (buildLPModel techs dataChunks minRenewables))
            (primal (Columns (solver (lp (buildLPModel techs dataChunks minRenewables))))) ->
   (forall i r, nth_error (hourly res) i = Some r -> 0 <= shortfall r) /\
   (Forall (fun row => 0 <= weight row) (concat dataChunks) -> 0 <= unservedEnergy res)).
Proof.
  intros Hres. pose proof (optimize_returned_loop _ _ _ _ _ Hres) as [_ [_ [_ Hun]]].
  apply optimize_returned in Hres. destruct Hres as [_ [_ [Hrows _]]].
  set (sol := Columns (solver (lp (buildLPModel techs dataChunks minRenewables)))) in *.
  assert (Hw : unservedEnergy res == weightedUnserved (primal sol) (concat dataChunks)).
  { rewrite Hun. unfold extractHours. rewrite extract_annualUnserved.
    cbn [annualUnserved]. unfold weightedUnserved, hoursWhere. ring. }
  split; [exact Hw|]. intros Hf.
  assert (Hu : forall i h, nth_error (concat dataChunks) i = Some h -> 0 <= primal sol (u_ i)).
  { intros i h Hi. destruct Hf as [_ Hb]. apply Hb.
    now apply declared_unserved with (hourData := h). }
  split.
  - intros i r Hr.
    destruct (Forall2_nth_error_r _ _ _ _ _ Hrows Hr) as [[j row] [Hj [_ [Hshort _]]]].
    apply indexed_nth in Hj. destruct Hj as [Hji Hrow]. simpl in Hji. subst j.
    cbn [fst] in Hshort. rewrite Hshort. exact (Hu i row Hrow).
  - intros Hwt. rewrite Hw. unfold weightedUnserved. apply sumQ_map_nonneg.
    intros [i row] Hin. cbn [fst snd].
    pose proof (hoursWhere_rows _ _ _ Hin) as [Hrow _]. cbn [snd] in Hrow.
    unfold hoursWhere in Hin. apply filter_In in Hin. destruct Hin as [Hin _].
    apply indexed_in0 in Hin.
    rewrite Forall_forall in Hwt.
    apply Qmult_le_0_compat; [exact (Hu i row Hin)|now apply Hwt].
Qed.

Lemma unserved_energy_weighted_witness :
  exists res,
    optimizeWithHiGHS unservedSolver allDisabled sampleChunks 0 = Returned res /\
    unservedEnergy res == 30000 * 13 + 30000 * 13.
Proof.
  destruct (optimal_status_returns unservedSolver allDisabled sampleChunks 0 eq_refl)
    as [res Hres].
  exists res. split; [exact Hres|].
  rewrite (proj1 (unserved_energy_weighted unservedSolver allDisabled sampleChunks 0 res Hres)).
  reflexivity.
Defined.

(** ** Recomputed cost and the objective *)

Lemma fixedCostBody_objective (a : assignment) caps acc t :
  getOr0 caps (id t) == a (capacityVar t) ->
  fixedCostBody caps acc t == acc + evalTerms a (pushedObjective (capacityBody t)).
Proof.
  intros Hc. unfold fixedCostBody, capacityBody, capacityVar in *.
  destruct (is_storage (type t)); cbv zeta; cbn [pushedObjective evalTerms evalTerm];
    rewrite Hc; ring.
Qed.

Lemma fixedCost_objective (a : assignment) caps (l : list TechDefinition) :
  (forall t, In t l -> getOr0 caps (id t) == a (capacityVar t)) ->
  forall acc,
    fold_left (fixedCostBody caps) l acc ==
    acc + evalTerms a (pushedObjective (emitAll (map capacityBody l))).
Proof.
  induction l as [|t l IH]; intros H acc; cbn [fold_left]; [simpl; ring|].
  rewrite IH by (intros y Hy; apply H; now right).
  rewrite (fixedCostBody_objective a) by (apply H; now left).
  cbn [map emitAll fold_right emitApp pushedObjective]. fold (emitAll (map capacityBody l)).
  rewrite evalTerms_app. ring.
Qed.

Lemma generationCost_objective solution i hourData (l : list TechDefinition) :
  (forall t, In t l -> is_storage (type t) = false -> 0 <= getMarginalCost t) ->
  forall acc,
    fold_left (fun acc t =>
                 if is_storage (type t) then acc
                 else acc + primal solution (g_ (id t) i) * getMarginalCost t
                            * weight hourData)
              l acc ==
    acc + evalTerms (primal solution)
                    (pushedObjective (emitAll (map (generationBody hourData i) l))).
Proof.
  induction l as [|t l IH]; intros H acc; cbn [fold_left]; [simpl; ring|].
  rewrite IH by (intros y Hy; apply H; now right).
  cbn [map emitAll fold_right emitApp pushedObjective].
  fold (emitAll (map (generationBody hourData i) l)).
  rewrite evalTerms_app. unfold generationBody.
  destruct (is_storage (type t)) eqn:Es; [simpl; ring|].
  cbn [pushedObjective].
  destruct (Qgtb (getMarginalCost t) 0) eqn:Eg; cbn [evalTerms evalTerm]; [ring|].
  apply Qgtb_false in Eg.
  assert (Hz : getMarginalCost t == 0).
  { apply Qle_antisym; [assumption|]. apply H; [now left|assumption]. }
  rewrite Hz. ring.
Qed.

Lemma variableCostBody_objective solution enabledTechs acc i hourData :
  includeInStats hourData = true ->
  (forall t, In t enabledTechs -> is_storage (type t) = false -> 0 <= getMarginalCost t) ->
  variableCostBody solution enabledTechs acc (i, hourData) ==
  acc + evalTerms (primal solution)
                  (pushedObjective (hourBody enabledTechs (findStorage enabledTechs)
                                             i hourData)).
Proof.
  intros Hst Hmc. unfold variableCostBody. rewrite Hst. cbn [negb]. cbv zeta.
  unfold hourBody. cbn [pushedObjective emitApp]. rewrite !evalTerms_app.
  destruct (findStorage enabledTechs);
    rewrite (generationCost_objective solution i hourData enabledTechs Hmc);
    cbn [pushedObjective storageBody noEmit evalTerms evalTerm];
    unfold VOLL; ring.
Qed.

Lemma variableCost_objective solution enabledTechs (L : list (nat * HourlyData)) :
  (forall ir, In ir L -> includeInStats (snd ir) = true) ->
  (forall t, In t enabledTechs -> is_storage (type t) = false -> 0 <= getMarginalCost t) ->
  forall acc,
    fold_left (variableCostBody solution enabledTechs) L acc ==
    acc + evalTerms (primal solution)
                    (pushedObjective
                       (emitAll (map (fun ir : nat * HourlyData =>
                                        hourBody enabledTechs (findStorage enabledTechs)
                                                 (fst ir) (snd ir)) L))).
Proof.
  intros Hst Hmc. induction L as [|[i h] L IH]; intros acc; cbn [fold_left]; [simpl; ring|].
  rewrite IH by (intros y Hy; apply Hst; now right).
  rewrite variableCostBody_objective;
    [|exact (Hst (i, h) (or_introl eq_refl))|exact Hmc].
  cbn [map emitAll fold_right emitApp pushedObjective fst snd].
  rewrite evalTerms_app. unfold emitAll. ring.
Qed.

Lemma capacities_read solution enabledTechs t :
  NoDup (map id enabledTechs) -> In t enabledTechs ->
  getOr0 (capacitiesOf solution enabledTechs) (id t) = primal solution (capacityVar t).
Proof.
  intros Hnd Ht. unfold getOr0, capacitiesOf.
  rewrite capacities_fold_in by assumption.
  unfold extractCapacity, capacityVar. destruct (is_storage (type t)); reflexivity.
Qed.

(** X10. When every hour is flagged [includeInStats], the enabled
    technologies have distinct ids and no marginal cost is negative, the
    total cost the extraction recomputes equals the value of the program's
    objective at the solver's solution. *)
Theorem total_cost_is_objective solver techs dataChunks minRenewables res :
  optimizeWithHiGHS solver techs dataChunks minRenewables = Returned res ->
  NoDup (map id (enabledTechsOf techs)) ->
  (forall row, In row (concat dataChunks) -> includeInStats row = true) ->
  (forall t, In t (enabledTechsOf techs) -> is_storage (type t) = false ->
             0 <= getMarginalCost t) ->
  totalCost res ==
  objectiveValue (lp (buildLPModel techs dataChunks minRenewables))
                 (primal (Columns (solver (lp (buildLPModel techs dataChunks minRenewables))))).
Proof.
  intros Hres Hnd Hst Hmc. apply optimize_returned in Hres.
  destruct Hres as [_ [Hcaps [_ [_ [_ Hcost]]]]].
  set (sol := Columns (solver (lp (buildLPModel techs dataChunks minRenewables)))) in *.
  rewrite Hcost, Hcaps.
  rewrite (fixedCost_objective (primal sol))
    by (intros t Ht; rewrite capacities_read by assumption; reflexivity).
  rewrite variableCost_objective; [| |exact Hmc].
  - unfold objectiveValue, buildLPModel. cbn [lp objective emitApp pushedObjective].
    rewrite evalTerms_app. ring.
  - intros [i h] Hin. apply indexed_in0 in Hin. apply nth_error_In in Hin.
    now apply Hst.
Qed.

Lemma total_cost_is_objective_witness :
  exists res,
    optimizeWithHiGHS pinnedSolarSolver [pinnedSolar] twoHours 0 = Returned res /\
    totalCost res ==
    objectiveValue (lp (buildLPModel [pinnedSolar] twoHours 0))
                   (primal (Columns (pinnedSolarSolver
                                       (lp (buildLPModel [pinnedSolar] twoHours 0))))).
Proof.
  destruct (optimal_status_returns pinnedSolarSolver [pinnedSolar] twoHours 0 eq_refl)
    as [res Hres].
  exists res. split; [exact Hres|].
  apply (total_cost_is_objective pinnedSolarSolver [pinnedSolar] twoHours 0 res Hres).
  - repeat constructor. simpl. tauto.
  - intros row [<- | [<- | []]]; reflexivity.
  - intros t [<- | []] _. discriminate.
Defined.

(** ** Demand profile *)

Ltac split_conditions :=
  repeat match goal with
         | |- context [if ?b then _ else _] => destruct b
         end.

Lemma generateDemand_range hour time demandProfile :
  24000 <= generateDemand hour time demandProfile /\
  generateDemand hour time demandProfile <= 37950.
Proof.
  unfold generateDemand. cbv zeta.
  split; split_conditions; vm_compute; intro H; discriminate H.
Qed.

(** X11. The flat profile asks for 30000 MW whatever the hour, and every
    generated demand, for every timestamp and profile, lies between 24000
    and 37950 MW. *)
Theorem generate_demand_bounds hour time demandProfile :
  generateDemand hour time "baseload" = 30000 /\
  24000 <= generateDemand hour time demandProfile /\
  generateDemand hour time demandProfile <= 37950.
Proof.
  split; [reflexivity|]. apply generateDemand_range.
Qed.

(** ** Week data *)










(** ** The pipeline from week configuration to program *)

Lemma chunkLoop_sound dataset demandProfile wt stats fuel :
  forall i chunk,
    chunkLoop dataset demandProfile wt stats fuel i = Returned chunk ->
    (length chunk <= fuel)%nat /\
    Forall (fun row => weight row = wt /\ includeInStats row = stats /\
                       24000 <= demand row /\ demand row <= 37950) chunk.
Proof.
  induction fuel as [|fuel IH]; intros i chunk H; cbn [chunkLoop] in H.
  - injection H as <-. split; [apply Nat.le_refl|constructor].
  - destruct (i <? Z.of_nat (length (Dataset.solar dataset)))%Z.
    + destruct (nthZ (Dataset.solar dataset) i) as [s|]; [|discriminate].
      destruct (chunkLoop dataset demandProfile wt stats fuel (i + 1)) as [m|rest] eqn:E;
        [discriminate|].
      injection H as <-. destruct (IH _ _ E) as [Hlen Hall].
      split; [cbn [length]; lia|]. constructor; [|exact Hall].
      cbn [weight includeInStats demand].
      split; [reflexivity|]. split; [reflexivity|]. apply generateDemand_range.
    + injection H as <-. split; [cbn [length]; lia|constructor].
Qed.

Lemma getWeekData_sound DATASETS weekConf demandProfile region chunk :
  getWeekData DATASETS weekConf demandProfile region = Returned chunk ->
  (WeekConf.isExtreme weekConf = false -> (length chunk <= HOURS_IN_WEEK)%nat) /\
  Forall (fun row => weight row = WeekConf.weight weekConf /\
                     includeInStats row = WeekConf.includeInStats weekConf /\
                     24000 <= demand row /\ demand row <= 37950) chunk.
Proof.
  unfold getWeekData. destruct (WeekConf.isExtreme weekConf).
  - intros H. injection H as <-. split; [discriminate|].
    apply Forall_forall. intros row Hrow. apply in_map_iff in Hrow.
    destruct Hrow as [h [<- _]]. cbn [weight includeInStats demand].
    split; [reflexivity|]. split; [reflexivity|]. apply generateDemand_range.
  - destruct (Dataset.solar (datasetOf DATASETS region)) as [|s0 rest].
    + intros H. injection H as <-. split; [intros _; apply Nat.le_0_l|constructor].
    + intros H. apply chunkLoop_sound in H. tauto.
Qed.

Lemma mapWeeks_chunks DATASETS demandProfile region (weeks : list WeekConf.t) :
  forall dataChunks,
    mapWeeks DATASETS demandProfile region weeks = Returned dataChunks ->
    Forall2 (fun w chunk => getWeekData DATASETS w demandProfile region = Returned chunk)
            weeks dataChunks.
Proof.
  induction weeks as [|w rest IH]; intros dataChunks H; cbn [mapWeeks] in H.
  - injection H as <-. constructor.
  - destruct (getWeekData DATASETS w demandProfile region) as [m|chunk] eqn:Ew;
      [discriminate|].
    destruct (mapWeeks DATASETS demandProfile region rest) as [m|chunks] eqn:Er;
      [discriminate|].
    injection H as <-. constructor; [exact Ew|now apply IH].
Qed.

(** X15. When the weeks of a request are gathered without a throw, there
    is one chunk per configured week, in order; an ordinary week's chunk
    has at most 168 rows; and every row carries its own week's weight and
    statistics flag and a demand between 24000 and 37950 MW. *)
Theorem gathered_weeks_sound DATASETS demandProfile region weeks dataChunks :
  mapWeeks DATASETS demandProfile region weeks = Returned dataChunks ->
  length dataChunks = length weeks /\
  forall n w chunk,
    nth_error weeks n = Some w ->
    nth_error dataChunks n = Some chunk ->
    getWeekData DATASETS w demandProfile region = Returned chunk /\
    (WeekConf.isExtreme w = false -> (length chunk <= HOURS_IN_WEEK)%nat) /\
    forall row, In row chunk ->
                weight row = WeekConf.weight w /\
                includeInStats row = WeekConf.includeInStats w /\
                24000 <= demand row /\ demand row <= 37950.
Proof.
  intros H. apply mapWeeks_chunks in H. split.
  - symmetry. exact (Forall2_length H).
  - intros n w chunk Hw Hc.
    destruct (Forall2_nth_error_r _ _ _ _ _ H Hc) as [w' [Hw' Hget]].
    rewrite Hw in Hw'. injection Hw' as <-.
    destruct (getWeekData_sound _ _ _ _ _ Hget) as [Hlen Hall].
    split; [exact Hget|]. split; [exact Hlen|].
    rewrite Forall_forall in Hall. exact Hall.
Qed.

Lemma gathered_weeks_sound_witness :
  exists dataChunks,
    mapWeeks sampleDatasets "spain" "es"
             [WeekConf.mk 10 13 false true; WeekConf.mk (-1) 1 true false]
    = Returned dataChunks /\
    length dataChunks = 2%nat.
Proof.
  refine (ex_intro _ ?[chunks] _).
  assert (E : mapWeeks sampleDatasets "spain" "es"
                       [WeekConf.mk 10 13 false true; WeekConf.mk (-1) 1 true false]
              = Returned ?chunks) by (vm_compute; reflexivity).
  split; [exact E|].
  exact (proj1 (gathered_weeks_sound _ _ _ _ _ E)).
Defined.

(** ** Responses of the handler *)

(** X16. A request without [techs] is answered 400 "Missing techs",
    whatever else it carries and whether or not the solver is ready; a
    request with [techs] that arrives before the solver is initialised is
    answered 503 "Solver not ready". *)
Theorem post_optimize_rejections WEEK_CONFIGS DATASETS highsSolver req :
  (Request.techs req = None ->
   postOptimize WEEK_CONFIGS DATASETS highsSolver req =
   mkResponse 400 (ErrorJson "Missing techs")) /\
  (Request.techs req <> None -> highsSolver = None ->
   postOptimize WEEK_CONFIGS DATASETS highsSolver req =
   mkResponse 503 (ErrorJson "Solver not ready")).
Proof.
  unfold postOptimize. split.
  - intros ->. reflexivity.
  - intros Ht ->. destruct (Request.techs req); [reflexivity|congruence].
Qed.

Lemma post_optimize_rejections_witness :
  postOptimize (fun _ => None) sampleDatasets None (Request.mk None None None (Some 50)) =
  mkResponse 400 (ErrorJson "Missing techs") /\
  postOptimize (fun _ => None) sampleDatasets None
               (Request.mk (Some sampleTechs) None None None) =
  mkResponse 503 (ErrorJson "Solver not ready").
Proof.
  split.
  - refine (proj1 (post_optimize_rejections _ _ _ _) _). reflexivity.
  - refine (proj2 (post_optimize_rejections _ _ _ _) _ _); [discriminate|reflexivity].
Defined.



(** ** Worst-week search *)










(** ** Week windows on the client *)

Lemma jsSlice_window {A : Type} (l : list A) (start : Z) (n k : nat) :
  (0 <= start)%Z ->
  nth_error (jsSlice l start (start + Z.of_nat n)) k =
  if (k <? n)%nat then nth_error l (Z.to_nat start + k) else None.
Proof.
  intros Hs. unfold jsSlice.
  destruct (Z.ltb_spec start 0) as [?|_]; [lia|].
  destruct (Z.ltb_spec (start + Z.of_nat n) 0) as [?|_]; [lia|].
  rewrite nth_error_firstn, nth_error_skipn.
  destruct (Nat.ltb_spec k n) as [Hk|Hk].
  - destruct (Nat.ltb_spec k
                (Z.to_nat (Z.min (start + Z.of_nat n) (Z.of_nat (length l))
                           - Z.min start (Z.of_nat (length l))))) as [Hin|Hout].
    + f_equal. lia.
    + symmetry. apply nth_error_None. lia.
  - destruct (Nat.ltb_spec k
                (Z.to_nat (Z.min (start + Z.of_nat n) (Z.of_nat (length l))
                           - Z.min start (Z.of_nat (length l))))) as [Hin|Hout];
      [lia|reflexivity].
Qed.

Lemma jsSlice_length {A : Type} (l : list A) (start : Z) (n : nat) :
  (length (jsSlice l start (start + Z.of_nat n)) <= n)%nat.
Proof.
  unfold jsSlice. rewrite length_firstn.
  destruct (start <? 0)%Z eqn:Es; destruct (start + Z.of_nat n <? 0)%Z eqn:Ee; lia.
Qed.

Lemma firstn_skipn_In {A : Type} (l : list A) (n k : nat) (x : A) :
  In x (firstn n (skipn k l)) -> In x l.
Proof.
  intros H. rewrite <- (firstn_skipn k l). apply in_or_app. right.
  rewrite <- (firstn_skipn n (skipn k l)). apply in_or_app. now left.
Qed.

Lemma jsSlice_In {A : Type} (l : list A) (start end_ : Z) (x : A) :
  In x (jsSlice l start end_) -> In x l.
Proof. unfold jsSlice. apply firstn_skipn_In. Qed.

(** X20. The client's [getWeekData] returns at most 168 rows.  From a
    start hour that is not negative they are the rows of the year from
    that hour on, in order, cut at the end of the data; a negative start
    hour down to -168 on data of at least 168 rows returns no row at
    all. *)
Theorem client_week_window (fullData : list HourlyData) (startHour : Z) :
  (length (DataLoader.getWeekData fullData startHour) <= 168)%nat /\
  ((0 <= startHour)%Z ->
   forall k, nth_error (DataLoader.getWeekData fullData startHour) k =
             if (k <? 168)%nat then nth_error fullData (Z.to_nat startHour + k) else None) /\
  ((-168 <= startHour < 0)%Z -> (168 <= length fullData)%nat ->
   DataLoader.getWeekData fullData startHour = []).
Proof.
  unfold DataLoader.getWeekData. change 168%Z with (Z.of_nat 168).
  split; [apply jsSlice_length|]. split.
  - intros Hs k. now apply jsSlice_window.
  - intros Hs Hlen. unfold jsSlice.
    destruct (Z.ltb_spec startHour 0) as [_|?]; [|lia].
    destruct (Z.ltb_spec (startHour + Z.of_nat 168) 0) as [?|_]; [lia|].
    replace (Z.to_nat _) with 0%nat by lia. reflexivity.
Qed.

Lemma client_week_window_witness :
  DataLoader.getWeekData (flatWeek 0 1 true) (-1) = [] /\
  nth_error (DataLoader.getWeekData (flatWeek 0 1 true) 100) 67
  = nth_error (flatWeek 0 1 true) 167.
Proof.
  destruct (client_week_window (flatWeek 0 1 true) (-1)) as [_ [_ Hneg]].
  destruct (client_week_window (flatWeek 0 1 true) 100) as [_ [Hpos _]].
  split.
  - apply Hneg; [lia|]. vm_compute. lia.
  - rewrite (Hpos ltac:(lia) 67%nat). reflexivity.
Defined.

(** ** The weekly dispatch chart *)




Lemma findIndex_first {A : Type} (p : A -> bool) (l : list A) :
  match findIndex p l with
  | Some j => exists x, nth_error l j = Some x /\ p x = true /\
                        forall i y, (i < j)%nat -> nth_error l i = Some y -> p y = false
  | None => forall x, In x l -> p x = false
  end.
Proof.
  induction l as [|x l IH]; cbn [findIndex].
  - intros x [].
  - destruct (p x) eqn:Ep.
    + exists x. split; [reflexivity|]. split; [assumption|]. intros i y Hi. lia.
    + destruct (findIndex p l) as [j|]; cbn [option_map].
      * destruct IH as [y [Hy [Hp Hbefore]]]. exists y.
        split; [exact Hy|]. split; [exact Hp|].
        intros [|i] z Hi Hz; cbn [nth_error] in Hz.
        -- now injection Hz as <-.
        -- apply (Hbefore i z); [lia|assumption].
      * intros y [<-|Hy]; [assumption|now apply IH].
Qed.



Lemma returned_row solver techs dataChunks minRenewables res i r :
  optimizeWithHiGHS solver techs dataChunks minRenewables = Returned res ->
  nth_error (hourly res) i = Some r ->
  exists row,
    nth_error (concat dataChunks) i = Some row /\
    rowMatches (Columns (solver (lp (buildLPModel techs dataChunks minRenewables))))
               (enabledTechsOf techs) (capacities res) (i, row) r /\
    rowDetails (Columns (solver (lp (buildLPModel techs dataChunks minRenewables))))
               (enabledTechsOf techs) (i, row) r.
Proof.
  intros Hres Hr. pose proof (optimize_returned_loop _ _ _ _ _ Hres) as [Hh _].
  apply optimize_returned in Hres. destruct Hres as [_ [_ [Hrows _]]].
  set (sol := Columns (solver (lp (buildLPModel techs dataChunks minRenewables)))) in *.
  destruct (Forall2_nth_error_r _ _ _ _ _ Hrows Hr) as [[j row] [Hj Hm]].
  destruct (extract_details sol (enabledTechsOf techs) (capacities res)
              (indexed 0 (concat dataChunks)) (mkHourLoop [] emptyMap 0 0 0))
    as [ext [He Hdet]].
  unfold extractHours in Hh. rewrite He in Hh. cbn [hourlyResults app] in Hh.
  rewrite Hh in Hr.
  destruct (Forall2_nth_error_r _ _ _ _ _ Hdet Hr) as [[j' row'] [Hj' Hd]].
  rewrite Hj in Hj'. injection Hj' as <- <-.
  apply indexed_nth in Hj. destruct Hj as [Hji Hrow]. simpl in Hji. subst j.
  exists row. auto.
Qed.

(** The ids a technology can have. *)
Lemma generation_by_id (a : assignment) (enabledTechs : list TechDefinition) (i : nat) :
  generationAt a enabledTechs i ==
  generationOf a enabledTechs SOLAR i + generationOf a enabledTechs WIND i
  + generationOf a enabledTechs WIND_OFFSHORE i + generationOf a enabledTechs BATTERY i
  + generationOf a enabledTechs NUCLEAR i + generationOf a enabledTechs COAL i
  + generationOf a enabledTechs GAS_CCGT i + generationOf a enabledTechs GAS_OCGT i
  + generationOf a enabledTechs HYDROGEN i + generationOf a enabledTechs DIESEL i.
Proof.
  unfold generationAt, generationOf, sumQ.
  induction enabledTechs as [|t l IH]; cbn [filter]; [reflexivity|].
  destruct (is_storage (type t)); cbn [negb andb]; [exact IH|].
  cbn [map fold_right]. rewrite IH.
  destruct (id t) eqn:Eid; simpl; rewrite ?Eid; ring.
Qed.

Lemma generationOf_absent (a : assignment) enabledTechs k i :
  hasGenerator enabledTechs k = false -> generationOf a enabledTechs k i == 0.
Proof.
  intros H. unfold generationOf. rewrite filter_none; [reflexivity|].
  intros t Ht. unfold hasGenerator in H.
  destruct (negb (is_storage (type t)) && TechType_eqb (id t) k) eqn:E; [|reflexivity].
  assert (existsb (fun t => negb (is_storage (type t)) && TechType_eqb (id t) k)
                  enabledTechs = true) by (apply existsb_exists; eauto).
  congruence.
Qed.

Lemma generationOf_present (a : assignment) enabledTechs k i :
  NoDup (map id enabledTechs) -> hasGenerator enabledTechs k = true ->
  generationOf a enabledTechs k i == a (g_ k i).
Proof.
  intros Hnd H. unfold hasGenerator in H. apply existsb_exists in H.
  destruct H as [t [Ht Hp]]. apply andb_true_iff in Hp. destruct Hp as [Hs Hk].
  unfold TechType_eqb in Hk. destruct (TechType_eq_dec (id t) k) as [<-|]; [|discriminate].
  apply generationOf_single; try assumption. now apply negb_true_iff.
Qed.

Lemma chart_field (solution : var -> option Q) enabledTechs i (r : HourlyResult) row k :
  NoDup (map id enabledTechs) ->
  rowDetails solution enabledTechs (i, row) r ->
  k <> BATTERY ->
  getOr0 (genFields r) k == generationOf (primal solution) enabledTechs k i.
Proof.
  intros Hnd [Hg _] Hk. unfold getOr0. rewrite Hg. cbn [fst].
  rewrite (TechType_eqb_neq _ _ Hk). cbn [negb]. rewrite andb_true_r.
  destruct (hasGenerator enabledTechs k) eqn:Eh.
  - now rewrite generationOf_present.
  - now rewrite generationOf_absent.
Qed.

(** X22. In the dispatch chart of a returned result whose solution
    satisfies the program, the areas stacked below the curtailment area
    (generation by technology, battery discharge and shortfall) together
    with the negative battery-charge area add up to the demand line at
    every point, provided the enabled technologies have distinct ids and
    only storage carries the id [BATTERY]. *)
Theorem chart_stack_meets_demand solver techs dataChunks minRenewables res
    (currentChunkIndex : nat) (p : DispatchPoint.t) :
  optimizeWithHiGHS solver techs dataChunks minRenewables = Returned res ->
  feasible (lp (buildLPModel techs dataChunks minRenewables))
           (primal (Columns (solver (lp (buildLPModel techs dataChunks minRenewables))))) ->
  NoDup (map id (enabledTechsOf techs)) ->
  (forall t, In t (enabledTechsOf techs) -> id t = BATTERY -> is_storage (type t) = true) ->
  In p (dispatchData res currentChunkIndex) ->
  stackedSupply p + DispatchPoint.BatteryCharge p == DispatchPoint.demand p.
Proof.
  intros Hres [Hrows _] Hnd Hbatt Hp.
  unfold dispatchData in Hp. apply in_map_iff in Hp. destruct Hp as [[j h] [<- Hin]].
  assert (Hh : In h (hourly res)).
  { apply (jsSlice_In (hourly res) (Z.of_nat currentChunkIndex * 168)
                      (Z.of_nat currentChunkIndex * 168 + 168)).
    apply In_nth_error in Hin. destruct Hin as [n Hn].
    destruct (indexed_nth _ _ _ _ _ Hn) as [_ Hn']. eapply nth_error_In. exact Hn'. }
  apply In_nth_error in Hh. destruct Hh as [i Hi].
  destruct (returned_row _ _ _ _ _ _ _ Hres Hi) as [row [Hrow [[Hdata [Hshort _]] Hdet]]].
  set (sol := Columns (solver (lp (buildLPModel techs dataChunks minRenewables)))) in *.
  destruct (hour_balance techs dataChunks minRenewables i row Hrow)
    as [c [Hc [_ [Hrel [Hrhs Hlhs]]]]].
  specialize (Hrows c Hc). unfold satisfies in Hrows. rewrite Hrel, Hrhs, Hlhs in Hrows.
  cbn [fst snd] in Hdata, Hshort.
  unfold stackedSupply, dispatchPoint.
  cbn [DispatchPoint.Solar DispatchPoint.Wind DispatchPoint.OffshoreWind DispatchPoint.Nuclear
       DispatchPoint.BatteryDischarge DispatchPoint.GasCCGT DispatchPoint.Coal
       DispatchPoint.GasOCGT DispatchPoint.Diesel DispatchPoint.Hydrogen
       DispatchPoint.Shortfall DispatchPoint.BatteryCharge DispatchPoint.demand].
  rewrite !(chart_field sol (enabledTechsOf techs) i h row) by (assumption || discriminate).
  rewrite !orDefault_zero, Hdata, Hshort, <- Hrows, generation_by_id.
  assert (Hb : generationOf (primal sol) (enabledTechsOf techs) BATTERY i == 0).
  { apply generationOf_absent. unfold hasGenerator.
    destruct (existsb _ _) eqn:E; [|reflexivity].
    apply existsb_exists in E. destruct E as [t [Ht Hpt]].
    apply andb_true_iff in Hpt. destruct Hpt as [Hs Hk].
    unfold TechType_eqb in Hk. destruct (TechType_eq_dec (id t) BATTERY) as [Hid|];
      [|discriminate].
    rewrite (Hbatt t Ht Hid) in Hs. discriminate. }
  rewrite Hb. destruct Hdet as [_ [Hch [Hdis _]]]. rewrite Hch, Hdis.
  unfold dischargeAt, chargeAt. cbn [fst].
  destruct (findStorage (enabledTechsOf techs)); ring.
Qed.

Lemma chart_stack_meets_demand_witness :
  exists res,
    optimizeWithHiGHS pinnedSolarSolver [pinnedSolar] twoWeeks 0 = Returned res /\
    Forall (fun p => stackedSupply p + DispatchPoint.BatteryCharge p
                     == DispatchPoint.demand p)
           (dispatchData res 1).
Proof.
  destruct (optimal_status_returns pinnedSolarSolver [pinnedSolar] twoWeeks 0 eq_refl)
    as [res Hres].
  exists res. split; [exact Hres|]. apply Forall_forall. intros p Hp.
  apply (chart_stack_meets_demand pinnedSolarSolver [pinnedSolar] twoWeeks 0 res 1 p Hres).
  - apply feasibleb_sound. vm_compute. reflexivity.
  - repeat constructor. simpl. tauto.
  - intros t [<-|[]]. discriminate.
  - exact Hp.
Defined.


(** ** The minimum-renewables slider *)

Lemma absLess_true a b : absLess a b = true -> Qabs a < Qabs b.
Proof. unfold absLess. apply Qgtb_true. Qed.

Lemma absLess_false a b : absLess a b = false -> Qabs b <= Qabs a.
Proof. unfold absLess. apply Qgtb_false. Qed.

Lemma Qabs_zero (q : Q) : Qabs q == 0 -> q == 0.
Proof.
  intros H. pose proof (Qle_Qabs q) as H1. pose proof (Qle_Qabs (- q)) as H2.
  rewrite Qabs_opp in H2. lra.
Qed.

Lemma nearestFrom_spec (steps : list Q) (x : Q) :
  forall (suffix : list Q) (n prev : nat),
    (n + length suffix = length steps)%nat ->
    (forall k, (k < length suffix)%nat -> nth k suffix 0 = nth (n + k) steps 0) ->
    (prev < n \/ (prev = 0 /\ n = 0))%nat ->
    nearestSoFar steps x n prev ->
    nearestSoFar steps x (length steps) (nearestFrom steps x (indexed n suffix) prev).
Proof.
  unfold nearestFrom.
  induction suffix as [|curr suffix IH]; intros n prev Hlen Hnth Hprev Hinv.
  - cbn [indexed fold_left]. cbn [length] in Hlen.
    now replace (length steps) with n by lia.
  - cbn [indexed fold_left]. cbn [length] in Hlen.
    assert (Hcurr : curr = nth n steps 0).
    { specialize (Hnth 0%nat ltac:(cbn [length]; lia)). cbn [nth] in Hnth.
      now rewrite Nat.add_0_r in Hnth. }
    assert (Hrest : forall k, (k < length suffix)%nat ->
                              nth k suffix 0 = nth (S n + k) steps 0).
    { intros k Hk. specialize (Hnth (S k) ltac:(cbn [length]; lia)). cbn [nth] in Hnth.
      rewrite Hnth. f_equal. lia. }
    destruct Hinv as [Hp Hall].
    destruct (absLess (curr - x) (nth prev steps 0 - x)) eqn:E.
    + apply absLess_true in E. rewrite Hcurr in E.
      apply (IH (S n) n); [lia|exact Hrest|lia|].
      split; [lia|]. intros j Hj.
      destruct (Nat.eq_dec j n) as [->|Hne].
      * split; [apply Qle_refl|lia].
      * destruct (Hall j ltac:(lia)) as [Hle _].
        split; [|intros _]; lra.
    + apply absLess_false in E. rewrite Hcurr in E.
      apply (IH (S n) prev); [lia|exact Hrest|lia|].
      split; [exact Hp|]. intros j Hj.
      destruct (Nat.eq_dec j n) as [->|Hne].
      * split; [exact E|lia].
      * apply Hall. lia.
Qed.

(** X23. On a non-empty list of steps the slider position computed for a
    value is a valid index, its step is as near to the value as any step
    is, and every step before it is strictly farther away; so the position
    computed for a step of a list without repetition is that step's own
    position. *)
Theorem slider_position_nearest (stepList : list Q) (minRenewables : Q) :
  stepList <> [] ->
  (currentIndexIn stepList minRenewables < length stepList)%nat /\
  (forall j, (j < length stepList)%nat ->
             Qabs (nth (currentIndexIn stepList minRenewables) stepList 0 - minRenewables)
             <= Qabs (nth j stepList 0 - minRenewables) /\
             ((j < currentIndexIn stepList minRenewables)%nat ->
              Qabs (nth (currentIndexIn stepList minRenewables) stepList 0 - minRenewables)
              < Qabs (nth j stepList 0 - minRenewables))) /\
  (forall k, (k < length stepList)%nat ->
             (forall j, (j < k)%nat -> ~ nth j stepList 0 == nth k stepList 0) ->
             minRenewables == nth k stepList 0 ->
             currentIndexIn stepList minRenewables = k).
Proof.
  intros Hne.
  assert (Hspec : nearestSoFar stepList minRenewables (length stepList)
                               (currentIndexIn stepList minRenewables)).
  { unfold currentIndexIn.
    pose proof (findIndex_first (fun s => Qeq_bool s minRenewables) stepList) as Hf.
    destruct (findIndex _ stepList) as [idx|].
    - destruct Hf as [s [Hs [Heq Hbefore]]].
      assert (Hidx : (idx < length stepList)%nat) by (apply nth_error_Some; congruence).
      apply Qeq_bool_iff in Heq.
      assert (Hzero : Qabs (nth idx stepList 0 - minRenewables) == 0).
      { rewrite (nth_error_nth _ _ 0 Hs), Heq.
        setoid_replace (minRenewables - minRenewables) with 0 by ring. reflexivity. }
      split; [exact Hidx|]. intros j Hj. rewrite Hzero. split; [apply Qabs_nonneg|].
      intros Hlt.
      destruct (nth_error stepList j) as [y|] eqn:Hy;
        [|apply nth_error_None in Hy; lia].
      specialize (Hbefore j y Hlt Hy). cbn beta in Hbefore.
      rewrite (nth_error_nth _ _ 0 Hy).
      destruct (Qlt_le_dec 0 (Qabs (y - minRenewables))) as [Hpos|Hnp]; [exact Hpos|].
      exfalso.
      assert (Hy0 : Qabs (y - minRenewables) == 0)
        by (apply Qle_antisym; [exact Hnp|apply Qabs_nonneg]).
      assert (H : y == minRenewables) by (apply Qabs_zero in Hy0; lra).
      apply Qeq_bool_iff in H. congruence.
    - apply (nearestFrom_spec stepList minRenewables stepList 0 0); try reflexivity.
      + right. split; reflexivity.
      + split; [destruct stepList; [congruence|cbn [length]; lia]|]. intros j Hj. lia. }
  destruct Hspec as [Hidx Hall]. split; [exact Hidx|]. split; [exact Hall|].
  intros k Hk Hdistinct Hx.
  set (idx := currentIndexIn stepList minRenewables) in *.
  assert (Hzero : Qabs (nth k stepList 0 - minRenewables) == 0).
  { rewrite Hx. setoid_replace (nth k stepList 0 - nth k stepList 0) with 0 by ring.
    reflexivity. }
  assert (Hnear : Qabs (nth idx stepList 0 - minRenewables) == 0).
  { destruct (Hall k Hk) as [Hle _].
    pose proof (Qabs_nonneg (nth idx stepList 0 - minRenewables)). lra. }
  assert (Hsame : nth idx stepList 0 == nth k stepList 0).
  { apply Qabs_zero in Hnear. lra. }
  destruct (Nat.lt_trichotomy idx k) as [Hlt|[Heq|Hgt]]; [|exact Heq|].
  - exfalso. exact (Hdistinct idx Hlt Hsame).
  - exfalso. destruct (Hall k Hk) as [_ Hstrict]. specialize (Hstrict Hgt).
    lra.
Qed.

Lemma slider_position_nearest_witness :
  (currentIndex 42 < 15)%nat /\
  Forall (fun k => currentIndex (nth k steps 0) = k) (seq 0 15).
Proof.
  assert (Hne : steps <> []) by discriminate.
  split.
  - exact (proj1 (slider_position_nearest steps 42 Hne)).
  - apply Forall_forall. intros k Hk. apply in_seq in Hk.
    apply (proj2 (proj2 (slider_position_nearest steps (nth k steps 0) Hne)) k).
    + cbn [steps length]. lia.
    + intros j Hj. do 15 (destruct k as [|k]; [do 15 (destruct j as [|j]; [vm_compute; discriminate || lia|]); lia|]).
      lia.
    + reflexivity.
Defined.

(** ** Cost trajectories *)

Lemma orDefault_nonzero (x : option Q) (d : Q) : ~ d == 0 -> ~ orDefault x d == 0.
Proof.
  intros Hd. unfold orDefault. destruct x as [v|]; [|exact Hd].
  destruct (Qeq_bool v 0) eqn:E; [exact Hd|].
  intros H. apply Qeq_bool_iff in H. congruence.
Qed.

Lemma fixedCostBody_basis (caps : techMap) (acc : Q) (t : TechDefinition) :
  is_storage (type t) = true ->
  fixedCostBody caps acc t =
  acc + ((if (0 <? lifetime t)%Z then
            if Qeq_bool (wacc t / 100) 0 then storageCostBasis t / inject_Z (lifetime t)
            else storageCostBasis t
                 * ((wacc t / 100 * (1 + wacc t / 100) ^ lifetime t)
                    / ((1 + wacc t / 100) ^ lifetime t - 1))
          else 0)
         + opexFixed t / orDefault (duration t) 4) * 1000 * getOr0 caps (id t).
Proof. intros Hs. unfold fixedCostBody. rewrite Hs. reflexivity. Qed.

(** X24. Applying a projection leaves every technology other than solar,
    onshore wind and the battery as it was, keeps the battery's duration,
    and sets the battery's capex to the projected cost per kWh times the
    duration (4 when none is set or it is 0); the cost per kWh the server
    then prices the battery at is the projected one, whether or not it is
    zero. *)
Theorem projection_sets_storage_cost (projection : Projection.t) (prev : Techs) :
  (forall k, k <> SOLAR -> k <> WIND -> k <> BATTERY ->
             applyProjection projection prev k = prev k) /\
  duration (applyProjection projection prev BATTERY) = duration (prev BATTERY) /\
  capex (applyProjection projection prev BATTERY)
  = StorageCost.capexPerKwh (Projection.battery projection)
    * orDefault (duration (prev BATTERY)) 4 /\
  storageCostBasis (applyProjection projection prev BATTERY)
  == StorageCost.capexPerKwh (Projection.battery projection) /\
  capex (applyProjection projection prev SOLAR)
  = GenerationCost.capex (Projection.solar projection) /\
  capex (applyProjection projection prev WIND)
  = GenerationCost.capex (Projection.wind projection).
Proof.
  split.
  { intros k Hs Hw Hb. unfold applyProjection, setTech. cbv zeta.
    now rewrite !TechType_eqb_neq by assumption. }
  split; [reflexivity|]. split; [reflexivity|]. split; [|split; reflexivity].
  unfold storageCostBasis, applyProjection, setTech. cbv zeta.
  cbn [TechType_eqb capexPerKwh capex duration]. rewrite TechType_eqb_refl.
  cbn [capexPerKwh capex duration orDefault].
  set (p := StorageCost.capexPerKwh (Projection.battery projection)).
  fold (orDefault (duration (prev BATTERY)) 4).
  pose proof (orDefault_nonzero (duration (prev BATTERY)) 4 ltac:(lra)) as Hd.
  destruct (Qeq_bool p 0) eqn:E; [|reflexivity].
  apply Qeq_bool_iff in E. rewrite E. field. exact Hd.
Qed.

Lemma untoggled_keeps_manual (evs : list Event) :
  forall st manual,
    forallb (fun ev => negb (isToggle ev)) evs = true ->
    manualTechs st = Some manual ->
    manualTechs (fold_left step evs st) = Some manual.
Proof.
  induction evs as [|ev evs IH]; intros st manual Hev Hm; cbn [fold_left]; [exact Hm|].
  cbn [forallb] in Hev. apply andb_true_iff in Hev. destruct Hev as [Hnt Hrest].
  apply IH; [exact Hrest|].
  unfold step. cbv zeta.
  assert (Hh : manualTechs (handle ev st) = Some manual)
    by (destruct ev; [discriminate| |]; exact Hm).
  destruct (Bool.eqb _ _ && _); [exact Hh|].
  unfold bnefEffect. destruct (negb (followBnef _)); [exact Hh|].
  destruct (BNEF_PROJECTIONS _); exact Hh.
Qed.

(** X25. Switching the cost trajectory on and later off restores the
    technologies exactly as they were when it was switched on, whatever
    years were selected and whatever fields were edited in between, and
    leaves no saved copy behind. *)
Theorem trajectory_toggle_restores (st : AppState) (evs : list Event) :
  forallb (fun ev => negb (isToggle ev)) evs = true ->
  techs (step (fold_left step evs (step st (ToggleBnef true))) (ToggleBnef false))
  = techs st /\
  manualTechs (step (fold_left step evs (step st (ToggleBnef true))) (ToggleBnef false))
  = None /\
  followBnef (step (fold_left step evs (step st (ToggleBnef true))) (ToggleBnef false))
  = false.
Proof.
  intros Hev.
  assert (Hon : manualTechs (step st (ToggleBnef true)) = Some (techs st)).
  { unfold step. cbv zeta. cbn [handle handleToggleBnef followBnef bnefYear].
    destruct (Bool.eqb _ _ && _); [reflexivity|].
    unfold bnefEffect. cbn [followBnef negb bnefYear].
    destruct (BNEF_PROJECTIONS _); reflexivity. }
  pose proof (untoggled_keeps_manual evs _ _ Hev Hon) as Hm.
  set (st2 := fold_left step evs (step st (ToggleBnef true))) in *.
  unfold step. cbv zeta. cbn [handle]. unfold handleToggleBnef. rewrite Hm.
  cbn [followBnef bnefYear].
  destruct (Bool.eqb false (followBnef st2) && _);
    [|unfold bnefEffect; cbn [followBnef negb]]; auto.
Qed.

Lemma trajectory_toggle_restores_witness :
  capex (techs (fold_left step [SetBnefYear 2040; TechChange SOLAR (capexIs 1)]
                          (step (mkApp DEFAULT_TECHS None false 2025) (ToggleBnef true)))
               WIND) = 900 /\
  techs (step (fold_left step [SetBnefYear 2040; TechChange SOLAR (capexIs 1)]
                         (step (mkApp DEFAULT_TECHS None false 2025) (ToggleBnef true)))
              (ToggleBnef false))
  = DEFAULT_TECHS.
Proof.
  split; [reflexivity|].
  exact (proj1 (trajectory_toggle_restores (mkApp DEFAULT_TECHS None false 2025)
                  [SetBnefYear 2040; TechChange SOLAR (capexIs 1)] eq_refl)).
Defined.

(** ** Cost charts *)

Lemma fixedCost_chart (res : SimulationResult) (l : list TechDefinition) :
  forall acc,
    fold_left (fixedCostBody (capacities res)) l acc == acc + sumQ (map (annualFixed res) l).
Proof.
  unfold sumQ.
  induction l as [|t l IH]; intros acc; cbn [fold_left map fold_right]; [ring|].
  rewrite IH.
  assert (Ht : fixedCostBody (capacities res) acc t == acc + annualFixed res t).
  { unfold fixedCostBody, annualFixed, getStorageAnnualFixedCost, getAnnualFixedCostStrp,
      getAnnualFixedCost. cbv zeta. destruct (is_storage (type t)); reflexivity. }
  rewrite Ht. ring.
Qed.

Lemma generationCost_sum solution i (w : Q) (l : list TechDefinition) :
  forall acc,
    fold_left (fun acc t =>
                 if is_storage (type t) then acc
                 else acc + primal solution (g_ (id t) i) * getMarginalCost t * w)
              l acc ==
    acc + sumQ (map (fun t => primal solution (g_ (id t) i) * getMarginalCost t * w)
                    (filter (fun t => negb (is_storage (type t))) l)).
Proof.
  unfold sumQ.
  induction l as [|t l IH]; intros acc; cbn [fold_left filter]; [simpl; ring|].
  rewrite IH. destruct (is_storage (type t)); cbn [negb map fold_right]; ring.
Qed.

Lemma variableCost_sum solution enabledTechs (L : list (nat * HourlyData)) :
  forall acc,
    fold_left (variableCostBody solution enabledTechs) L acc ==
    acc
    + sumQ (map (fun ir : nat * HourlyData =>
                   sumQ (map (fun t => primal solution (g_ (id t) (fst ir))
                                       * getMarginalCost t * weight (snd ir))
                             (filter (fun t => negb (is_storage (type t))) enabledTechs))
                   + chargeAt (primal solution) enabledTechs (fst ir) * 0.1 * weight (snd ir)
                   + primal solution (u_ (fst ir)) * 20000000 * weight (snd ir))
                (filter (fun ir => includeInStats (snd ir)) L)).
Proof.
  induction L as [|[i row] L IH]; intros acc; cbn [fold_left filter snd]; [simpl; ring|].
  rewrite IH. unfold variableCostBody. cbv zeta.
  destruct (includeInStats row); cbn [negb map fst snd]; [|ring].
  unfold chargeAt.
  destruct (findStorage enabledTechs); rewrite generationCost_sum; unfold sumQ;
    cbn [fold_right]; ring.
Qed.

Lemma sumQ_swap {A B : Type} (f : A -> B -> Q) (l1 : list A) (l2 : list B) :
  sumQ (map (fun x => sumQ (map (f x) l2)) l1)
  == sumQ (map (fun y => sumQ (map (fun x => f x y) l1)) l2).
Proof.
  induction l1 as [|x l1 IH].
  - induction l2 as [|y l2 IH2]; [reflexivity|].
    change (0 == 0 + sumQ (map (fun y => sumQ (map (fun x => f x y) [])) l2)).
    rewrite <- IH2. reflexivity.
  - change (sumQ (map (f x) l2) + sumQ (map (fun x => sumQ (map (f x) l2)) l1)
            == sumQ (map (fun y => f x y + sumQ (map (fun x => f x y) l1)) l2)).
    rewrite IH, sumQ_map_plus. reflexivity.
Qed.

Lemma sumQ_scale {A : Type} (f : A -> Q) (c : Q) (l : list A) :
  sumQ (map (fun x => f x * c) l) == sumQ (map f l) * c.
Proof. induction l as [|x l IH]; simpl; [ring|rewrite IH; ring]. Qed.

Lemma mix_of_generator solver techs dataChunks minRenewables res t :
  optimizeWithHiGHS solver techs dataChunks minRenewables = Returned res ->
  NoDup (map id (enabledTechsOf techs)) ->
  In t (enabledTechsOf techs) -> is_storage (type t) = false -> id t <> BATTERY ->
  getOr0 (mix res) (id t) ==
  sumQ (map (fun ir : nat * HourlyData =>
               primal (Columns (solver (lp (buildLPModel techs dataChunks minRenewables))))
                      (g_ (id t) (fst ir)) * weight (snd ir))
            (hoursWhere includeInStats (concat dataChunks))).
Proof.
  intros Hres Hnd Ht Hs Hb.
  pose proof (optimize_returned_loop _ _ _ _ _ Hres) as [_ [_ [Hmix _]]].
  rewrite Hmix. unfold extractHours. rewrite extract_mix. cbn [accMix].
  unfold getOr0 at 1, emptyMap. rewrite Qplus_0_l. unfold hoursWhere.
  apply sumQ_map_ext. intros ir _.
  rewrite (TechType_eqb_neq _ _ Hb), generationOf_single by assumption. ring.
Qed.

(** X26. The total cost of a returned result splits into the cost
    charts' terms: the annual fixed cost of every enabled technology as
    the charts compute it, the annual variable cost of every enabled
    non-storage technology as the charts compute it, 0.1 per MWh of
    weighted storage charge and 20,000,000 per MWh of unserved energy,
    provided the enabled technologies have distinct ids and only storage
    carries the id [BATTERY]. *)
Theorem total_cost_in_chart_terms solver techs dataChunks minRenewables res :
  optimizeWithHiGHS solver techs dataChunks minRenewables = Returned res ->
  NoDup (map id (enabledTechsOf techs)) ->
  (forall t, In t (enabledTechsOf techs) -> id t = BATTERY -> is_storage (type t) = true) ->
  totalCost res ==
  sumQ (map (annualFixed res) (enabledTechsOf techs))
  + sumQ (map (annualVariable res)
              (filter (fun t => negb (is_storage (type t))) (enabledTechsOf techs)))
  + 0.1 * weightedCharge
            (primal (Columns (solver (lp (buildLPModel techs dataChunks minRenewables)))))
            (enabledTechsOf techs) (concat dataChunks)
  + 20000000 * unservedEnergy res.
Proof.
  intros Hres Hnd Hbatt.
  pose proof (optimize_returned_loop _ _ _ _ _ Hres) as [_ [_ [_ Hun]]].
  pose proof (optimize_returned _ _ _ _ _ Hres) as [_ [_ [_ [_ [_ Hcost]]]]].
  set (sol := Columns (solver (lp (buildLPModel techs dataChunks minRenewables)))) in *.
  rewrite Hcost, fixedCost_chart, variableCost_sum, !Qplus_0_l.
  rewrite Hun. unfold extractHours. rewrite extract_annualUnserved. cbn [annualUnserved].
  fold (hoursWhere includeInStats (concat dataChunks)).
  rewrite !sumQ_map_plus.
  assert (Hgen :
    sumQ (map (fun ir : nat * HourlyData =>
                 sumQ (map (fun t => primal sol (g_ (id t) (fst ir))
                                     * getMarginalCost t * weight (snd ir))
                           (filter (fun t => negb (is_storage (type t)))
                                   (enabledTechsOf techs))))
              (hoursWhere includeInStats (concat dataChunks)))
    == sumQ (map (annualVariable res)
                 (filter (fun t => negb (is_storage (type t))) (enabledTechsOf techs)))).
  { rewrite (sumQ_swap (fun (ir : nat * HourlyData) t =>
                          primal sol (g_ (id t) (fst ir)) * getMarginalCost t
                          * weight (snd ir))).
    apply sumQ_map_ext. intros t Ht. apply filter_In in Ht. destruct Ht as [Ht Hs].
    apply negb_true_iff in Hs. unfold annualVariable. cbv zeta. rewrite Hs.
    rewrite (mix_of_generator solver techs dataChunks minRenewables res t Hres Hnd Ht Hs).
    - fold sol. unfold getMarginalCost.
      rewrite <- sumQ_scale. apply sumQ_map_ext. intros ir _. ring.
    - intros Hid. rewrite (Hbatt t Ht Hid) in Hs. discriminate. }
  rewrite Hgen. unfold weightedCharge.
  assert (Hch :
    sumQ (map (fun ir : nat * HourlyData =>
                 chargeAt (primal sol) (enabledTechsOf techs) (fst ir) * 0.1 * weight (snd ir))
              (hoursWhere includeInStats (concat dataChunks)))
    == 0.1 * sumQ (map (fun ir : nat * HourlyData =>
                          chargeAt (primal sol) (enabledTechsOf techs) (fst ir)
                          * weight (snd ir))
                       (hoursWhere includeInStats (concat dataChunks)))).
  { rewrite Qmult_comm, <- sumQ_scale. apply sumQ_map_ext. intros ir _. ring. }
  assert (Hu :
    sumQ (map (fun ir : nat * HourlyData =>
                 primal sol (u_ (fst ir)) * 20000000 * weight (snd ir))
              (hoursWhere includeInStats (concat dataChunks)))
    == 20000000 * (0 + sumQ (map (fun ir : nat * HourlyData =>
                                    primal sol (u_ (fst ir)) * weight (snd ir))
                                 (hoursWhere includeInStats (concat dataChunks))))).
  { rewrite Qplus_0_l, Qmult_comm, <- sumQ_scale. apply sumQ_map_ext. intros ir _. ring. }
  rewrite Hch, Hu. ring.
Qed.

Lemma total_cost_in_chart_terms_witness :
  exists res,
    optimizeWithHiGHS pinnedSolarSolver [pinnedSolar] twoHours 0 = Returned res /\
    totalCost res ==
    sumQ (map (annualFixed res) [pinnedSolar])
    + sumQ (map (annualVariable res) [pinnedSolar])
    + 0.1 * weightedCharge
              (primal (Columns (pinnedSolarSolver (lp (buildLPModel [pinnedSolar] twoHours 0)))))
              [pinnedSolar] (concat twoHours)
    + 20000000 * unservedEnergy res.
Proof.
  destruct (optimal_status_returns pinnedSolarSolver [pinnedSolar] twoHours 0 eq_refl)
    as [res Hres].
  exists res. split; [exact Hres|].
  apply (total_cost_in_chart_terms pinnedSolarSolver [pinnedSolar] twoHours 0 res Hres).
  - repeat constructor. simpl. tauto.
  - intros t [<-|[]]. discriminate.
Defined.

Lemma fold_sum {A : Type} (f : A -> Q) (l : list A) :
  forall acc, fold_left (fun sum x => sum + f x) l acc == acc + sumQ (map f l).
Proof.
  unfold sumQ. induction l as [|x l IH]; intros acc; cbn [fold_left map fold_right]; [ring|].
  rewrite IH. ring.
Qed.





(** ** The client-side optimizer *)

Section ObjectLemmas.
Context {K V : Type} (K_eq_dec : forall a b : K, {a = b} + {a <> b}).

Lemma lookup_assign_same (o : list (K * V)) (k : K) (v : V) :
  lookup K_eq_dec (assign K_eq_dec o k v) k = Some v.
Proof.
  induction o as [|[k' v'] o IH]; cbn [assign lookup].
  - destruct (K_eq_dec k k); [reflexivity|congruence].
  - destruct (K_eq_dec k' k) as [E|E]; cbn [lookup].
    + destruct (K_eq_dec k' k); [reflexivity|congruence].
    + destruct (K_eq_dec k' k); [congruence|exact IH].
Qed.

Lemma lookup_assign_other (o : list (K * V)) (k k' : K) (v : V) :
  k' <> k -> lookup K_eq_dec (assign K_eq_dec o k v) k' = lookup K_eq_dec o k'.
Proof.
  intros Hne. induction o as [|[k0 v0] o IH]; cbn [assign lookup].
  - destruct (K_eq_dec k k'); [congruence|reflexivity].
  - destruct (K_eq_dec k0 k) as [E|E]; cbn [lookup].
    + subst k0. destruct (K_eq_dec k k'); [congruence|reflexivity].
    + destruct (K_eq_dec k0 k'); [reflexivity|exact IH].
Qed.

End ObjectLemmas.

Lemma propsOf_setConstraint m c b v :
  propsOf (Optimizer.setConstraint m c b) v = propsOf m v.
Proof. reflexivity. Qed.

Lemma propsOf_setVariable m v props v' :
  propsOf (Optimizer.setVariable m v props) v' =
  if var_eq_dec v' v then Some props else propsOf m v'.
Proof.
  unfold propsOf, Optimizer.setVariable. cbn [Optimizer.variables].
  destruct (var_eq_dec v' v) as [->|Hne].
  - apply lookup_assign_same.
  - now apply lookup_assign_other.
Qed.

Lemma setCoefficient_returns m v k x props :
  propsOf m v = Some props ->
  exists m',
    Optimizer.setCoefficient m v k x = Returned m' /\
    Optimizer.constraints m' = Optimizer.constraints m /\
    forall v', propsOf m' v' =
               if var_eq_dec v' v then Some (assign Optimizer.key_eq_dec props k x)
               else propsOf m v'.
Proof.
  intros Hp. unfold Optimizer.setCoefficient. unfold propsOf in Hp. rewrite Hp.
  eexists. split; [reflexivity|]. split; [reflexivity|]. intros v'.
  unfold propsOf. cbn [Optimizer.variables].
  destruct (var_eq_dec v' v) as [->|Hne].
  - apply lookup_assign_same.
  - now apply lookup_assign_other.
Qed.

Lemma keepsVariables_refl m : keepsVariables m m.
Proof. intros v H. exact H. Qed.

Lemma keepsVariables_trans m1 m2 m3 :
  keepsVariables m1 m2 -> keepsVariables m2 m3 -> keepsVariables m1 m3.
Proof. intros H12 H23 v H. apply H23, H12, H. Qed.

Lemma keepsVariables_setConstraint m c b : keepsVariables m (Optimizer.setConstraint m c b).
Proof. intros v H. now rewrite propsOf_setConstraint. Qed.

Lemma keepsVariables_setVariable m v props :
  keepsVariables m (Optimizer.setVariable m v props).
Proof.
  intros v' H. rewrite propsOf_setVariable. destruct (var_eq_dec v' v); [discriminate|exact H].
Qed.

Lemma has_setVariable m v props : propsOf (Optimizer.setVariable m v props) v <> None.
Proof.
  rewrite propsOf_setVariable. destruct (var_eq_dec v v); [discriminate|congruence].
Qed.

Lemma setCoefficient_keeps m v k x :
  propsOf m v <> None ->
  exists m', Optimizer.setCoefficient m v k x = Returned m' /\ keepsVariables m m'.
Proof.
  intros H. destruct (propsOf m v) as [props|] eqn:Hp; [|congruence].
  destruct (setCoefficient_returns m v k x props Hp) as [m' [Hm [_ Hprops]]].
  exists m'. split; [exact Hm|]. intros v' Hv'. rewrite Hprops.
  destruct (var_eq_dec v' v); [discriminate|exact Hv'].
Qed.

Lemma generationStep_keeps hourData i m tech :
  propsOf m (c_ (id tech)) <> None ->
  exists m',
    Optimizer.generationStep hourData i (Returned m) tech = Returned m' /\
    keepsVariables m m'.
Proof.
  intros Hc. unfold Optimizer.generationStep, Optimizer.andThen. cbv zeta.
  destruct (is_storage (type tech)).
  { exists m. split; [reflexivity|apply keepsVariables_refl]. }
  set (m1 := Optimizer.setConstraint (Optimizer.setVariable m _ _) _ _).
  assert (H1 : keepsVariables m m1).
  { eapply keepsVariables_trans;
      [apply keepsVariables_setVariable|apply keepsVariables_setConstraint]. }
  destruct (is_renewable (type tech)).
  - destruct (setCoefficient_keeps m1 (c_ (id tech))
                (Optimizer.on (Optimizer.cap (id tech) i))
                (-1 * orDefault (Some (if TechType_eqb (id tech) SOLAR then solar hourData
                                       else wind hourData)) 0)
                (H1 _ Hc)) as [m' [Hm' Hk]].
    exists m'. split; [exact Hm'|]. eapply keepsVariables_trans; eassumption.
  - destruct (setCoefficient_keeps m1 (c_ (id tech))
                (Optimizer.on (Optimizer.cap (id tech) i)) (-1) (H1 _ Hc)) as [m' [Hm' Hk]].
    exists m'. split; [exact Hm'|]. eapply keepsVariables_trans; eassumption.
Qed.

Lemma generation_keeps hourData i (l : list TechDefinition) :
  forall m,
    (forall t, In t l -> propsOf m (c_ (id t)) <> None) ->
    exists m',
      fold_left (Optimizer.generationStep hourData i) l (Returned m) = Returned m' /\
      keepsVariables m m'.
Proof.
  induction l as [|t l IH]; intros m Hc; cbn [fold_left].
  - exists m. split; [reflexivity|apply keepsVariables_refl].
  - destruct (generationStep_keeps hourData i m t (Hc t (or_introl eq_refl)))
      as [m1 [Hm1 Hk1]].
    rewrite Hm1.
    destruct (IH m1) as [m' [Hm' Hk']].
    { intros t' Ht'. apply Hk1, Hc. now right. }
    exists m'. split; [exact Hm'|]. eapply keepsVariables_trans; eassumption.
Qed.

Ltac coefficient_step H :=
  match goal with
  | |- context [Optimizer.setCoefficient ?m ?v ?k ?x] =>
      let m' := fresh "m" in
      let Hm := fresh "Hm" in
      let Hk := fresh "Hk" in
      destruct (setCoefficient_keeps m v k x) as [m' [Hm Hk]];
      [ H | rewrite Hm; cbn [Optimizer.andThen] ]
  end.

Lemma storageStep_keeps TOTAL_HOURS i battTech m :
  propsOf m (c_ (id battTech)) <> None ->
  exists m',
    Optimizer.storageStep TOTAL_HOURS i battTech m = Returned m' /\
    keepsVariables m m'.
Proof.
  intros Hc. unfold Optimizer.storageStep. cbv zeta.
  set (m1 := Optimizer.setVariable m (b_ch_ i) _).
  set (m2 := Optimizer.setVariable m1 (b_dis_ i) _).
  set (m3 := Optimizer.setVariable m2 (b_soc_ i) _).
  assert (H3 : keepsVariables m m3).
  { repeat (eapply keepsVariables_trans; [|apply keepsVariables_setVariable]).
    apply keepsVariables_refl. }
  assert (Hsoc : propsOf m3 (b_soc_ i) <> None) by apply has_setVariable.
  assert (Hdis : propsOf m3 (b_dis_ i) <> None)
    by (apply keepsVariables_setVariable, has_setVariable).
  assert (Hch : propsOf m3 (b_ch_ i) <> None)
    by (apply keepsVariables_setVariable, keepsVariables_setVariable, has_setVariable).
  assert (Hfirst : exists m4,
             (if negb (i mod HOURS_IN_WEEK =? 0)%nat then
                if (Z.of_nat i <? Z.of_nat TOTAL_HOURS - 1)%Z
                   && negb ((i + 1) mod HOURS_IN_WEEK =? 0)%nat
                then Optimizer.setCoefficient m3 (b_soc_ i)
                       (Optimizer.on (Optimizer.soc_dyn (i + 1))) (-1)
                else Returned m3
              else Returned m3) = Returned m4 /\ keepsVariables m3 m4).
  { destruct (negb (i mod HOURS_IN_WEEK =? 0)%nat);
      [|exists m3; split; [reflexivity|apply keepsVariables_refl]].
    destruct ((Z.of_nat i <? Z.of_nat TOTAL_HOURS - 1)%Z
              && negb ((i + 1) mod HOURS_IN_WEEK =? 0)%nat);
      [|exists m3; split; [reflexivity|apply keepsVariables_refl]].
    now apply setCoefficient_keeps. }
  destruct Hfirst as [m4 [Hm4 Hk4]]. rewrite Hm4. cbn [Optimizer.andThen].
  assert (Hsecond : exists m5,
             (if negb ((i + 1) mod HOURS_IN_WEEK =? 0)%nat then
                Optimizer.setCoefficient m4 (b_soc_ i)
                  (Optimizer.on (Optimizer.soc_dyn (i + 1))) (-1)
              else
                Optimizer.setCoefficient m4 (b_soc_ i)
                  (Optimizer.on (Optimizer.soc_dyn (i - (HOURS_IN_WEEK - 1)))) (-1))
             = Returned m5 /\ keepsVariables m4 m5).
  { destruct (negb ((i + 1) mod HOURS_IN_WEEK =? 0)%nat);
      apply setCoefficient_keeps, Hk4, Hsoc. }
  destruct Hsecond as [m5 [Hm5 Hk5]]. rewrite Hm5. cbn [Optimizer.andThen].
  assert (H5 : keepsVariables m3 m5) by (eapply keepsVariables_trans; eassumption).
  set (m6 := Optimizer.setConstraint (Optimizer.setConstraint m5 _ _) _ _).
  assert (H6 : keepsVariables m3 m6).
  { eapply keepsVariables_trans; [exact H5|].
    eapply keepsVariables_trans; apply keepsVariables_setConstraint. }
  coefficient_step ltac:(apply H6, Hch).
  coefficient_step ltac:(apply Hk, H6, H3, Hc).
  coefficient_step ltac:(apply Hk0, Hk, H6, Hdis).
  coefficient_step ltac:(apply Hk1, Hk0, Hk, H6, H3, Hc).
  coefficient_step ltac:(apply Hk2, Hk1, Hk0, Hk, H6, H3, Hc).
  eexists. split; [reflexivity|].
  intros v Hv. apply Hk3, Hk2, Hk1, Hk0, Hk, H6, H3, Hv.
Qed.

Lemma findStorage_In enabledTechs battTech :
  findStorage enabledTechs = Some battTech -> In battTech enabledTechs.
Proof. unfold findStorage. intros H. apply find_some in H. tauto. Qed.

Lemma hourStep_keeps enabledTechs TOTAL_HOURS m ih :
  (forall t, In t enabledTechs -> propsOf m (c_ (id t)) <> None) ->
  exists m',
    Optimizer.hourStep enabledTechs TOTAL_HOURS (Returned m) ih = Returned m' /\
    keepsVariables m m'.
Proof.
  intros Hc. destruct ih as [i hourData]. unfold Optimizer.hourStep. cbv zeta.
  cbn [Optimizer.andThen].
  set (m1 := if existsb _ enabledTechs then _ else _).
  assert (H1 : keepsVariables m m1).
  { subst m1. destruct (existsb _ enabledTechs).
    - repeat (eapply keepsVariables_trans; [|apply keepsVariables_setConstraint]).
      apply keepsVariables_refl.
    - apply keepsVariables_setConstraint. }
  destruct (generation_keeps hourData i enabledTechs m1) as [m2 [Hm2 Hk2]].
  { intros t Ht. apply H1, Hc, Ht. }
  rewrite Hm2. cbn [Optimizer.andThen].
  destruct (findStorage enabledTechs) as [battTech|] eqn:Eb.
  - destruct (storageStep_keeps TOTAL_HOURS i battTech m2) as [m3 [Hm3 Hk3]].
    { apply Hk2, H1, Hc. now apply findStorage_In. }
    rewrite Hm3. cbn [Optimizer.andThen]. eexists. split; [reflexivity|].
    intros v Hv. apply keepsVariables_setVariable, Hk3, Hk2, H1, Hv.
  - cbn [Optimizer.andThen]. eexists. split; [reflexivity|].
    intros v Hv. apply keepsVariables_setVariable, Hk2, H1, Hv.
Qed.

Lemma hours_keep enabledTechs TOTAL_HOURS (L : list (nat * HourlyData)) :
  forall m,
    (forall t, In t enabledTechs -> propsOf m (c_ (id t)) <> None) ->
    exists m',
      fold_left (Optimizer.hourStep enabledTechs TOTAL_HOURS) L (Returned m) = Returned m' /\
      keepsVariables m m'.
Proof.
  induction L as [|ih L IH]; intros m Hc; cbn [fold_left].
  - exists m. split; [reflexivity|apply keepsVariables_refl].
  - destruct (hourStep_keeps enabledTechs TOTAL_HOURS m ih Hc) as [m1 [Hm1 Hk1]].
    rewrite Hm1. destruct (IH m1) as [m' [Hm' Hk']].
    { intros t Ht. apply Hk1, Hc, Ht. }
    exists m'. split; [exact Hm'|]. eapply keepsVariables_trans; eassumption.
Qed.

Lemma capacity_variables WEEKS_COUNT (l : list TechDefinition) :
  forall m t,
    In t l \/ propsOf m (c_ (id t)) <> None ->
    propsOf (fold_left (Optimizer.capacityStep WEEKS_COUNT) l m) (c_ (id t)) <> None.
Proof.
  induction l as [|x l IH]; intros m t H; cbn [fold_left].
  - destruct H as [[]|H]. exact H.
  - apply IH. destruct H as [[->|H]|H].
    + right. apply has_setVariable.
    + now left.
    + right. now apply keepsVariables_setVariable.
Qed.

Lemma buildModel_returns enabledTechs dataChunks :
  exists model, Optimizer.buildModel enabledTechs dataChunks = Returned model.
Proof.
  unfold Optimizer.buildModel. cbv zeta.
  destruct (hours_keep enabledTechs (length (concat dataChunks))
              (indexed 0 (concat dataChunks))
              (fold_left (Optimizer.capacityStep (length dataChunks)) enabledTechs
                         (Optimizer.mkModel [] []))) as [m' [Hm' _]].
  - intros t Ht. apply capacity_variables. now left.
  - exists m'. exact Hm'.
Qed.

(** X28. The client-side [optimizeCapacityExpansion] never throws: the
    model is always built (every coefficient is written into a variable
    the model already has), and the call returns the all-zero result with
    every technology id present when there are no data chunks, the empty
    result of the [catch] block when the solver throws, and the extracted
    result otherwise. *)
Theorem client_optimizer_never_throws (Solve : Optimizer.Model -> outcome Optimizer.Solution)
    (techList : list TechDefinition) (dataChunks : list (list HourlyData)) :
  exists model,
    Optimizer.buildModel (filter enabled techList) dataChunks = Returned model /\
    Optimizer.optimizeCapacityExpansion Solve techList dataChunks =
    Returned match dataChunks with
             | [] => Optimizer.emptyResult
             | _ :: _ =>
                 match Solve model with
                 | Returned solution =>
                     Optimizer.extractResults solution (filter enabled techList)
                                              (concat dataChunks)
                 | Thrown _ => Optimizer.failedResult
                 end
             end.
Proof.
  destruct (buildModel_returns (filter enabled techList) dataChunks) as [model Hm].
  exists model. split; [exact Hm|].
  unfold Optimizer.optimizeCapacityExpansion. cbv zeta.
  destruct dataChunks as [|chunk rest]; [reflexivity|].
  cbn [length Nat.eqb]. rewrite Hm. cbn [Optimizer.andThen].
  destruct (Solve model); reflexivity.
Qed.

Lemma max0_nonneg (x : Q) : 0 <= Optimizer.max0 x.
Proof. unfold Optimizer.max0. apply Q.le_max_l. Qed.

Lemma client_dispatch_curtailment solution caps i row (l : list TechDefinition) :
  forall st,
    match Optimizer.rowCurtailment st with Some c => 0 <= c | None => True end ->
    match Optimizer.rowCurtailment
            (fold_left (Optimizer.dispatchStep solution caps i row) l st) with
    | Some c => 0 <= c /\ (Optimizer.rowCurtailment st <> None \/ hasRenewable l = true)
    | None => Optimizer.rowCurtailment st = None /\ hasRenewable l = false
    end.
Proof.
  induction l as [|t l IH]; intros st Hst; cbn [fold_left].
  - destruct (Optimizer.rowCurtailment st); [split; [exact Hst|left; discriminate]|].
    split; reflexivity.
  - unfold hasRenewable. cbn [existsb]. fold (hasRenewable l).
    specialize (IH (Optimizer.dispatchStep solution caps i row st t)).
    unfold Optimizer.dispatchStep in IH |- *. cbv zeta in IH |- *.
    destruct (is_storage (type t)); cbn [negb andb orb].
    + exact (IH Hst).
    + destruct (is_renewable (type t)); cbn [Optimizer.rowCurtailment orb] in IH |- *.
      * match type of IH with
        | ?P -> _ => assert (Hp : P)
        end.
        { pose proof (max0_nonneg
                        (getOr0 caps (id t)
                         * (if TechType_eqb (id t) SOLAR then solar row else wind row)
                         - Optimizer.valueOf solution (g_ (id t) i))) as Hm.
          pose proof (orDefault_zero (Optimizer.rowCurtailment st)) as Hd.
          destruct (Optimizer.rowCurtailment st); rewrite Hd; lra. }
        specialize (IH Hp).
        destruct (Optimizer.rowCurtailment (fold_left _ l _)).
        -- split; [tauto|right; reflexivity].
        -- destruct IH as [IH _]. discriminate.
      * exact (IH Hst).
Qed.

Lemma client_rows solution enabledTechs caps (L : list (nat * HourlyData)) :
  forall st, exists ext,
      Optimizer.hourlyResults
        (fold_left (Optimizer.extractStep solution enabledTechs caps) L st)
      = Optimizer.hourlyResults st ++ ext /\
      Forall2 (clientRow solution enabledTechs) L ext.
Proof.
  induction L as [|[i row] L IH]; intros st; cbn [fold_left].
  - exists []. rewrite app_nil_r. split; [reflexivity|constructor].
  - destruct (IH (Optimizer.extractStep solution enabledTechs caps st (i, row)))
      as [ext [He Hf]].
    rewrite He. cbn [Optimizer.extractStep Optimizer.hourlyResults]. rewrite <- app_assoc.
    eexists. split; [reflexivity|]. constructor; [|exact Hf].
    unfold clientRow.
    cbn [Optimizer.data Optimizer.shortfall Optimizer.curtailment fst snd].
    split; [reflexivity|]. split; [reflexivity|].
    pose proof (client_dispatch_curtailment solution caps i row enabledTechs
                  (Optimizer.mkTechLoop emptyMap None (Optimizer.accMix st)
                                        (Optimizer.accCo2 st)) I) as Hc.
    cbn [Optimizer.rowCurtailment] in Hc.
    destruct (Optimizer.rowCurtailment (fold_left _ enabledTechs _)).
    + destruct Hc as [Hc [Hn|Hr]]; [congruence|]. now split.
    + tauto.
Qed.

Lemma client_totalDemand solution enabledTechs caps (L : list (nat * HourlyData)) :
  forall st,
    Optimizer.totalDemand (fold_left (Optimizer.extractStep solution enabledTechs caps) L st)
    == Optimizer.totalDemand st + sumQ (map (fun ir => demand (snd ir)) L).
Proof.
  unfold sumQ.
  induction L as [|[i row] L IH]; intros st; cbn [fold_left map fold_right]; [ring|].
  rewrite IH. cbn [Optimizer.extractStep Optimizer.totalDemand snd]. ring.
Qed.

Lemma clientRow_shortfalls solution enabledTechs (L : list (nat * HourlyData))
    (rows : list Optimizer.Row) :
  Forall2 (clientRow solution enabledTechs) L rows ->
  map Optimizer.shortfall rows = map (fun ir => Optimizer.valueOf solution (u_ (fst ir))) L /\
  map Optimizer.data rows = map snd L.
Proof.
  induction 1 as [|ir r L rows [Hd [Hs _]] _ [IH1 IH2]]; [split; reflexivity|].
  cbn [map]. now rewrite Hd, Hs, IH1, IH2.
Qed.

(** X29. When the solver returns a solution for data that is not empty,
    the client-side result has one row per hour in order, each carrying
    its input row, the unserved variable (0 when absent) as shortfall and
    a curtailment that exists exactly when a renewable technology is
    enabled and is never negative; the unserved energy is the sum of the
    unserved variables, the total cost is the solver's objective (0 when
    absent), and the levelised cost is the total cost divided by the
    demand less the unserved energy, which is replaced by 0.1 when it is
    smaller. *)
Theorem client_result_accounting (Solve : Optimizer.Model -> outcome Optimizer.Solution)
    (techList : list TechDefinition) (dataChunks : list (list HourlyData))
    (model : Optimizer.Model) (solution : Optimizer.Solution) :
  dataChunks <> [] ->
  Optimizer.buildModel (filter enabled techList) dataChunks = Returned model ->
  Solve model = Returned solution ->
  exists r,
    Optimizer.optimizeCapacityExpansion Solve techList dataChunks = Returned r /\
    Forall2 (clientRow solution (filter enabled techList))
            (indexed 0 (concat dataChunks)) (Optimizer.hourly r) /\
    map Optimizer.data (Optimizer.hourly r) = concat dataChunks /\
    Optimizer.unservedEnergy r ==
    sumQ (map (fun ir => Optimizer.valueOf solution (u_ (fst ir)))
              (indexed 0 (concat dataChunks))) /\
    Optimizer.totalCost r = orDefault (Optimizer.result solution) 0 /\
    Optimizer.lcoe r ==
    Optimizer.totalCost r
    / Qmax 0.1 (sumQ (map demand (concat dataChunks)) - Optimizer.unservedEnergy r).
Proof.
  intros Hne Hm Hs. unfold Optimizer.optimizeCapacityExpansion. cbv zeta.
  destruct dataChunks as [|chunk rest]; [congruence|].
  cbn [length Nat.eqb]. rewrite Hm. cbn [Optimizer.andThen]. rewrite Hs.
  eexists. split; [reflexivity|].
  unfold Optimizer.extractResults. cbv zeta.
  cbn [Optimizer.hourly Optimizer.unservedEnergy Optimizer.totalCost Optimizer.lcoe].
  set (enabledTechs := filter enabled techList).
  set (flat := concat (chunk :: rest)).
  set (caps := Optimizer.capacitiesOf solution enabledTechs).
  destruct (client_rows solution enabledTechs caps (indexed 0 flat)
              (Optimizer.mkHourLoop [] Optimizer.zeroMap 0 0)) as [ext [He Hrows]].
  cbn [Optimizer.hourlyResults app] in He. rewrite He.
  destruct (clientRow_shortfalls _ _ _ _ Hrows) as [Hshort Hdata].
  assert (Hun : fold_left (fun a b => a + Optimizer.shortfall b) ext 0
                == sumQ (map (fun ir => Optimizer.valueOf solution (u_ (fst ir)))
                             (indexed 0 flat))).
  { rewrite (fold_sum Optimizer.shortfall), Hshort. ring. }
  split; [exact Hrows|]. split; [now rewrite Hdata, indexed_snd|].
  split; [exact Hun|]. split; [reflexivity|].
  assert (Hd : Optimizer.totalDemand
                 (fold_left (Optimizer.extractStep solution enabledTechs caps)
                            (indexed 0 flat) (Optimizer.mkHourLoop [] Optimizer.zeroMap 0 0))
               == sumQ (map demand flat)).
  { rewrite client_totalDemand. cbn [Optimizer.totalDemand].
    rewrite <- (indexed_snd flat 0) at 2. rewrite map_map. ring. }
  apply Qdiv_comp; [reflexivity|]. apply Q.max_compat; [reflexivity|].
  rewrite Hd. reflexivity.
Qed.

Lemma client_result_accounting_witness :
  exists r,
    Optimizer.optimizeCapacityExpansion clientUnservedSolve allDisabled sampleChunks
    = Returned r /\
    Optimizer.lcoe r ==
    Optimizer.totalCost r
    / Qmax 0.1 (sumQ (map demand (concat sampleChunks)) - Optimizer.unservedEnergy r).
Proof.
  destruct (buildModel_returns (filter enabled allDisabled) sampleChunks) as [model Hm].
  destruct (client_result_accounting clientUnservedSolve allDisabled sampleChunks model
              (Optimizer.mkSolution
                 (fun v => match v with u_ _ => Some 30000 | _ => None end)
                 (Some 900000000)))
    as [r [Hr [_ [_ [_ [_ Hl]]]]]].
  - discriminate.
  - exact Hm.
  - reflexivity.
  - exists r. split; [exact Hr|exact Hl].
Defined.

Lemma coefficient_setConstraint m c b v k :
  Optimizer.coefficient (Optimizer.setConstraint m c b) v k = Optimizer.coefficient m v k.
Proof. reflexivity. Qed.

Lemma coefficient_setVariable m v props v' k :
  Optimizer.coefficient (Optimizer.setVariable m v props) v' k =
  if var_eq_dec v' v
  then match lookup Optimizer.key_eq_dec props k with Some x => x | None => 0 end
  else Optimizer.coefficient m v' k.
Proof.
  unfold Optimizer.coefficient. fold (propsOf (Optimizer.setVariable m v props) v').
  fold (propsOf m v'). rewrite propsOf_setVariable.
  destruct (var_eq_dec v' v); reflexivity.
Qed.

Lemma coefficient_setCoefficient m v k x m' :
  Optimizer.setCoefficient m v k x = Returned m' ->
  Optimizer.constraints m' = Optimizer.constraints m /\
  forall v' k',
    Optimizer.coefficient m' v' k' =
    if var_eq_dec v' v
    then if Optimizer.key_eq_dec k' k then x else Optimizer.coefficient m v' k'
    else Optimizer.coefficient m v' k'.
Proof.
  intros H.
  destruct (propsOf m v) as [props|] eqn:Hp.
  - destruct (setCoefficient_returns m v k x props Hp) as [m'' [Hm [Hc Hprops]]].
    rewrite Hm in H. injection H as <-. split; [exact Hc|]. intros v' k'.
    unfold Optimizer.coefficient. fold (propsOf m'' v'). fold (propsOf m v').
    rewrite Hprops. destruct (var_eq_dec v' v) as [->|Hne]; [|reflexivity].
    rewrite Hp. destruct (Optimizer.key_eq_dec k' k) as [->|Hk].
    + now rewrite lookup_assign_same.
    + now rewrite lookup_assign_other.
  - unfold Optimizer.setCoefficient in H. unfold propsOf in Hp. rewrite Hp in H.
    discriminate.
Qed.

Lemma lookup_setConstraint m c b c' :
  lookup Optimizer.cname_eq_dec (Optimizer.constraints (Optimizer.setConstraint m c b)) c' =
  if Optimizer.cname_eq_dec c' c then Some b
  else lookup Optimizer.cname_eq_dec (Optimizer.constraints m) c'.
Proof.
  unfold Optimizer.setConstraint. cbn [Optimizer.constraints].
  destruct (Optimizer.cname_eq_dec c' c) as [->|Hne].
  - apply lookup_assign_same.
  - now apply lookup_assign_other.
Qed.

Lemma sameSocRows_refl m : sameSocRows m m.
Proof. split; reflexivity. Qed.

Lemma sameSocRows_trans m1 m2 m3 :
  sameSocRows m1 m2 -> sameSocRows m2 m3 -> sameSocRows m1 m3.
Proof.
  intros [H1 H1'] [H2 H2']. split; intros; [now rewrite H2, H1|now rewrite H2', H1'].
Qed.

Lemma generationStep_soc hourData i m tech m' :
  (forall c, Optimizer.coefficient m (g_ (id tech) i) (Optimizer.on (Optimizer.soc_dyn c)) = 0) ->
  Optimizer.generationStep hourData i (Returned m) tech = Returned m' ->
  sameSocRows m m'.
Proof.
  intros Hg. unfold Optimizer.generationStep, Optimizer.andThen. cbv zeta.
  destruct (is_storage (type tech)).
  { intros H. injection H as <-. apply sameSocRows_refl. }
  set (m1 := Optimizer.setConstraint (Optimizer.setVariable m _ _) _ _).
  assert (H1 : sameSocRows m m1).
  { split.
    - intros v c. subst m1. rewrite coefficient_setConstraint, coefficient_setVariable.
      destruct (var_eq_dec v (g_ (id tech) i)) as [->|]; [|reflexivity].
      rewrite Hg. cbn [lookup].
      destruct (Optimizer.key_eq_dec Optimizer.cost _); [discriminate|].
      destruct (Optimizer.key_eq_dec (Optimizer.on (Optimizer.bal i)) _); [discriminate|].
      destruct (Optimizer.key_eq_dec (Optimizer.on (Optimizer.cap (id tech) i)) _);
        [discriminate|reflexivity].
    - intros c. subst m1. rewrite lookup_setConstraint.
      destruct (Optimizer.cname_eq_dec _ _); [discriminate|reflexivity]. }
  intros H.
  assert (Hset : exists x, Optimizer.setCoefficient m1 (c_ (id tech))
                             (Optimizer.on (Optimizer.cap (id tech) i)) x = Returned m')
    by (destruct (is_renewable (type tech)); eauto).
  destruct Hset as [x Hx]. apply coefficient_setCoefficient in Hx.
  destruct Hx as [Hc Hcoef]. eapply sameSocRows_trans; [exact H1|]. split.
  - intros v c. rewrite Hcoef. destruct (var_eq_dec v (c_ (id tech))); [|reflexivity].
    destruct (Optimizer.key_eq_dec _ _); [discriminate|reflexivity].
  - intros c. now rewrite Hc.
Qed.

Lemma generation_soc hourData i (l : list TechDefinition) :
  forall m m',
    (forall t c, Optimizer.coefficient m (g_ t i) (Optimizer.on (Optimizer.soc_dyn c)) = 0) ->
    fold_left (Optimizer.generationStep hourData i) l (Returned m) = Returned m' ->
    sameSocRows m m'.
Proof.
  induction l as [|t l IH]; intros m m' Hg H; cbn [fold_left] in H.
  - injection H as <-. apply sameSocRows_refl.
  - destruct (Optimizer.generationStep hourData i (Returned m) t) as [msg|m1] eqn:E.
    + exfalso. clear - H. induction l as [|x l IHl]; cbn [fold_left] in H; [discriminate|].
      apply IHl. exact H.
    + assert (H1 : sameSocRows m m1)
        by (eapply generationStep_soc; [apply Hg|exact E]).
      eapply sameSocRows_trans; [exact H1|]. apply IH; [|exact H].
      intros t' c. destruct H1 as [H1 _]. now rewrite H1.
Qed.

Lemma socSuccessor_other (j : nat) : socSuccessor j <> j.
Proof.
  unfold socSuccessor, HOURS_IN_WEEK.
  destruct (Nat.eqb_spec ((j + 1) mod 168) 0) as [E|E]; [|lia].
  pose proof (Nat.div_mod_eq (j + 1) 168). lia.
Qed.

Ltac split_decision :=
  match goal with
  | |- context [var_eq_dec ?a ?b] =>
      let E := fresh "E" in
      destruct (var_eq_dec a b) as [E|E];
      [ first [discriminate E | injection E as E; subst | idtac]
      | first [exfalso; apply E; reflexivity | idtac] ]
  | |- context [Optimizer.key_eq_dec ?a ?b] =>
      let E := fresh "E" in
      destruct (Optimizer.key_eq_dec a b) as [E|E];
      [ first [discriminate E | injection E as E; subst | idtac]
      | first [exfalso; apply E; reflexivity | idtac] ]
  | |- context [(?a =? ?b)%nat] =>
      destruct (Nat.eqb_spec a b); [subst|]
  end.

Ltac returned_coefficient H :=
  match type of H with
  | Optimizer.andThen (Optimizer.setCoefficient ?m ?v ?k ?x) _ = Returned _ =>
      let msg := fresh "msg" in
      let m' := fresh "m" in
      let E := fresh "E" in
      destruct (Optimizer.setCoefficient m v k x) as [msg|m'] eqn:E;
      cbn [Optimizer.andThen] in H; [discriminate|];
      apply coefficient_setCoefficient in E
  | Optimizer.setCoefficient ?m ?v ?k ?x = Returned _ =>
      apply coefficient_setCoefficient in H
  end.

Lemma storageStep_soc TOTAL_HOURS i battTech m m' :
  Optimizer.storageStep TOTAL_HOURS i battTech m = Returned m' ->
  (forall c, lookup Optimizer.cname_eq_dec (Optimizer.constraints m') (Optimizer.soc_dyn c)
             = lookup Optimizer.cname_eq_dec (Optimizer.constraints m) (Optimizer.soc_dyn c)) /\
  forall v c,
    Optimizer.coefficient m' v (Optimizer.on (Optimizer.soc_dyn c)) =
    match v with
    | b_soc_ j =>
        if (j =? i)%nat
        then if (j =? c)%nat then 1 else if (socSuccessor j =? c)%nat then -1 else 0
        else Optimizer.coefficient m v (Optimizer.on (Optimizer.soc_dyn c))
    | b_dis_ j =>
        if (j =? i)%nat then if (j =? c)%nat then 1 else 0
        else Optimizer.coefficient m v (Optimizer.on (Optimizer.soc_dyn c))
    | b_ch_ j =>
        if (j =? i)%nat then if (j =? c)%nat then -1 * Optimizer.BATTERY_EFF else 0
        else Optimizer.coefficient m v (Optimizer.on (Optimizer.soc_dyn c))
    | _ => Optimizer.coefficient m v (Optimizer.on (Optimizer.soc_dyn c))
    end.
Proof.
  unfold Optimizer.storageStep. cbv zeta.
  set (m1 := Optimizer.setVariable m (b_ch_ i) _).
  set (m2 := Optimizer.setVariable m1 (b_dis_ i) _).
  set (m3 := Optimizer.setVariable m2 (b_soc_ i) _).
  intros H.
  (* the optional first link writes the entry the forward link writes again *)
  assert (Hfirst : exists m4,
             (if negb (i mod HOURS_IN_WEEK =? 0)%nat then
                if (Z.of_nat i <? Z.of_nat TOTAL_HOURS - 1)%Z
                   && negb ((i + 1) mod HOURS_IN_WEEK =? 0)%nat
                then Optimizer.setCoefficient m3 (b_soc_ i)
                       (Optimizer.on (Optimizer.soc_dyn (i + 1))) (-1)
                else Returned m3
              else Returned m3) = Returned m4 /\
             Optimizer.constraints m4 = Optimizer.constraints m3 /\
             forall v' k',
               Optimizer.coefficient m4 v' k' =
               if var_eq_dec v' (b_soc_ i)
               then if Optimizer.key_eq_dec k' (Optimizer.on (Optimizer.soc_dyn (socSuccessor i)))
                    then (if negb (i mod HOURS_IN_WEEK =? 0)%nat
                             && ((Z.of_nat i <? Z.of_nat TOTAL_HOURS - 1)%Z
                                 && negb ((i + 1) mod HOURS_IN_WEEK =? 0)%nat)
                          then -1 else Optimizer.coefficient m3 v' k')
                    else Optimizer.coefficient m3 v' k'
               else Optimizer.coefficient m3 v' k').
  { revert H.
    destruct (negb (i mod HOURS_IN_WEEK =? 0)%nat); cbn [andb]; intros H.
    2:{ exists m3. split; [reflexivity|]. split; [reflexivity|]. intros v' k'.
        destruct (var_eq_dec v' (b_soc_ i)); [|reflexivity].
        destruct (Optimizer.key_eq_dec _ _); reflexivity. }
    revert H. destruct ((Z.of_nat i <? Z.of_nat TOTAL_HOURS - 1)%Z); cbn [andb]; intros H.
    2:{ exists m3. split; [reflexivity|]. split; [reflexivity|]. intros v' k'.
        destruct (var_eq_dec v' (b_soc_ i)); [|reflexivity].
        destruct (Optimizer.key_eq_dec _ _); reflexivity. }
    revert H. destruct (negb ((i + 1) mod HOURS_IN_WEEK =? 0)%nat) eqn:En; intros H.
    2:{ exists m3. split; [reflexivity|]. split; [reflexivity|]. intros v' k'.
        destruct (var_eq_dec v' (b_soc_ i)); [|reflexivity].
        destruct (Optimizer.key_eq_dec _ _); reflexivity. }
    destruct (Optimizer.setCoefficient m3 (b_soc_ i)
                (Optimizer.on (Optimizer.soc_dyn (i + 1))) (-1)) as [msg|m4] eqn:E4.
    { exfalso. cbn [Optimizer.andThen] in H. discriminate. }
    exists m4. split; [reflexivity|]. apply coefficient_setCoefficient in E4.
    destruct E4 as [Hc Hcoef]. split; [exact Hc|]. intros v' k'. rewrite Hcoef.
    unfold socSuccessor. apply negb_true_iff in En. rewrite En. reflexivity. }
  destruct Hfirst as [m4 [Hm4 [Hc4 Hcoef4]]]. rewrite Hm4 in H. cbn [Optimizer.andThen] in H.
  assert (Hsecond : exists m5 rest,
             Optimizer.setCoefficient m4 (b_soc_ i)
               (Optimizer.on (Optimizer.soc_dyn (socSuccessor i))) (-1) = Returned m5 /\
             rest m5 = Returned m' /\
             rest = (fun m =>
                       let m := Optimizer.setConstraint m (Optimizer.ch_lim i)
                                                        (Optimizer.max 0) in
                       let m := Optimizer.setConstraint m (Optimizer.dis_lim i)
                                                        (Optimizer.max 0) in
                       Optimizer.andThen
                         (Optimizer.setCoefficient m (b_ch_ i)
                            (Optimizer.on (Optimizer.ch_lim i)) 1) (fun m =>
                       Optimizer.andThen
                         (Optimizer.setCoefficient m (c_ (id battTech))
                            (Optimizer.on (Optimizer.ch_lim i)) (-1)) (fun m =>
                       Optimizer.andThen
                         (Optimizer.setCoefficient m (b_dis_ i)
                            (Optimizer.on (Optimizer.dis_lim i)) 1) (fun m =>
                       Optimizer.andThen
                         (Optimizer.setCoefficient m (c_ (id battTech))
                            (Optimizer.on (Optimizer.dis_lim i)) (-1)) (fun m =>
                       Optimizer.setCoefficient m (c_ (id battTech))
                         (Optimizer.on (Optimizer.soc_max i))
                         (-1 * Optimizer.BATTERY_DURATION))))))).
  { unfold socSuccessor.
    destruct ((i + 1) mod HOURS_IN_WEEK =? 0)%nat; cbn [negb] in H |- *;
      match type of H with
      | Optimizer.andThen (Optimizer.setCoefficient ?m ?v ?k ?x) ?f = _ =>
          destruct (Optimizer.setCoefficient m v k x) as [msg|m5] eqn:E5;
          cbn [Optimizer.andThen] in H; [discriminate|];
          exists m5, f; split; [reflexivity|]; split; [exact H|reflexivity]
      end. }
  destruct Hsecond as [m5 [rest [E5 [Hrest ->]]]]. clear H.
  apply coefficient_setCoefficient in E5. destruct E5 as [Hc5 Hcoef5].
  cbv zeta in Hrest.
  set (m6 := Optimizer.setConstraint (Optimizer.setConstraint m5 _ _) _ _) in Hrest.
  returned_coefficient Hrest. destruct E as [Hc7 Hcoef7].
  returned_coefficient Hrest. destruct E as [Hc8 Hcoef8].
  returned_coefficient Hrest. destruct E as [Hc9 Hcoef9].
  returned_coefficient Hrest. destruct E as [Hc10 Hcoef10].
  returned_coefficient Hrest. destruct Hrest as [Hc11 Hcoef11].
  split.
  { intros c. rewrite Hc11, Hc10, Hc9, Hc8, Hc7. subst m6.
    rewrite !lookup_setConstraint.
    destruct (Optimizer.cname_eq_dec _ (Optimizer.dis_lim i)); [discriminate|].
    destruct (Optimizer.cname_eq_dec _ (Optimizer.ch_lim i)); [discriminate|].
    now rewrite Hc5, Hc4. }
  intros v c.
  assert (Hlate : Optimizer.coefficient m' v (Optimizer.on (Optimizer.soc_dyn c))
                  = Optimizer.coefficient m5 v (Optimizer.on (Optimizer.soc_dyn c))).
  { rewrite Hcoef11, Hcoef10, Hcoef9, Hcoef8, Hcoef7.
    subst m6. rewrite !coefficient_setConstraint.
    repeat match goal with
           | |- context [Optimizer.key_eq_dec ?a ?b] =>
               destruct (Optimizer.key_eq_dec a b); [discriminate|]
           end.
    repeat match goal with
           | |- context [var_eq_dec ?a ?b] => destruct (var_eq_dec a b)
           end; reflexivity. }
  rewrite Hlate, Hcoef5, Hcoef4. subst m3 m2 m1.
  rewrite !coefficient_setVariable. cbn [lookup].
  pose proof (socSuccessor_other i) as Hother.
  destruct v as [t|t|t j|j|j|j|j]; repeat split_decision;
    first [reflexivity | congruence | lia | destruct (negb _ && _); reflexivity].
Qed.

Lemma hourStep_thrown enabledTechs TOTAL_HOURS (L : list (nat * HourlyData)) message :
  fold_left (Optimizer.hourStep enabledTechs TOTAL_HOURS) L (Thrown message) = Thrown message.
Proof. induction L as [|ih L IH]; cbn [fold_left]; [reflexivity|exact IH]. Qed.

Lemma findStorage_exists enabledTechs battTech :
  findStorage enabledTechs = Some battTech ->
  existsb (fun t => is_storage (type t)) enabledTechs = true.
Proof.
  unfold findStorage. intros H. apply find_some in H. apply existsb_exists.
  exists battTech. exact H.
Qed.

Lemma hourStep_soc enabledTechs TOTAL_HOURS battTech i hourData m m' :
  findStorage enabledTechs = Some battTech ->
  socRowsUpTo i m ->
  Optimizer.hourStep enabledTechs TOTAL_HOURS (Returned m) (i, hourData) = Returned m' ->
  socRowsUpTo (S i) m'.
Proof.
  intros Hb [Hcoef Hrows]. unfold Optimizer.hourStep. cbn [Optimizer.andThen]. cbv zeta.
  rewrite (findStorage_exists _ _ Hb), Hb.
  set (m1 := Optimizer.setConstraint (Optimizer.setConstraint (Optimizer.setConstraint m _ _)
                                                              _ _) _ _).
  destruct (fold_left (Optimizer.generationStep hourData i) enabledTechs (Returned m1))
    as [msg|m2] eqn:E2; cbn [Optimizer.andThen]; [discriminate|].
  destruct (Optimizer.storageStep TOTAL_HOURS i battTech m2) as [msg|m3] eqn:E3;
    cbn [Optimizer.andThen]; [discriminate|].
  intros H. injection H as <-.
  apply generation_soc in E2.
  2:{ intros t c. subst m1. rewrite !coefficient_setConstraint. apply Hcoef. }
  destruct E2 as [Hc2 Hr2]. apply storageStep_soc in E3. destruct E3 as [Hr3 Hc3].
  split.
  - intros v c. rewrite coefficient_setVariable.
    destruct (var_eq_dec v (u_ i)) as [->|Hv].
    { cbn [lookup socCoefficients]. repeat split_decision; reflexivity. }
    rewrite Hc3.
    assert (Hold : Optimizer.coefficient m2 v (Optimizer.on (Optimizer.soc_dyn c))
                   = socCoefficients i v c).
    { rewrite Hc2. subst m1. rewrite !coefficient_setConstraint. apply Hcoef. }
    rewrite Hold. unfold socCoefficients.
    destruct v as [t|t|t j|j|j|j|j]; try reflexivity.
    + destruct (Nat.eqb_spec j i) as [->|Hne].
      * replace (i <? S i)%nat with true by (symmetry; apply Nat.ltb_lt; lia).
        reflexivity.
      * replace (j <? S i)%nat with (j <? i)%nat; [reflexivity|].
        destruct (Nat.ltb_spec j i), (Nat.ltb_spec j (S i)); try reflexivity; lia.
    + destruct (Nat.eqb_spec j i) as [->|Hne].
      * replace (i <? S i)%nat with true by (symmetry; apply Nat.ltb_lt; lia).
        reflexivity.
      * replace (j <? S i)%nat with (j <? i)%nat; [reflexivity|].
        destruct (Nat.ltb_spec j i), (Nat.ltb_spec j (S i)); try reflexivity; lia.
    + destruct (Nat.eqb_spec j i) as [->|Hne].
      * replace (i <? S i)%nat with true by (symmetry; apply Nat.ltb_lt; lia).
        reflexivity.
      * replace (j <? S i)%nat with (j <? i)%nat; [reflexivity|].
        destruct (Nat.ltb_spec j i), (Nat.ltb_spec j (S i)); try reflexivity; lia.
  - intros c Hc. cbn [Optimizer.setVariable Optimizer.constraints].
    rewrite Hr3, Hr2. subst m1. rewrite !lookup_setConstraint.
    destruct (Optimizer.cname_eq_dec _ (Optimizer.soc_max i)); [discriminate|].
    destruct (Optimizer.cname_eq_dec (Optimizer.soc_dyn c) (Optimizer.soc_dyn i)) as [E|E];
      [reflexivity|].
    destruct (Optimizer.cname_eq_dec _ (Optimizer.bal i)); [discriminate|].
    apply Hrows. assert (c <> i) by congruence. lia.
Qed.

Lemma hours_soc enabledTechs TOTAL_HOURS battTech (flat : list HourlyData) :
  findStorage enabledTechs = Some battTech ->
  forall n m m',
    socRowsUpTo n m ->
    fold_left (Optimizer.hourStep enabledTechs TOTAL_HOURS) (indexed n flat) (Returned m)
    = Returned m' ->
    socRowsUpTo (n + length flat) m'.
Proof.
  intros Hb. induction flat as [|hourData flat IH]; intros n m m' Hinv H;
    cbn [indexed fold_left length] in H |- *.
  - injection H as <-. now rewrite Nat.add_0_r.
  - destruct (Optimizer.hourStep enabledTechs TOTAL_HOURS (Returned m) (n, hourData))
      as [msg|m1] eqn:E1.
    + rewrite hourStep_thrown in H. discriminate.
    + replace (n + S (length flat))%nat with (S n + length flat)%nat by lia.
      apply (IH (S n) m1 m'); [|exact H].
      eapply hourStep_soc; eassumption.
Qed.

Lemma capacity_soc WEEKS_COUNT (l : list TechDefinition) :
  forall m,
    socRowsUpTo 0 m -> socRowsUpTo 0 (fold_left (Optimizer.capacityStep WEEKS_COUNT) l m).
Proof.
  induction l as [|t l IH]; intros m Hinv; cbn [fold_left]; [exact Hinv|].
  apply IH. destruct Hinv as [Hcoef _]. split; [|intros c Hc; lia].
  intros v c. unfold Optimizer.capacityStep. cbv zeta. rewrite coefficient_setVariable.
  destruct (var_eq_dec v (c_ (id t))) as [->|]; [|apply Hcoef].
  cbn [lookup socCoefficients]. repeat split_decision; reflexivity.
Qed.

Lemma buildModel_soc enabledTechs dataChunks battTech model :
  findStorage enabledTechs = Some battTech ->
  Optimizer.buildModel enabledTechs dataChunks = Returned model ->
  socRowsUpTo (length (concat dataChunks)) model.
Proof.
  intros Hb H. unfold Optimizer.buildModel in H. cbv zeta in H.
  apply (hours_soc enabledTechs _ battTech (concat dataChunks) Hb 0) in H; [exact H|].
  apply capacity_soc. split; [|intros c Hc; lia].
  intros v c. unfold Optimizer.coefficient. cbn [Optimizer.variables lookup].
  destruct v; reflexivity.
Qed.

(** X30. With a storage technology enabled, the model the client-side
    optimizer builds declares for every hour [i] the row [soc_dyn_i] as an
    equality with 0 whose only entries are 1 for the state of charge and
    for the discharge of hour [i], -0.9 for its charge, and -1 for the
    state of charge of the hour before; for the first hour of a week that
    is the last hour of the same week (no hour at all when the week is
    cut short), so the state of charge is cyclic within each week. *)
Theorem client_soc_rows_cyclic enabledTechs dataChunks battTech model (i : nat) :
  Optimizer.buildModel enabledTechs dataChunks = Returned model ->
  findStorage enabledTechs = Some battTech ->
  (i < length (concat dataChunks))%nat ->
  lookup Optimizer.cname_eq_dec (Optimizer.constraints model) (Optimizer.soc_dyn i)
  = Some (Optimizer.equal 0) /\
  (forall v, Optimizer.coefficient model v (Optimizer.on (Optimizer.soc_dyn i))
             = socCoefficients (length (concat dataChunks)) v i) /\
  Optimizer.coefficient model (b_soc_ i) (Optimizer.on (Optimizer.soc_dyn i)) = 1 /\
  Optimizer.coefficient model (b_dis_ i) (Optimizer.on (Optimizer.soc_dyn i)) = 1 /\
  Optimizer.coefficient model (b_ch_ i) (Optimizer.on (Optimizer.soc_dyn i))
  = -1 * Optimizer.BATTERY_EFF /\
  (forall j, (j < length (concat dataChunks))%nat -> j <> i ->
             Optimizer.coefficient model (b_soc_ j) (Optimizer.on (Optimizer.soc_dyn i))
             = if (i mod HOURS_IN_WEEK =? 0)%nat
               then if (j =? i + (HOURS_IN_WEEK - 1))%nat then -1 else 0
               else if (j + 1 =? i)%nat then -1 else 0).
Proof.
  intros Hm Hb Hi. destruct (buildModel_soc _ _ _ _ Hb Hm) as [Hcoef Hrows].
  split; [now apply Hrows|]. split; [intro v; apply Hcoef|].
  assert (Hlt : (i <? length (concat dataChunks))%nat = true) by now apply Nat.ltb_lt.
  repeat split.
  - rewrite Hcoef. cbn [socCoefficients]. now rewrite Hlt, Nat.eqb_refl.
  - rewrite Hcoef. cbn [socCoefficients]. now rewrite Hlt, Nat.eqb_refl.
  - rewrite Hcoef. cbn [socCoefficients]. now rewrite Hlt, Nat.eqb_refl.
  - intros j Hj Hne. rewrite Hcoef. cbn [socCoefficients].
    replace (j <? length (concat dataChunks))%nat with true
      by (symmetry; now apply Nat.ltb_lt).
    destruct (Nat.eqb_spec j i) as [?|_]; [congruence|].
    unfold socSuccessor, HOURS_IN_WEEK.
    pose proof (Nat.div_mod_eq (j + 1) 168) as Hj1.
    pose proof (Nat.div_mod_eq i 168) as Hi1.
    pose proof (Nat.mod_upper_bound (j + 1) 168 ltac:(lia)) as Hj2.
    pose proof (Nat.mod_upper_bound i 168 ltac:(lia)) as Hi2.
    destruct (Nat.eqb_spec ((j + 1) mod 168) 0) as [Ej|Ej];
      destruct (Nat.eqb_spec (i mod 168) 0) as [Ei|Ei];
      repeat match goal with
             | |- context [(?a =? ?b)%nat] => destruct (Nat.eqb_spec a b)
             end;
      try reflexivity; exfalso; lia.
Qed.

Lemma client_soc_rows_cyclic_witness :
  exists model,
    Optimizer.buildModel [defaultBattery] [flatWeek 0 1 true] = Returned model /\
    Optimizer.coefficient model (b_soc_ 167) (Optimizer.on (Optimizer.soc_dyn 0)) = -1.
Proof.
  destruct (buildModel_returns [defaultBattery] [flatWeek 0 1 true]) as [model Hm].
  exists model. split; [exact Hm|].
  destruct (client_soc_rows_cyclic [defaultBattery] [flatWeek 0 1 true] defaultBattery
              model 0 Hm eq_refl) as [_ [_ [_ [_ [_ Hlink]]]]].
  - vm_compute. lia.
  - rewrite (Hlink 167%nat); [reflexivity| |discriminate]. vm_compute. lia.
Defined.
